(** * Stage (internship) management: validation protocol, stage store and
      message router

    A shallow embedding of the Python sources

    - [stage-protocols.py]        (enumerations, [StageEvaluation], [Stage],
                                   [StageValidationProtocol]),
    - [enhanced-stage-service.py] ([StageManager] over its SQLite tables),
    - [stage-server.py]           ([StageServerManager]: registry and router),

    followed by the properties of the specification that concern them.

    Modelling conventions.
    - A Python [dict] with string keys is a [gmap string value]; JSON-like
      Python values are the inductive [value].
    - Python numbers ([int] and [float]) are exact rationals ([Q]); rounding
      of binary floating point is not represented.
    - A Python function that may raise returns a [result]; [try/except] is a
      [match] on it.
    - What a function reads from its environment ([datetime.now()],
      [uuid.uuid4()], SQLite's [CURRENT_TIMESTAMP]) is an explicit argument.
    - [print] and [logger] calls have no effect on the modelled state and are
      left out, except where evaluating their argument can raise. *)

From Stdlib Require Import ZArith QArith Qround Qminmax String Ascii List Lia Lqa.
From stdpp Require Import base option list gmap strings fin_maps.

Set Warnings "-register-all".
Local Open Scope string_scope.
Local Open Scope list_scope.
Local Open Scope Z_scope.

(** ** Python values, exceptions and dictionaries *)

Module Py.

(** Exceptions the modelled code can raise.  The SQLite ones are those of
    Python's [sqlite3] module. *)
Inductive exn :=
| KeyError (key : string)
| TypeError
| AttributeError
| ValueError
| ZeroDivisionError
| IntegrityError      (* NOT NULL / UNIQUE / PRIMARY KEY / datatype mismatch *)
| InterfaceError      (* a parameter of a type SQLite cannot bind *)
| OperationalError    (* no such column, malformed statement *)
| OSError.            (* socket failure *)

Inductive result (A : Type) :=
| Ok (a : A)
| Raise (e : exn).
Arguments Ok {A} a.
Arguments Raise {A} e.

#[global] Instance result_ret : MRet result := fun A a => Ok a.
#[global] Instance result_bind : MBind result :=
  fun A B f m => match m with Ok a => f a | Raise e => Raise e end.

End Py.
Export Py.

(** ** Naive datetimes, as in Python's [datetime] module *)

Module Datetime.

Record datetime := mk_datetime {
  year : Z; month : Z; day : Z;
  hour : Z; minute : Z; second : Z; microsecond : Z
}.

Definition is_leap (y : Z) : bool :=
  (y mod 4 =? 0) && (negb (y mod 100 =? 0) || (y mod 400 =? 0)).

Definition days_in_month (y m : Z) : Z :=
  if m =? 2 then (if is_leap y then 29 else 28)
  else if (m =? 4) || (m =? 6) || (m =? 9) || (m =? 11) then 30
  else 31.

(** Number of days before January 1st of year [y]. *)
Definition days_before_year (y : Z) : Z :=
  let p := y - 1 in p * 365 + p / 4 - p / 100 + p / 400.

(** Number of days in year [y] before the first day of month [m]. *)
Definition days_before_month (y m : Z) : Z :=
  fold_right Z.add 0 (map (days_in_month y) (map Z.of_nat (seq 1 (Z.to_nat (m - 1))))).

(** Proleptic Gregorian ordinal: 0001-01-01 is day 1. *)
Definition toordinal (d : datetime) : Z :=
  days_before_year (year d) + days_before_month (year d) (month d) + day d.

Definition microseconds_per_day : Z := 86400000000.

Definition total_microseconds (d : datetime) : Z :=
  toordinal d * microseconds_per_day
  + ((hour d * 60 + minute d) * 60 + second d) * 1000000 + microsecond d.

(** [(a - b).days]: a [timedelta] is normalised so that its seconds and
    microseconds are non-negative, hence [days] is the floor. *)
Definition delta_days (a b : datetime) : Z :=
  (total_microseconds a - total_microseconds b) / microseconds_per_day.

Definition lt (a b : datetime) : bool := total_microseconds a <? total_microseconds b.
Definition gt (a b : datetime) : bool := lt b a.

Definition valid_date (y m d : Z) : bool :=
  (1 <=? y) && (y <=? 9999) && (1 <=? m) && (m <=? 12)
  && (1 <=? d) && (d <=? days_in_month y m).

Definition date (y m d : Z) : datetime := mk_datetime y m d 0 0 0 0.

(** *** Parsing *)

Definition digit (c : ascii) : option Z :=
  let n := nat_of_ascii c in
  if ((48 <=? n) && (n <=? 57))%nat then Some (Z.of_nat (n - 48)) else None.

Fixpoint digits_from (acc : Z) (s : string) : option Z :=
  match s with
  | EmptyString => Some acc
  | String c r => d ← digit c; digits_from (10 * acc + d) r
  end.

(** A non-empty string of ASCII digits. *)
Definition number (s : string) : option Z :=
  match s with EmptyString => None | _ => digits_from 0 s end.

Definition make_date (y m d : Z) : result datetime :=
  if valid_date y m d then Ok (date y m d) else Raise ValueError.

(** [datetime.fromisoformat] on the date-only form [YYYY-MM-DD], the form the
    client sends.  Forms with a time of day are not modelled and are treated
    like malformed text ([ValueError]); the properties below are stated for
    inputs on which this function succeeds. *)
Definition fromisoformat (s : string) : result datetime :=
  if (String.length s =? 10)%nat then
    match number (substring 0 4 s), String.get 4 s,
          number (substring 5 2 s), String.get 7 s,
          number (substring 8 2 s) with
    | Some y, Some "-"%char, Some m, Some "-"%char, Some d => make_date y m d
    | _, _, _, _, _ => Raise ValueError
    end
  else Raise ValueError.

(** Split on the character [sep]. *)
Fixpoint split_on (sep : ascii) (s : string) : list string :=
  match s with
  | EmptyString => [EmptyString]
  | String c r =>
      if Ascii.eqb c sep then EmptyString :: split_on sep r
      else match split_on sep r with
           | [] => [String c EmptyString]
           | p :: ps => String c p :: ps
           end
  end.

(** The directive [%m]: [1[0-2]|0[1-9]|[1-9]]. *)
Definition strptime_month (s : string) : option Z :=
  if (String.length s <=? 2)%nat then
    m ← number s; if (1 <=? m) && (m <=? 12) then Some m else None
  else None.

(** The directive [%d]: [3[01]|[12]\d|0[1-9]|[1-9]| [1-9]]. *)
Definition strptime_day (s : string) : option Z :=
  let s' := match s with String " "%char r => if (String.length r =? 1)%nat then r else s | _ => s end in
  if (String.length s' <=? 2)%nat then
    d ← number s'; if (1 <=? d) && (d <=? 31) then Some d else None
  else None.

(** [datetime.strptime(s, '%Y-%m-%d')]. *)
Definition strptime_Ymd (s : string) : result datetime :=
  match split_on "-"%char s with
  | [ys; ms; ds] =>
      if (String.length ys =? 4)%nat then
        match number ys, strptime_month ms, strptime_day ds with
        | Some y, Some m, Some d => make_date y m d
        | _, _, _ => Raise ValueError
        end
      else Raise ValueError
  | _ => Raise ValueError
  end.

End Datetime.
Export Datetime.

(** ** JSON-like Python values *)

Module Values.

Inductive value :=
| VNone
| VBool (b : bool)
| VNum (q : Q)
| VStr (s : string)
| VBytes (s : string)
| VDatetime (d : datetime)
| VList (l : list value)
| VDict (d : gmap string value).

(** Python truthiness ([if v:], [not v], [v or w]). *)
Definition truthy (v : value) : bool :=
  match v with
  | VNone => false
  | VBool b => b
  | VNum q => negb (Qnum q =? 0)
  | VStr s => negb (String.eqb s "")
  | VBytes s => negb (String.eqb s "")
  | VDatetime _ => true
  | VList l => match l with [] => false | _ => true end
  | VDict d => negb (bool_decide (dom d = (∅ : gset string)))
  end.

(** [d[k]] *)
Definition getitem (d : gmap string value) (k : string) : result value :=
  match d !! k with
  | Some v => Ok v
  | None => Raise (KeyError k)
  end.

(** [d.get(k, dflt)] and [d.get(k)] *)
Definition get_or (d : gmap string value) (k : string) (dflt : value) : value :=
  default dflt (d !! k).
Definition get (d : gmap string value) (k : string) : value := get_or d k VNone.

(** [v.get(k, dflt)] on a value that need not be a dict. *)
Definition as_dict (v : value) : result (gmap string value) :=
  match v with
  | VDict d => Ok d
  | _ => Raise AttributeError
  end.

(** [v == s] for a string literal [s]. *)
Definition eq_str (v : value) (s : string) : bool :=
  match v with
  | VStr t => String.eqb t s
  | _ => false
  end.

(** The number a value denotes in arithmetic ([bool] is a subclass of
    [int]). *)
Definition as_number (v : value) : option Q :=
  match v with
  | VBool b => Some (if b then 1 else 0)%Q
  | VNum q => Some q
  | _ => None
  end.

(** [v * w] for a float literal [w]. *)
Definition mul_float (v : value) (w : Q) : result Q :=
  match as_number v with
  | Some q => Ok (q * w)%Q
  | None => Raise TypeError
  end.

(** [min(a, b)] on numbers: the first argument unless the second is smaller. *)
Definition py_min (a b : Q) : Q := if Qle_bool a b then a else b.

(** A dict literal. *)
Definition dict_of (l : list (string * value)) : gmap string value := list_to_map l.

End Values.
Export Values.

(** ** [stage-protocols.py] *)

Module Protocols.

Inductive StageStatus :=
| PENDING | APPROVED | IN_PROGRESS | COMPLETED | CANCELLED | SUSPENDED.

Definition StageStatus_value (s : StageStatus) : string :=
  match s with
  | PENDING => "EN_ATTENTE"
  | APPROVED => "APPROUVE"
  | IN_PROGRESS => "EN_COURS"
  | COMPLETED => "TERMINE"
  | CANCELLED => "ANNULE"
  | SUSPENDED => "SUSPENDU"
  end.

Inductive ReportType := WEEKLY | MONTHLY | MIDTERM | FINAL | ACTIVITY.

Definition ReportType_value (t : ReportType) : string :=
  match t with
  | WEEKLY => "HEBDOMADAIRE"
  | MONTHLY => "MENSUEL"
  | MIDTERM => "MI_PARCOURS"
  | FINAL => "FINAL"
  | ACTIVITY => "ACTIVITE"
  end.

#[global] Instance StageStatus_eq_dec : EqDecision StageStatus.
Proof. solve_decision. Defined.
#[global] Instance ReportType_eq_dec : EqDecision ReportType.
Proof. solve_decision. Defined.

Record StageReport := {
  report_id : string;
  report_stage_id : string;
  report_type : ReportType;
  report_title : string;
  content : string;
  submitted_by : string;
  submission_date : datetime;
  week_number : Z;
  file_path : string;
  report_status : string;
  reviewed_by : string;
  review_date : option datetime;
  feedback : string;
  score : Q
}.

Record StageEvaluation := {
  evaluation_id : string;
  evaluation_stage_id : string;
  evaluator_id : string;
  evaluator_type : string;
  evaluation_date : datetime;
  technical_skills_score : Q;
  soft_skills_score : Q;
  attendance_score : Q;
  initiative_score : Q;
  report_quality_score : Q;
  comments : string;
  recommendation : string
}.

(** The thresholds shared by [StageEvaluation.grade], [Stage.final_grade] and
    [StageManager.evaluate_stage]. *)
Definition grade_of (score : Q) : string :=
  if Qle_bool 16 score then "A - Excellent"
  else if Qle_bool 14 score then "B - Très Bien"
  else if Qle_bool 12 score then "C - Bien"
  else if Qle_bool 10 score then "D - Passable"
  else "E - Insuffisant".

Definition final_score (e : StageEvaluation) : Q :=
  (technical_skills_score e * 0.30 +
   soft_skills_score e * 0.20 +
   attendance_score e * 0.15 +
   initiative_score e * 0.15 +
   report_quality_score e * 0.20)%Q.

Definition grade (e : StageEvaluation) : string := grade_of (final_score e).

(** The [Stage] dataclass.  Its embedded student, company and university
    descriptors and its two supervisors are read by none of the functions
    modelled here and are left out. *)
Record Stage := {
  stage_id : string;
  title : string;
  description : string;
  start_date : datetime;
  end_date : datetime;
  stage_type : string;
  status : StageStatus;
  reports : list StageReport;
  evaluations : list StageEvaluation
}.

Definition duration_weeks (s : Stage) : Z :=
  delta_days (end_date s) (start_date s) / 7.

(** [Stage.progress_percentage], with [datetime.now()] as [today]. *)
Definition progress_percentage (today : datetime) (s : Stage) : result Q :=
  if decide (status s = COMPLETED) then Ok 100%Q
  else if bool_decide (status s ∈ [PENDING; CANCELLED]) then Ok 0%Q
  else if lt today (start_date s) then Ok 0%Q
  else if gt today (end_date s) then Ok 100%Q
  else
    let total_days := delta_days (end_date s) (start_date s) in
    let elapsed_days := delta_days today (start_date s) in
    if total_days =? 0 then Raise ZeroDivisionError
    else Ok (py_min 100 ((inject_Z elapsed_days / inject_Z total_days) * 100))%Q.

Definition MINIMUM_DURATION_WEEKS : Z := 4.
Definition MAXIMUM_DURATION_WEEKS : Z := 26.

Definition minimum_duration_error : string := "Durée minimale: 4 semaines".
Definition maximum_duration_error : string := "Durée maximale: 26 semaines".
Definition past_start_warning : string := "La date de début est dans le passé".
Definition missing_field_error (field : string) : string :=
  "Champ obligatoire manquant: " +:+ field.

Definition required_fields : list string :=
  ["student_id"; "company_id"; "university_id"; "title"; "stage_type"].

(** [if isinstance(d, str): d = datetime.fromisoformat(d)] *)
Definition parse_if_str (d : value) : result value :=
  match d with
  | VStr s => dt ← fromisoformat s; mret (VDatetime dt)
  | _ => mret d
  end.

(** [(end_date - start_date).days] on values of any type. *)
Definition days_between (end_date start_date : value) : result Z :=
  match end_date, start_date with
  | VDatetime e, VDatetime s => Ok (delta_days e s)
  | (VNum _ | VBool _), (VNum _ | VBool _) => Raise AttributeError
  | _, _ => Raise TypeError
  end.

(** [start_date < datetime.now()] *)
Definition before (d : value) (now : datetime) : result bool :=
  match d with
  | VDatetime s => Ok (lt s now)
  | _ => Raise TypeError
  end.

(** [StageValidationProtocol.validate_stage_creation]: the result is the
    triple [(len(errors) == 0, errors, warnings)]. *)
Definition validate_stage_creation (now : datetime) (stage_data : gmap string value)
  : result (bool * list string * list string) :=
  let start_date := get stage_data "start_date" in
  let end_date := get stage_data "end_date" in
  '(errors, warnings) ←
    (if truthy start_date && truthy end_date then
       start_date ← parse_if_str start_date;
       end_date ← parse_if_str end_date;
       days ← days_between end_date start_date;
       let duration_weeks := days / 7 in
       let errors :=
         (if duration_weeks <? MINIMUM_DURATION_WEEKS then [minimum_duration_error] else [])
         ++ (if duration_weeks >? MAXIMUM_DURATION_WEEKS then [maximum_duration_error] else []) in
       past ← before start_date now;
       mret (errors, if (past : bool) then [past_start_warning] else [])
     else mret ([], []));
  let errors :=
    errors ++ map missing_field_error
                  (List.filter (fun field => negb (truthy (get stage_data field))) required_fields) in
  mret (bool_decide (length errors = 0%nat), errors, warnings).

(** [StageValidationProtocol.validate_report_submission] *)
Definition validate_report_submission (now : datetime) (stage : Stage) (report_type : ReportType)
  : result (bool * list string) :=
  let errors :=
    if bool_decide (status stage ∈ [IN_PROGRESS; APPROVED]) then []
    else ["Le stage doit être en cours pour soumettre un rapport"] in
  errors ←
    (if decide (report_type = FINAL) then
       progress ← progress_percentage now stage;
       mret (if Qle_bool 80 progress then errors
             else errors ++ ["Le rapport final ne peut être soumis qu'à partir de 80% d'avancement"])
     else mret errors);
  mret (bool_decide (length errors = 0%nat), errors).

End Protocols.

(** ** SQLite tables, as Python's [sqlite3] module presents them

    A table is the list of its rows in insertion order; a row maps every
    column name to a cell.  Cells are the values SQLite stores: [VNone]
    (NULL), [VNum] (INTEGER, REAL), [VStr] (TEXT) and [VBytes] (BLOB).

    Column type affinity is not represented: a cell keeps the class of the
    bound parameter.  The tables of this program receive texts in their TEXT
    and DATE columns and numbers in their REAL and INTEGER columns, where
    affinity changes nothing unless a DATE text is the spelling of a
    number. *)

Module Sqlite.

Fixpoint pad (width : nat) (n : Z) : string :=
  match width with
  | O => ""
  | S w => pad w (n / 10) +:+ String (ascii_of_nat (48 + Z.to_nat (n mod 10))) ""
  end.

(** [d.isoformat(" ")], the text under which the default adapter stores a
    [datetime]. *)
Definition isoformat_space (d : datetime) : string :=
  pad 4 (year d) +:+ "-" +:+ pad 2 (month d) +:+ "-" +:+ pad 2 (day d) +:+ " "
  +:+ pad 2 (hour d) +:+ ":" +:+ pad 2 (minute d) +:+ ":" +:+ pad 2 (second d)
  +:+ (if microsecond d =? 0 then "" else "." +:+ pad 6 (microsecond d)).

(** Binding a Python value to a [?] placeholder. *)
Definition adapt (v : value) : result value :=
  match v with
  | VNone | VNum _ | VStr _ | VBytes _ => Ok v
  | VBool b => Ok (VNum (if b then 1 else 0))
  | VDatetime d => Ok (VStr (isoformat_space d))
  | VList _ | VDict _ => Raise InterfaceError
  end.

Definition is_null (c : value) : bool :=
  match c with VNone => true | _ => false end.

(** The SQL comparison [c = p]: never true on NULL.  A text is compared with
    a text and a number with a number; across classes the answer is false. *)
Definition sql_eq (c p : value) : bool :=
  match c, p with
  | VStr a, VStr b => String.eqb a b
  | VNum a, VNum b => Qeq_bool a b
  | VBytes a, VBytes b => String.eqb a b
  | _, _ => false
  end.

(** Storage classes in sort order: NULL, numbers, text, blob. *)
Definition class_rank (c : value) : Z :=
  match c with
  | VNone => 0
  | VNum _ | VBool _ => 1
  | VStr _ => 2
  | _ => 3
  end.

(** [a <= b] in the order of [ORDER BY]. *)
Definition sql_le (a b : value) : bool :=
  match a, b with
  | VNum x, VNum y => Qle_bool x y
  | VStr x, VStr y => String.leb x y
  | VBytes x, VBytes y => String.leb x y
  | _, _ => class_rank a <=? class_rank b
  end.

Definition cell (r : gmap string value) (col : string) : value := get r col.

(** [ORDER BY col DESC]: a stable insertion sort, so that rows with equal
    keys stay in insertion order. *)
Fixpoint insert_desc (col : string) (r : gmap string value) (l : list (gmap string value))
  : list (gmap string value) :=
  match l with
  | [] => [r]
  | x :: xs =>
      if sql_le (cell r col) (cell x col) then x :: insert_desc col r xs
      else r :: l
  end.

Definition order_by_desc (col : string) (l : list (gmap string value))
  : list (gmap string value) :=
  fold_right (insert_desc col) [] l.

(** [SELECT ... WHERE col = p] *)
Definition select_eq (col : string) (p : value) (tbl : list (gmap string value))
  : list (gmap string value) :=
  List.filter (fun r => sql_eq (cell r col) p) tbl.

(** NOT NULL columns hold no NULL. *)
Definition not_null_ok (cols : list string) (r : gmap string value) : bool :=
  forallb (fun col => negb (is_null (cell r col))) cols.

(** The value of a UNIQUE or PRIMARY KEY column occurs in no other row
    (NULLs are distinct from one another). *)
Definition unique_ok (cols : list string) (r : gmap string value)
           (others : list (gmap string value)) : bool :=
  forallb (fun col => forallb (fun o => negb (sql_eq (cell o col) (cell r col))) others) cols.

(** [INSERT INTO tbl ...] *)
Definition insert_row (not_null unique : list string) (r : gmap string value)
           (tbl : list (gmap string value)) : result (list (gmap string value)) :=
  if not_null_ok not_null r && unique_ok unique r tbl then Ok (tbl ++ [r])
  else Raise IntegrityError.

(** The rows an [UPDATE] has changed (marked [true]) keep the constraints;
    [before] are the rows already passed. *)
Fixpoint updated_ok (not_null unique : list string) (before : list (gmap string value))
         (marked : list (bool * gmap string value)) : bool :=
  match marked with
  | [] => true
  | (changed, r) :: rest =>
      (if changed : bool
       then not_null_ok not_null r && unique_ok unique r (before ++ map snd rest)
       else true)
      && updated_ok not_null unique (before ++ [r]) rest
  end.

(** [UPDATE tbl SET ... WHERE col = p]: [f] performs the assignments, which
    are to the columns [assigned].  SQLite checks a constraint of a changed
    row only when one of its columns is assigned. *)
Definition update_where (not_null unique assigned : list string) (col : string) (p : value)
           (f : gmap string value -> gmap string value)
           (tbl : list (gmap string value)) : result (list (gmap string value)) :=
  let touched := List.filter (fun c => bool_decide (c ∈ assigned)) in
  let marked := map (fun r => if sql_eq (cell r col) p then (true, f r) else (false, r)) tbl in
  if updated_ok (touched not_null) (touched unique) [] marked then Ok (map snd marked)
  else Raise IntegrityError.

(** [json.dumps] accepts none of [bytes] and [datetime]. *)
Fixpoint json_serializable (v : value) : bool :=
  match v with
  | VNone | VBool _ | VNum _ | VStr _ => true
  | VBytes _ | VDatetime _ => false
  | VList l => forallb json_serializable l
  | VDict d => map_fold (fun _ x acc => json_serializable x && acc) true d
  end.

End Sqlite.
Export Sqlite.

(** ** [enhanced-stage-service.py]: the stage store *)

Module StageService.

(** What an operation reads from outside the program, and the text renderings
    of the Python runtime that the program stores or returns. *)
Record env := {
  uuid4 : nat -> string;        (* [str(uuid.uuid4())], by order of the calls *)
  CURRENT_TIMESTAMP : string;   (* SQLite's clock, as text *)
  now : datetime;               (* [datetime.now()] *)
  str_of : value -> string;     (* [str(v)] for a [v] that is not a [str] *)
  str_exn : exn -> string;      (* [str(e)] for an exception [e] *)
  json_dumps : value -> string  (* [json.dumps(v)] *)
}.

(** [str(v)], also the rendering of [{v}] in an f-string. *)
Definition py_str (e : env) (v : value) : string :=
  match v with
  | VStr s => s
  | _ => str_of e v
  end.

Record database := {
  stages : list (gmap string value);
  supervisors : list (gmap string value);
  reports : list (gmap string value);
  evaluations : list (gmap string value);
  stage_history : list (gmap string value)
}.

Definition set_stages (t : list (gmap string value)) (d : database) : database :=
  {| stages := t; supervisors := supervisors d; reports := reports d;
     evaluations := evaluations d; stage_history := stage_history d |}.
Definition set_supervisors (t : list (gmap string value)) (d : database) : database :=
  {| stages := stages d; supervisors := t; reports := reports d;
     evaluations := evaluations d; stage_history := stage_history d |}.
Definition set_reports (t : list (gmap string value)) (d : database) : database :=
  {| stages := stages d; supervisors := supervisors d; reports := t;
     evaluations := evaluations d; stage_history := stage_history d |}.
Definition set_evaluations (t : list (gmap string value)) (d : database) : database :=
  {| stages := stages d; supervisors := supervisors d; reports := reports d;
     evaluations := t; stage_history := stage_history d |}.
Definition set_stage_history (t : list (gmap string value)) (d : database) : database :=
  {| stages := stages d; supervisors := supervisors d; reports := reports d;
     evaluations := evaluations d; stage_history := t |}.

(** The manager: its database, and the files under [reports_path]. *)
Record StageManager := {
  db : database;
  reports_path : string;
  files : gmap string string
}.

Definition set_db (d : database) (m : StageManager) : StageManager :=
  {| db := d; reports_path := reports_path m; files := files m |}.
Definition set_files (f : gmap string string) (m : StageManager) : StageManager :=
  {| db := db m; reports_path := reports_path m; files := f |}.

(** *** The schema of [_init_database] *)

Definition stages_columns : list string :=
  ["stage_id"; "student_id"; "student_name"; "student_email"; "student_phone";
   "university_id"; "university_name"; "department"; "academic_level";
   "company_id"; "company_name"; "company_address"; "company_city"; "company_region";
   "stage_title"; "stage_description"; "stage_type"; "start_date"; "end_date"; "status";
   "academic_supervisor_id"; "company_supervisor_id"; "progress_percentage";
   "created_at"; "updated_at"].

Definition stages_not_null : list string :=
  ["student_id"; "student_name"; "university_id"; "university_name"; "department";
   "company_id"; "company_name"; "company_city"; "company_region";
   "stage_title"; "stage_type"; "start_date"; "end_date"].
Definition stages_unique : list string := ["stage_id"].

Definition supervisors_not_null : list string :=
  ["first_name"; "last_name"; "email"; "supervisor_type"; "institution_id"].
Definition supervisors_unique : list string := ["supervisor_id"; "email"].

Definition reports_not_null : list string :=
  ["stage_id"; "report_type"; "title"; "submitted_by"].
Definition reports_unique : list string := ["report_id"].

Definition evaluations_not_null : list string :=
  ["stage_id"; "evaluator_id"; "evaluator_type"].
Definition evaluations_unique : list string := ["evaluation_id"].

Definition history_not_null : list string := ["stage_id"; "action"; "changed_by"].
Definition history_unique : list string := ["history_id"].

(** *** Reading a parameter dict *)

(** [v[k]] *)
Definition subscript (v : value) (k : string) : result value :=
  match v with
  | VDict d => getitem d k
  | _ => Raise TypeError
  end.

(** [v.get(k, dflt)] *)
Definition vget (v : value) (k : string) (dflt : value) : result value :=
  d ← as_dict v; mret (get_or d k dflt).

(** One placeholder of an [INSERT]: [data[key]] or [data.get(key, dflt)]. *)
Inductive param :=
| Required (key : string)
| Optional (key : string) (dflt : value)
| Const (v : value).

Definition read (data : value) (p : param) : result value :=
  match p with
  | Required k => subscript data k
  | Optional k dflt => vget data k dflt
  | Const v => Ok v
  end.

(** The parameter tuple is built first, left to right; the statement then
    binds it. *)
Definition bind_params (data : value) (ps : list (string * param))
  : result (list (string * value)) :=
  vs ← mapM (fun cp => v ← read data cp.2; mret (cp.1, v)) ps;
  mapM (fun cv => c ← adapt cv.2; mret (cv.1, c)) vs.

(** A try body runs against the database and either commits its result or
    raises, in which case the connection is dropped without [commit] and the
    database keeps its former content. *)
Definition transaction {A} (body : database -> result (A * database))
           (failure : exn -> A) (d : database) : A * database :=
  match body d with
  | Ok (a, d') => (a, d')
  | Raise e => (failure e, d)
  end.

(** [_log_history] *)
Definition _log_history (history_id : string) (ts : string)
           (stage_id : value) (action : string) (field old_value new_value changed_by : value)
           (d : database) : result database :=
  cells ← mapM (fun cv : string * value => c ← adapt cv.2; mret (cv.1, c))
     [("history_id", VStr history_id); ("stage_id", stage_id); ("action", VStr action);
      ("field_changed", field); ("old_value", old_value); ("new_value", new_value);
      ("changed_by", changed_by)];
  t ← insert_row history_not_null history_unique
        (list_to_map (cells ++ [("changed_at", VStr ts)])) (stage_history d);
  mret (set_stage_history t d).

(** *** [create_stage] *)

Definition create_stage_params (stage_id : string) : list (string * param) :=
  [("stage_id", Const (VStr stage_id));
   ("student_id", Required "student_id");
   ("student_name", Required "student_name");
   ("student_email", Optional "student_email" (VStr ""));
   ("student_phone", Optional "student_phone" (VStr ""));
   ("university_id", Required "university_id");
   ("university_name", Required "university_name");
   ("department", Required "department");
   ("academic_level", Optional "academic_level" (VStr ""));
   ("company_id", Required "company_id");
   ("company_name", Required "company_name");
   ("company_address", Optional "company_address" (VStr ""));
   ("company_city", Required "company_city");
   ("company_region", Required "company_region");
   ("stage_title", Required "stage_title");
   ("stage_description", Optional "stage_description" (VStr ""));
   ("stage_type", Required "stage_type");
   ("start_date", Required "start_date");
   ("end_date", Required "end_date");
   ("status", Const (VStr "EN_ATTENTE"))].

(** Columns the [INSERT] does not name take their declared defaults. *)
Definition stages_defaults (ts : string) : list (string * value) :=
  [("academic_supervisor_id", VNone); ("company_supervisor_id", VNone);
   ("progress_percentage", VNum 0); ("created_at", VStr ts); ("updated_at", VStr ts)].

Definition create_stage_body (e : env) (stage_data : value) (d : database)
  : result (value * database) :=
  let stage_id := uuid4 e 0 in
  cells ← bind_params stage_data (create_stage_params stage_id);
  t ← insert_row stages_not_null stages_unique
        (list_to_map (cells ++ stages_defaults (CURRENT_TIMESTAMP e))) (stages d);
  let d := set_stages t d in
  new_value ← (if json_serializable stage_data then Ok (VStr (json_dumps e stage_data))
               else Raise TypeError);
  created_by ← vget stage_data "created_by" (VStr "system");
  d ← _log_history (uuid4 e 1) (CURRENT_TIMESTAMP e)
        (VStr stage_id) "CREATE" VNone VNone new_value created_by d;
  mret (VDict (dict_of [("success", VBool true); ("stage_id", VStr stage_id);
                        ("message", VStr "Stage créé avec succès")]), d).

Definition create_stage (e : env) (stage_data : value) (m : StageManager)
  : value * StageManager :=
  let '(r, d) :=
    transaction (create_stage_body e stage_data)
      (fun x => VDict (dict_of [("success", VBool false);
                                ("message", VStr ("Erreur: " +:+ str_exn e x))]))
      (db m) in
  (r, set_db d m).

(** *** [get_stage] *)

Definition rows_as_list (l : list (gmap string value)) : value := VList (map VDict l).

(** The result is [None] ([VNone]) when no stage has the identifier. *)
Definition get_stage (stage_id : value) (m : StageManager) : result value :=
  p ← adapt stage_id;
  match select_eq "stage_id" p (stages (db m)) with
  | row :: _ =>
      let stage :=
        <["evaluations" := rows_as_list (select_eq "stage_id" p (evaluations (db m)))]>
          (<["reports" := rows_as_list
                (order_by_desc "submission_date" (select_eq "stage_id" p (reports (db m))))]>
             row) in
      mret (VDict stage)
  | [] => mret VNone
  end.

(** *** [list_stages] *)

(** SQLite's [strftime("%Y", c)] on a [YYYY-MM-DD] text, NULL on anything
    else (texts with a time of day, which SQLite also reads, are not
    modelled). *)
Definition strftime_Y (c : value) : value :=
  match c with
  | VStr s =>
      if (String.length s =? 10)%nat then
        match number (substring 0 4 s), String.get 4 s,
              number (substring 5 2 s), String.get 7 s,
              number (substring 8 2 s) with
        | Some y, Some "-"%char, Some mo, Some "-"%char, Some dd =>
            if (1 <=? mo) && (mo <=? 12) && (1 <=? dd) && (dd <=? 31)
            then VStr (substring 0 4 s) else VNone
        | _, _, _, _, _ => VNone
        end
      else VNone
  | _ => VNone
  end.

(** One [AND ...] condition of the query, with its bound parameter. *)
Definition filter_conditions : list (string * (value -> gmap string value -> bool)) :=
  [("status", fun p r => sql_eq (cell r "status") p);
   ("region", fun p r => sql_eq (cell r "company_region") p);
   ("university_id", fun p r => sql_eq (cell r "university_id") p);
   ("company_id", fun p r => sql_eq (cell r "company_id") p);
   ("student_id", fun p r => sql_eq (cell r "student_id") p);
   ("supervisor_id", fun p r => sql_eq (cell r "academic_supervisor_id") p
                                || sql_eq (cell r "company_supervisor_id") p);
   ("academic_year", fun p r => sql_eq (strftime_Y (cell r "start_date")) p)].

(** The conditions that [filters] switches on: those whose key holds a truthy
    value. *)
Definition active_conditions (filters : value)
  : result (list (value * (value -> gmap string value -> bool))) :=
  if truthy filters then
    d ← as_dict filters;
    mret (omap (fun kc : string * (value -> gmap string value -> bool) =>
                  if truthy (get d kc.1) then Some (get d kc.1, kc.2) else None)
               filter_conditions)
  else mret [].

Definition matches (conds : list (value * (value -> gmap string value -> bool)))
           (r : gmap string value) : bool :=
  forallb (fun pc : value * (value -> gmap string value -> bool) => pc.2 pc.1 r) conds.

(** [LIMIT] and [OFFSET] take a number that is an integer. *)
Definition as_integer (q : Q) : result Z :=
  if Qeq_bool (inject_Z (Qfloor q)) q then Ok (Qfloor q) else Raise IntegrityError.

(** [LIMIT n OFFSET k]: a negative [n] is no limit, a negative [k] is 0. *)
Definition limit_offset {A} (n k : Z) (l : list A) : list A :=
  let l := drop (Z.to_nat k) l in
  if n <? 0 then l else take (Z.to_nat n) l.

Definition list_stages (filters : value) (page page_size : Q) (m : StageManager)
  : result value :=
  conds ← active_conditions filters;
  conds ← mapM (fun pc : value * (value -> gmap string value -> bool) =>
                  p ← adapt pc.1; mret (p, pc.2)) conds;
  let selected := List.filter (matches conds) (stages (db m)) in
  let total_count := Z.of_nat (length selected) in
  limit ← as_integer page_size;
  offset ← as_integer ((page - 1) * page_size);
  let items := limit_offset limit offset (order_by_desc "created_at" selected) in
  if Qeq_bool page_size 0 then Raise ZeroDivisionError
  else
    mret (VDict (dict_of
      [("stages", rows_as_list items);
       ("total_count", VNum (inject_Z total_count));
       ("page", VNum page);
       ("page_size", VNum page_size);
       ("total_pages",
        VNum (inject_Z (Qfloor ((inject_Z total_count + page_size - 1) / page_size))))])).

(** *** [update_stage] *)

(** [field_name] is spliced into the statement text.  It is modelled when it
    is, letter for letter, the name of a column of [stages]; for anything
    else the model answers as SQLite answers an unknown column name. *)
Definition column_name (field_name : value) : result string :=
  match field_name with
  | VStr s => if bool_decide (s ∈ stages_columns) then Ok s else Raise OperationalError
  | _ => Raise OperationalError
  end.

Definition update_stage_body (e : env) (stage_id field_name new_value updated_by : value)
           (d : database) : result (value * database) :=
  column ← column_name field_name;
  p ← adapt stage_id;
  match select_eq "stage_id" p (stages d) with
  | [] => mret (VDict (dict_of [("success", VBool false);
                                ("message", VStr "Stage non trouvé")]), d)
  | row :: _ =>
      let old_value := cell row column in
      v ← adapt new_value;
      t ← update_where stages_not_null stages_unique [column; "updated_at"] "stage_id" p
            (fun r => <["updated_at" := VStr (CURRENT_TIMESTAMP e)]> (<[column := v]> r))
            (stages d);
      d ← _log_history (uuid4 e 0) (CURRENT_TIMESTAMP e)
            stage_id "UPDATE" field_name (VStr (py_str e old_value)) new_value updated_by
            (set_stages t d);
      mret (VDict (dict_of [("success", VBool true);
                            ("message", VStr "Stage mis à jour avec succès")]), d)
  end.

Definition failure_message (e : env) (x : exn) : value :=
  VDict (dict_of [("success", VBool false); ("message", VStr (str_exn e x))]).

Definition update_stage (e : env) (stage_id field_name new_value updated_by : value)
           (m : StageManager) : value * StageManager :=
  let '(r, d) :=
    transaction (update_stage_body e stage_id field_name new_value updated_by)
                (failure_message e) (db m) in
  (r, set_db d m).

(** *** [assign_supervisor] *)

Definition supervisor_params : list (string * param) :=
  [("supervisor_id", Required "supervisor_id");
   ("first_name", Optional "first_name" (VStr ""));
   ("last_name", Optional "last_name" (VStr ""));
   ("email", Required "email");
   ("phone", Optional "phone" (VStr ""));
   ("supervisor_type", Required "supervisor_type");
   ("institution_id", Optional "institution_id" (VStr ""));
   ("department", Optional "department" (VStr ""));
   ("title", Optional "title" (VStr ""))].

Definition supervisors_defaults (ts : string) : list (string * value) :=
  [("specialization", VNone); ("max_students", VNum 5); ("current_students", VNum 0);
   ("created_at", VStr ts)].

(** [current_students + 1]; the column only ever holds numbers. *)
Definition plus_one (c : value) : value :=
  match c with
  | VNum q => VNum (q + 1)
  | _ => VNone
  end.

Definition assign_supervisor_body (e : env) (stage_id supervisor_data : value)
           (d : database) : result (value * database) :=
  sid ← subscript supervisor_data "supervisor_id";
  p ← adapt sid;
  d ← match select_eq "supervisor_id" p (supervisors d) with
      | [] =>
          cells ← bind_params supervisor_data supervisor_params;
          t ← insert_row supervisors_not_null supervisors_unique
                (list_to_map (cells ++ supervisors_defaults (CURRENT_TIMESTAMP e)))
                (supervisors d);
          mret (set_supervisors t d)
      | _ :: _ => mret d
      end;
  ty ← subscript supervisor_data "supervisor_type";
  let field := if eq_str ty "ACADEMIQUE" then "academic_supervisor_id"
               else "company_supervisor_id" in
  q ← adapt stage_id;
  t ← update_where stages_not_null stages_unique [field; "updated_at"] "stage_id" q
        (fun r => <["updated_at" := VStr (CURRENT_TIMESTAMP e)]> (<[field := p]> r))
        (stages d);
  let d := set_stages t d in
  t ← update_where supervisors_not_null supervisors_unique ["current_students"]
        "supervisor_id" p
        (fun r => <["current_students" := plus_one (cell r "current_students")]> r)
        (supervisors d);
  let d := set_supervisors t d in
  assigned_by ← vget supervisor_data "assigned_by" (VStr "system");
  d ← _log_history (uuid4 e 0) (CURRENT_TIMESTAMP e)
        stage_id "ASSIGN_SUPERVISOR" (VStr field) VNone sid assigned_by d;
  mret (VDict (dict_of [("success", VBool true);
                        ("message", VStr "Encadreur assigné avec succès")]), d).

Definition assign_supervisor (e : env) (stage_id supervisor_data : value)
           (m : StageManager) : value * StageManager :=
  let '(r, d) :=
    transaction (assign_supervisor_body e stage_id supervisor_data)
                (failure_message e) (db m) in
  (r, set_db d m).

(** *** [_update_stage_progress] *)

(** [datetime.strptime(c, '%Y-%m-%d')] on a cell. *)
Definition strptime_cell (c : value) : result datetime :=
  match c with
  | VStr s => strptime_Ymd s
  | _ => Raise TypeError
  end.

Definition time_progress (today start_date end_date : datetime) : result Q :=
  if lt today start_date then Ok 0%Q
  else if gt today end_date then Ok 100%Q
  else
    let total_days := delta_days end_date start_date in
    let elapsed := delta_days today start_date in
    if total_days =? 0 then Raise ZeroDivisionError
    else Ok ((inject_Z elapsed / inject_Z total_days) * 100)%Q.

Definition stored_progress (time_progress : Q) (report_count eval_count : Z) : Q :=
  let report_factor := py_min (inject_Z report_count * 10) 30 in
  let eval_factor := py_min (inject_Z eval_count * 15) 30 in
  py_min 100 (time_progress * 0.4 + report_factor + eval_factor)%Q.

Definition _update_stage_progress (e : env) (stage_id : value) (d : database)
  : result database :=
  p ← adapt stage_id;
  match select_eq "stage_id" p (stages d) with
  | row :: _ =>
      let report_count := Z.of_nat (length (select_eq "stage_id" p (reports d))) in
      let eval_count := Z.of_nat (length (select_eq "stage_id" p (evaluations d))) in
      start_date ← strptime_cell (cell row "start_date");
      end_date ← strptime_cell (cell row "end_date");
      tp ← time_progress (now e) start_date end_date;
      let progress := stored_progress tp report_count eval_count in
      t ← update_where stages_not_null stages_unique ["progress_percentage"] "stage_id" p
            (fun r => <["progress_percentage" := VNum progress]> r) (stages d);
      mret (set_stages t d)
  | [] => mret d
  end.

(** *** [submit_report] *)

Definition report_params (report_id : string) (file_path : value) : list (string * param) :=
  [("report_id", Const (VStr report_id));
   ("stage_id", Required "stage_id");
   ("report_type", Required "report_type");
   ("title", Required "title");
   ("content", Optional "content" (VStr ""));
   ("file_path", Const file_path);
   ("submitted_by", Required "submitted_by");
   ("week_number", Optional "week_number" (VNum 0));
   ("status", Const (VStr "SOUMIS"))].

Definition reports_defaults (ts : string) : list (string * value) :=
  [("submission_date", VStr ts); ("reviewed_by", VNone); ("review_date", VNone);
   ("feedback", VNone); ("score", VNone)].

Fixpoint has_slash (s : string) : bool :=
  match s with
  | EmptyString => false
  | String c r => Ascii.eqb c "/"%char || has_slash r
  end.

(** The file of the report, if it has one: the result is the [file_path]
    stored with the report.  The file is created under [reports_path], which
    has no sub-directories, before its content is written; a content that is
    not [bytes] leaves it empty. *)
Definition save_report_file (e : env) (report_id : string) (report_data : value)
           (m : StageManager) : result value * gmap string string :=
  match vget report_data "report_file" VNone with
  | Raise x => (Raise x, files m)
  | Ok report_file =>
      if truthy report_file then
        match vget report_data "filename" (VStr "report.pdf") with
        | Raise x => (Raise x, files m)
        | Ok filename =>
            let file_name := report_id +:+ "_" +:+ py_str e filename in
            let file_path := reports_path m +:+ "/" +:+ file_name in
            if has_slash file_name then (Raise OSError, files m)
            else match report_file with
                 | VBytes b => (Ok (VStr file_path), <[file_path := b]> (files m))
                 | _ => (Raise TypeError, <[file_path := ""]> (files m))
                 end
        end
      else (Ok VNone, files m)
  end.

Definition submit_report_body (e : env) (report_id : string) (file_path : result value)
           (report_data : value) (d : database) : result (value * database) :=
  file_path ← file_path;
  cells ← bind_params report_data (report_params report_id file_path);
  t ← insert_row reports_not_null reports_unique
        (list_to_map (cells ++ reports_defaults (CURRENT_TIMESTAMP e))) (reports d);
  let d := set_reports t d in
  sid ← subscript report_data "stage_id";
  d ← _update_stage_progress e sid d;
  mret (VDict (dict_of [("success", VBool true); ("report_id", VStr report_id);
                        ("message", VStr "Rapport soumis avec succès")]), d).

Definition submit_report (e : env) (report_data : value) (m : StageManager)
  : value * StageManager :=
  let report_id := uuid4 e 0 in
  let '(file_path, fs) := save_report_file e report_id report_data m in
  let '(r, d) :=
    transaction (submit_report_body e report_id file_path report_data)
                (failure_message e) (db m) in
  (r, set_files fs (set_db d m)).

(** *** [evaluate_stage] *)

Definition evaluation_params (evaluation_id : string) (final_score : Q) (grade : string)
  : list (string * param) :=
  [("evaluation_id", Const (VStr evaluation_id));
   ("stage_id", Required "stage_id");
   ("evaluator_id", Required "evaluator_id");
   ("evaluator_type", Required "evaluator_type");
   ("technical_skills_score", Optional "technical_skills_score" (VNum 0));
   ("soft_skills_score", Optional "soft_skills_score" (VNum 0));
   ("attendance_score", Optional "attendance_score" (VNum 0));
   ("initiative_score", Optional "initiative_score" (VNum 0));
   ("report_quality_score", Optional "report_quality_score" (VNum 0));
   ("final_score", Const (VNum final_score));
   ("grade", Const (VStr grade));
   ("comments", Optional "comments" (VStr ""));
   ("recommendation", Optional "recommendation" (VStr ""))].

(** [evaluation_data.get(key, 0) * weight] *)
Definition weighted (evaluation_data : value) (key : string) (weight : Q) : result Q :=
  v ← vget evaluation_data key (VNum 0); mul_float v weight.

Definition evaluate_stage_body (e : env) (evaluation_data : value) (d : database)
  : result (value * database) :=
  let evaluation_id := uuid4 e 0 in
  technical ← weighted evaluation_data "technical_skills_score" 0.30;
  soft ← weighted evaluation_data "soft_skills_score" 0.20;
  attendance ← weighted evaluation_data "attendance_score" 0.15;
  initiative ← weighted evaluation_data "initiative_score" 0.15;
  report ← weighted evaluation_data "report_quality_score" 0.20;
  let final_score := (technical + soft + attendance + initiative + report)%Q in
  let grade :=
    if Qle_bool 16 final_score then "A - Excellent"
    else if Qle_bool 14 final_score then "B - Très Bien"
    else if Qle_bool 12 final_score then "C - Bien"
    else if Qle_bool 10 final_score then "D - Passable"
    else "E - Insuffisant" in
  cells ← bind_params evaluation_data (evaluation_params evaluation_id final_score grade);
  t ← insert_row evaluations_not_null evaluations_unique
        (list_to_map (cells ++ [("evaluation_date", VStr (CURRENT_TIMESTAMP e))]))
        (evaluations d);
  mret (VDict (dict_of [("success", VBool true); ("evaluation_id", VStr evaluation_id);
                        ("final_score", VNum final_score); ("grade", VStr grade);
                        ("message", VStr "Évaluation enregistrée avec succès")]),
        set_evaluations t d).

Definition evaluate_stage (e : env) (evaluation_data : value) (m : StageManager)
  : value * StageManager :=
  let '(r, d) :=
    transaction (evaluate_stage_body e evaluation_data) (failure_message e) (db m) in
  (r, set_db d m).

(** *** [get_statistics] *)

(** [SELECT col, COUNT( * ) ... GROUP BY col]: NULLs form one group. *)
Definition same_group (a b : value) : bool := sql_eq a b || (is_null a && is_null b).

Fixpoint count_into (k : value) (groups : list (value * Z)) : list (value * Z) :=
  match groups with
  | [] => [(k, 1)]
  | (g, n) :: rest => if same_group g k then (g, n + 1) :: rest
                      else (g, n) :: count_into k rest
  end.

(** The dict built from the groups, as the list of its items (its keys need
    not be texts). *)
Definition group_count (col : string) (tbl : list (gmap string value)) : value :=
  VList (map (fun gn : value * Z => VList [gn.1; VNum (inject_Z gn.2)])
             (fold_left (fun groups r => count_into (cell r col) groups) tbl [])).

(** [AVG(col)], NULL on no number. *)
Definition avg (col : string) (tbl : list (gmap string value)) : value :=
  let nums := omap (fun r => match cell r col with VNum q => Some q | _ => None end) tbl in
  match nums with
  | [] => VNone
  | _ => VNum (fold_left Qplus nums 0 / inject_Z (Z.of_nat (length nums)))%Q
  end.

Definition get_statistics (filters : value) (m : StageManager) : gmap string value :=
  let d := db m in
  let average := avg "final_score" (evaluations d) in
  dict_of
    [("by_status", group_count "status" (stages d));
     ("by_region", group_count "company_region" (stages d));
     ("by_university", group_count "university_name" (stages d));
     ("average_score", if truthy average then average else VNum 0);
     ("total_reports", VNum (inject_Z (Z.of_nat (length (reports d)))));
     ("active_stages",
      VNum (inject_Z (Z.of_nat (length (select_eq "status" (VStr "EN_COURS") (stages d))))))].

(** *** [EnhancedStageService] *)

(** [sum(e['final_score'] for e in evaluations)], from 0. *)
Fixpoint sum_final_scores (acc : Q) (evaluations : list value) : result Q :=
  match evaluations with
  | [] => Ok acc
  | ev :: rest =>
      s ← subscript ev "final_score";
      match as_number s with
      | Some q => sum_final_scores (acc + q) rest
      | None => Raise TypeError
      end
  end.

Definition _get_final_grade (stage : gmap string value) : result string :=
  match get stage "evaluations" with
  | VList (ev :: evs) =>
      total ← sum_final_scores 0 (ev :: evs);
      let avg_score := (total / inject_Z (Z.of_nat (length (ev :: evs))))%Q in
      mret (if Qle_bool 16 avg_score then "Excellent"
            else if Qle_bool 14 avg_score then "Très Bien"
            else if Qle_bool 12 avg_score then "Bien"
            else if Qle_bool 10 avg_score then "Passable"
            else "Insuffisant")
  | _ => mret "Non évalué"
  end.

Definition isoformat (d : datetime) : string :=
  pad 4 (year d) +:+ "-" +:+ pad 2 (month d) +:+ "-" +:+ pad 2 (day d) +:+ "T"
  +:+ pad 2 (hour d) +:+ ":" +:+ pad 2 (minute d) +:+ ":" +:+ pad 2 (second d)
  +:+ (if microsecond d =? 0 then "" else "." +:+ pad 6 (microsecond d)).

Definition generate_stage_certificate (e : env) (stage_id : value) (m : StageManager)
  : result value :=
  stage ← get_stage stage_id m;
  match stage with
  | VDict stage =>
      if negb (eq_str (get stage "status") "TERMINE") then
        mret (VDict (dict_of [("success", VBool false);
                              ("message", VStr "Le stage doit être terminé")]))
      else
        final_grade ← _get_final_grade stage;
        let certificate_data := dict_of
          [("certificate_id", VStr (uuid4 e 0));
           ("stage_id", stage_id);
           ("student_name", get stage "student_name");
           ("university_name", get stage "university_name");
           ("company_name", get stage "company_name");
           ("stage_title", get stage "stage_title");
           ("start_date", get stage "start_date");
           ("end_date", get stage "end_date");
           ("final_grade", VStr final_grade);
           ("generated_at", VStr (isoformat (now e)))] in
        mret (VDict (dict_of [("success", VBool true);
                              ("certificate", VDict certificate_data)]))
  | _ => mret (VDict (dict_of [("success", VBool false);
                               ("message", VStr "Stage non trouvé")]))
  end.

End StageService.

(** ** [stage-server.py]: the registry of institutions and the message router *)

Module Server.
Import StageService.

Inductive ConnectionStatus := CONNECTED | DISCONNECTED | PENDING.

Inductive InstitutionType := UNIVERSITY | COMPANY | MINISTRY | COORDINATOR.

Definition InstitutionType_value (t : InstitutionType) : string :=
  match t with
  | UNIVERSITY => "UNIVERSITE"
  | COMPANY => "ENTREPRISE"
  | MINISTRY => "MINISTERE"
  | COORDINATOR => "COORDINATEUR"
  end.

(** [InstitutionType(v)]: the member whose value is [v]. *)
Definition InstitutionType_of (v : value) : result InstitutionType :=
  match List.find (fun t => eq_str v (InstitutionType_value t))
                  [UNIVERSITY; COMPANY; MINISTRY; COORDINATOR] with
  | Some t => Ok t
  | None => Raise ValueError
  end.

Record ConnectedInstitution := {
  institution_id : value;
  name : value;
  institution_type : InstitutionType;
  region : value;
  city : value;
  contact_email : value;
  status : ConnectionStatus;
  connected_at : datetime;
  last_activity : datetime;
  active_stages : Z
}.

(** *** Keys of the registry

    The registry is a Python dict keyed by whatever [institution_id] the
    message carries.  Its keys are the hashable values, and Python identifies
    the numbers that are equal ([True == 1 == 1.0]). *)

Inductive hkey :=
| KNone
| KNum (n : Z) (d : positive)   (* a number, in lowest terms *)
| KStr (s : string)
| KBytes (s : string)
| KDatetime (y mo d h mi s us : Z).

#[global] Instance hkey_eq_dec : EqDecision hkey.
Proof. solve_decision. Defined.

#[global] Instance hkey_countable : Countable hkey.
Proof.
  refine (inj_countable'
    (fun k => match k with
              | KNone => inl ()
              | KNum n d => inr (inl (n, d))
              | KStr s => inr (inr (inl s))
              | KBytes s => inr (inr (inr (inl s)))
              | KDatetime y mo d h mi s us => inr (inr (inr (inr (y, mo, d, h, mi, s, us))))
              end)
    (fun c => match c with
              | inl () => KNone
              | inr (inl (n, d)) => KNum n d
              | inr (inr (inl s)) => KStr s
              | inr (inr (inr (inl s))) => KBytes s
              | inr (inr (inr (inr (y, mo, d, h, mi, s, us)))) => KDatetime y mo d h mi s us
              end) _).
  by intros [].
Defined.

(** [hash(v)]: lists and dicts are unhashable. *)
Definition key_of (v : value) : result hkey :=
  match v with
  | VNone => Ok KNone
  | VBool b => Ok (KNum (if b then 1 else 0) 1)
  | VNum q => Ok (KNum (Qnum (Qred q)) (Qden (Qred q)))
  | VStr s => Ok (KStr s)
  | VBytes s => Ok (KBytes s)
  | VDatetime d =>
      Ok (KDatetime (year d) (month d) (day d) (hour d) (minute d) (second d) (microsecond d))
  | VList _ | VDict _ => Raise TypeError
  end.

(** *** Sockets

    A socket is known by its descriptor.  The network holds what was written
    to each socket, the bytes that will reach the server on it, and the
    sockets whose peer has gone. *)

Record network := {
  sent : list (nat * value);
  incoming : gmap nat string;
  closed : gset nat
}.

(** [sock.send(json.dumps(msg).encode())] *)
Definition send (sock : nat) (msg : value) (n : network) : result network :=
  if bool_decide (sock ∈ closed n) then Raise OSError
  else Ok {| sent := sent n ++ [(sock, msg)]; incoming := incoming n; closed := closed n |}.

(** [sock.recv(size)]: up to [size] of the bytes that have arrived; [b''] when
    the peer has closed, a timeout ([OSError]) when it is silent. *)
Definition recv (sock : nat) (size : Z) (n : network) : result (string * network) :=
  let buffer := default "" (incoming n !! sock) in
  let k := Z.to_nat size in
  let chunk := substring 0 k buffer in
  let rest := substring k (String.length buffer - k) buffer in
  if String.eqb chunk "" then
    if bool_decide (sock ∈ closed n) then Ok ("", n) else Raise OSError
  else Ok (chunk, {| sent := sent n; incoming := <[sock := rest]> (incoming n);
                     closed := closed n |}).

Record StageServerManager := {
  connected_institutions : gmap hkey ConnectedInstitution;
  institution_sockets : gmap hkey nat;
  total_stages_created : Z;
  total_reports_submitted : Z;
  total_evaluations : Z;
  stage_manager : StageManager;
  net : network
}.

Definition set_registry (ci : gmap hkey ConnectedInstitution) (so : gmap hkey nat)
           (s : StageServerManager) : StageServerManager :=
  {| connected_institutions := ci; institution_sockets := so;
     total_stages_created := total_stages_created s;
     total_reports_submitted := total_reports_submitted s;
     total_evaluations := total_evaluations s;
     stage_manager := stage_manager s; net := net s |}.

Definition set_stage_manager (m : StageManager) (s : StageServerManager) : StageServerManager :=
  {| connected_institutions := connected_institutions s;
     institution_sockets := institution_sockets s;
     total_stages_created := total_stages_created s;
     total_reports_submitted := total_reports_submitted s;
     total_evaluations := total_evaluations s;
     stage_manager := m; net := net s |}.

Definition set_net (n : network) (s : StageServerManager) : StageServerManager :=
  {| connected_institutions := connected_institutions s;
     institution_sockets := institution_sockets s;
     total_stages_created := total_stages_created s;
     total_reports_submitted := total_reports_submitted s;
     total_evaluations := total_evaluations s;
     stage_manager := stage_manager s; net := n |}.

Definition set_totals (created submitted evaluated : Z) (s : StageServerManager)
  : StageServerManager :=
  {| connected_institutions := connected_institutions s;
     institution_sockets := institution_sockets s;
     total_stages_created := created;
     total_reports_submitted := submitted;
     total_evaluations := evaluated;
     stage_manager := stage_manager s; net := net s |}.

(** *** Handlers

    A handler takes the server to a new state and either returns a response
    or raises into the connection loop. *)

Definition success_of (result : value) : bool :=
  match result with
  | VDict d => truthy (get d "success")
  | _ => false
  end.

(** [_register_institution] *)
Definition _register_institution (e : env) (message : gmap string value) (client_socket : nat)
           (s : StageServerManager) : result value * StageServerManager :=
  let institution_id := get message "institution_id" in
  match InstitutionType_of (get_or message "institution_type" (VStr "UNIVERSITE")) with
  | Raise x => (Raise x, s)
  | Ok ty =>
      let institution :=
        {| institution_id := institution_id;
           name := get_or message "name" (VStr "");
           institution_type := ty;
           region := get_or message "region" (VStr "");
           city := get_or message "city" (VStr "");
           contact_email := get_or message "contact_email" (VStr "");
           status := CONNECTED;
           connected_at := now e;
           last_activity := now e;
           active_stages := 0 |} in
      match key_of institution_id with
      | Raise x => (Raise x, s)
      | Ok k =>
          (Ok (VDict (dict_of [("status", VStr "success");
                               ("message", VStr "Institution enregistrée avec succès");
                               ("institution_id", institution_id)])),
           set_registry (<[k := institution]> (connected_institutions s))
                        (<[k := client_socket]> (institution_sockets s)) s)
      end
  end.

(** [_cleanup_disconnected_institution] *)
Definition _cleanup_disconnected_institution (institution_id : value) (s : StageServerManager)
  : result StageServerManager :=
  k ← key_of institution_id;
  mret (set_registry (delete k (connected_institutions s))
                     (delete k (institution_sockets s)) s).

(** [_handle_disconnect] *)
Definition _handle_disconnect (message : gmap string value) (s : StageServerManager)
  : result value * StageServerManager :=
  match _cleanup_disconnected_institution (get message "institution_id") s with
  | Raise x => (Raise x, s)
  | Ok s' => (Ok (VDict (dict_of [("status", VStr "success");
                                  ("message", VStr "Déconnecté")])), s')
  end.

(** [_send_notification]: a failed [send] is swallowed. *)
Definition _send_notification (e : env) (recipient_id : value) (notification_type : string)
           (message : string) (s : StageServerManager) : result StageServerManager :=
  let notification := VDict (dict_of
    [("type", VStr "notification");
     ("notification_type", VStr notification_type);
     ("message", VStr message);
     ("timestamp", VStr (isoformat (now e)))]) in
  k ← key_of recipient_id;
  match institution_sockets s !! k with
  | Some sock =>
      match send sock notification (net s) with
      | Ok n => mret (set_net n s)
      | Raise _ => mret s
      end
  | None => mret s
  end.

(** [_handle_create_stage] *)
Definition _handle_create_stage (e : env) (message : gmap string value)
           (s : StageServerManager) : result value * StageServerManager :=
  let stage_data := get_or message "stage_data" (VDict ∅) in
  let '(result, m) := create_stage e stage_data (stage_manager s) in
  let s := set_stage_manager m s in
  if success_of result then
    let s := set_totals (total_stages_created s + 1) (total_reports_submitted s)
                        (total_evaluations s) s in
    match stage_data with
    | VDict d =>
        match _send_notification e (get d "university_id") "STAGE_CREATED"
                ("Nouveau stage créé: " +:+ py_str e (get d "stage_title")) s with
        | Ok s' => (Ok result, s')
        | Raise x => (Raise x, s)
        end
    | _ => (Raise AttributeError, s)
    end
  else (Ok result, s).

(** [_handle_update_stage] *)
Definition _handle_update_stage (e : env) (message : gmap string value)
           (s : StageServerManager) : result value * StageServerManager :=
  let '(result, m) :=
    update_stage e (get message "stage_id") (get message "field_name")
                 (get message "new_value") (get message "updated_by") (stage_manager s) in
  (Ok result, set_stage_manager m s).

(** [_handle_get_stage] *)
Definition _handle_get_stage (message : gmap string value) (s : StageServerManager)
  : result value * StageServerManager :=
  (stage ← get_stage (get message "stage_id") (stage_manager s);
   mret (if truthy stage
         then VDict (dict_of [("status", VStr "success"); ("stage", stage)])
         else VDict (dict_of [("status", VStr "error");
                              ("message", VStr "Stage non trouvé")])),
   s).

(** [_handle_list_stages]: [page] and [page_size] enter the arithmetic of
    [list_stages], which raises on what is not a number. *)
Definition _handle_list_stages (message : gmap string value) (s : StageServerManager)
  : result value * StageServerManager :=
  let filters := get_or message "filters" (VDict ∅) in
  (match as_number (get_or message "page" (VNum 1)),
         as_number (get_or message "page_size" (VNum 20)) with
   | Some page, Some page_size =>
       result ← list_stages filters page page_size (stage_manager s);
       d ← as_dict result;
       mret (VDict (d ∪ {[ "status" := VStr "success" ]}))
   | _, _ => Raise TypeError
   end, s).

(** [_handle_delete_stage]: a soft delete. *)
Definition _handle_delete_stage (e : env) (message : gmap string value)
           (s : StageServerManager) : result value * StageServerManager :=
  let '(result, m) :=
    update_stage e (get message "stage_id") (VStr "status") (VStr "ANNULE")
                 (get message "requester_id") (stage_manager s) in
  (Ok result, set_stage_manager m s).

(** [_handle_assign_supervisor] *)
Definition _handle_assign_supervisor (e : env) (message : gmap string value)
           (s : StageServerManager) : result value * StageServerManager :=
  let '(result, m) :=
    assign_supervisor e (get message "stage_id")
                      (get_or message "supervisor_data" (VDict ∅)) (stage_manager s) in
  (Ok result, set_stage_manager m s).

(** [_handle_list_supervisors]: [StageManager] has no [_get_connection]. *)
Definition _handle_list_supervisors (message : gmap string value) (s : StageServerManager)
  : result value * StageServerManager :=
  (Raise AttributeError, s).

(** The loop of [_handle_submit_report] that receives the attachment.  Every
    turn appends at least one byte, so [file_size] turns are enough: [fuel]
    starts there and cannot run out before the loop ends.  [recv] wants an
    [int]; a number that is an integer is taken to be one. *)
Fixpoint receive_file (fuel : nat) (sock : nat) (file_size : Q) (file_data : string)
         (n : network) : result string * network :=
  let received := inject_Z (Z.of_nat (String.length file_data)) in
  if negb (Qle_bool file_size received) then
    match fuel with
    | O => (Ok file_data, n)
    | S fuel =>
        let size := py_min 8192 (file_size - received) in
        if Qeq_bool (inject_Z (Qfloor size)) size then
          match recv sock (Qfloor size) n with
          | Raise x => (Raise x, n)
          | Ok (chunk, n) =>
              if String.eqb chunk "" then (Ok file_data, n)
              else receive_file fuel sock file_size (file_data +:+ chunk) n
          end
        else (Raise TypeError, n)
    end
  else (Ok file_data, n).

(** The part of [_handle_submit_report] that runs when the message announces
    a file. *)
Definition receive_attachment (message : gmap string value) (client_socket : nat)
           (report_data : value) (n : network) : result value * network :=
  match send client_socket (VDict (dict_of [("status", VStr "ready")])) n with
  | Raise x => (Raise x, n)
  | Ok n =>
      match as_number (get_or message "file_size" (VNum 0)) with
      | None => (Raise TypeError, n)
      | Some file_size =>
          match receive_file (Z.to_nat (Qceiling file_size)) client_socket file_size "" n with
          | (Raise x, n) => (Raise x, n)
          | (Ok file_data, n) =>
              match report_data with
              | VDict d =>
                  (Ok (VDict (<["filename" := get_or message "filename" (VStr "rapport.pdf")]>
                                (<["report_file" := VBytes file_data]> d))), n)
              | _ => (Raise TypeError, n)
              end
          end
      end
  end.

(** [_handle_submit_report] *)
Definition _handle_submit_report (e : env) (message : gmap string value) (client_socket : nat)
           (s : StageServerManager) : result value * StageServerManager :=
  let report_data := get_or message "report_data" (VDict ∅) in
  let '(report_data, n) :=
    if truthy (get message "has_file")
    then receive_attachment message client_socket report_data (net s)
    else (Ok report_data, net s) in
  let s := set_net n s in
  match report_data with
  | Raise x => (Raise x, s)
  | Ok report_data =>
      let '(result, m) := submit_report e report_data (stage_manager s) in
      let s := set_stage_manager m s in
      if success_of result then
        (Ok result, set_totals (total_stages_created s) (total_reports_submitted s + 1)
                               (total_evaluations s) s)
      else (Ok result, s)
  end.

(** [_handle_list_reports] *)
Definition _handle_list_reports (message : gmap string value) (s : StageServerManager)
  : result value * StageServerManager :=
  (p ← adapt (get message "stage_id");
   mret (VDict (dict_of
     [("status", VStr "success");
      ("reports", rows_as_list (order_by_desc "submission_date"
                     (select_eq "stage_id" p (reports (db (stage_manager s))))))])),
   s).

(** [v[:8]] inside the [print] of [_handle_review_report]. *)
Definition sliceable (v : value) : bool :=
  match v with
  | VStr _ | VBytes _ | VList _ => true
  | _ => false
  end.

(** [_handle_review_report]: the update is committed before the [print] that
    slices [report_id]. *)
Definition _handle_review_report (e : env) (message : gmap string value)
           (s : StageServerManager) : result value * StageServerManager :=
  let m := stage_manager s in
  match
    (reviewer ← adapt (get message "reviewer_id");
     feedback ← adapt (get_or message "feedback" (VStr ""));
     score ← adapt (get_or message "score" (VNum 0));
     p ← adapt (get message "report_id");
     update_where reports_not_null reports_unique
       ["status"; "reviewed_by"; "review_date"; "feedback"; "score"] "report_id" p
       (fun r => <["score" := score]> (<["feedback" := feedback]>
                 (<["review_date" := VStr (CURRENT_TIMESTAMP e)]>
                 (<["reviewed_by" := reviewer]> (<["status" := VStr "EVALUE"]> r)))))
       (reports (db m)))
  with
  | Raise x => (Raise x, s)
  | Ok t =>
      let s := set_stage_manager (set_db (set_reports t (db m)) m) s in
      if sliceable (get message "report_id")
      then (Ok (VDict (dict_of [("status", VStr "success");
                                ("message", VStr "Rapport évalué")])), s)
      else (Raise TypeError, s)
  end.

(** [_handle_evaluate_stage] *)
Definition _handle_evaluate_stage (e : env) (message : gmap string value)
           (s : StageServerManager) : result value * StageServerManager :=
  let '(result, m) :=
    evaluate_stage e (get_or message "evaluation_data" (VDict ∅)) (stage_manager s) in
  let s := set_stage_manager m s in
  if success_of result then
    (Ok result, set_totals (total_stages_created s) (total_reports_submitted s)
                           (total_evaluations s + 1) s)
  else (Ok result, s).

(** [_handle_get_evaluations] *)
Definition _handle_get_evaluations (message : gmap string value) (s : StageServerManager)
  : result value * StageServerManager :=
  (p ← adapt (get message "stage_id");
   mret (VDict (dict_of
     [("status", VStr "success");
      ("evaluations", rows_as_list (select_eq "stage_id" p
                                      (evaluations (db (stage_manager s)))))])),
   s).

(** [_handle_get_statistics] *)
Definition _handle_get_statistics (message : gmap string value) (s : StageServerManager)
  : result value * StageServerManager :=
  let stats := get_statistics (get message "filters") (stage_manager s) in
  let server_stats := dict_of
    [("total_stages_created", VNum (inject_Z (total_stages_created s)));
     ("total_reports_submitted", VNum (inject_Z (total_reports_submitted s)));
     ("total_evaluations", VNum (inject_Z (total_evaluations s)));
     ("connected_institutions",
      VNum (inject_Z (Z.of_nat (size (connected_institutions s)))))] in
  (Ok (VDict (dict_of [("status", VStr "success");
                       ("statistics", VDict (<["server_stats" := VDict server_stats]> stats))])),
   s).

(** [_handle_generate_certificate] *)
Definition _handle_generate_certificate (e : env) (message : gmap string value)
           (s : StageServerManager) : result value * StageServerManager :=
  (generate_stage_certificate e (get message "stage_id") (stage_manager s), s).

(** *** The router *)

(** [_process_message]; [message] is what [json.loads] returned. *)
Definition _process_message (e : env) (message : value) (client_socket : nat)
           (s : StageServerManager) : result value * StageServerManager :=
  match message with
  | VDict message =>
      let msg_type := get message "type" in
      if eq_str msg_type "register_institution" then
        _register_institution e message client_socket s
      else if eq_str msg_type "disconnect" then _handle_disconnect message s
      else if eq_str msg_type "heartbeat_response" then
        (Ok (VDict (dict_of [("status", VStr "success"); ("send_response", VBool false)])), s)
      else if eq_str msg_type "create_stage" then _handle_create_stage e message s
      else if eq_str msg_type "update_stage" then _handle_update_stage e message s
      else if eq_str msg_type "get_stage" then _handle_get_stage message s
      else if eq_str msg_type "list_stages" then _handle_list_stages message s
      else if eq_str msg_type "delete_stage" then _handle_delete_stage e message s
      else if eq_str msg_type "assign_supervisor" then _handle_assign_supervisor e message s
      else if eq_str msg_type "list_supervisors" then _handle_list_supervisors message s
      else if eq_str msg_type "submit_report" then
        _handle_submit_report e message client_socket s
      else if eq_str msg_type "list_reports" then _handle_list_reports message s
      else if eq_str msg_type "review_report" then _handle_review_report e message s
      else if eq_str msg_type "evaluate_stage" then _handle_evaluate_stage e message s
      else if eq_str msg_type "get_evaluations" then _handle_get_evaluations message s
      else if eq_str msg_type "get_statistics" then _handle_get_statistics message s
      else if eq_str msg_type "generate_certificate" then
        _handle_generate_certificate e message s
      else
        (Ok (VDict (dict_of
           [("status", VStr "error");
            ("message", VStr ("Type de message inconnu: " +:+ py_str e msg_type))])), s)
  | _ => (Raise AttributeError, s)
  end.

End Server.

(** ** Vocabulary of the properties

    Predicates on inputs, the responses the properties name, and the
    formulas of the specification, written from its words to be compared
    with the code. *)

Module Spec.
Import Protocols StageService Server.

(** Values SQLite stores as they are. *)
Definition storable (v : value) : bool :=
  match v with
  | VNone | VNum _ | VStr _ | VBytes _ => true
  | _ => false
  end.

Definition is_text (v : value) : bool :=
  match v with VStr _ => true | _ => false end.

(** A dict all of whose values are storable, or are texts. *)
Definition storable_dict (d : gmap string value) : Prop :=
  map_Forall (fun _ v => storable v = true) d.
Definition text_dict (d : gmap string value) : Prop :=
  map_Forall (fun _ v => is_text v = true) d.

#[global] Instance storable_dict_dec (d : gmap string value) : Decision (storable_dict d).
Proof. unfold storable_dict. apply _. Defined.
#[global] Instance text_dict_dec (d : gmap string value) : Decision (text_dict d).
Proof. unfold text_dict. apply _. Defined.

(** What a placeholder receives when the parameter dict is [d]. *)
Definition param_value (d : gmap string value) (p : param) : value :=
  match p with
  | Required k => get d k
  | Optional k dflt => get_or d k dflt
  | Const v => v
  end.

Definition param_ok (d : gmap string value) (p : param) : bool :=
  match p with
  | Required k => bool_decide (is_Some (d !! k))
  | Optional _ dflt => storable dflt
  | Const v => storable v
  end.

(** The first binding of [k] in an association list. *)
Fixpoint assoc (k : string) (l : list (string * value)) : option value :=
  match l with
  | [] => None
  | (k', v) :: l => if String.eqb k' k then Some v else assoc k l
  end.

(** No row of [tbl] holds the text [id] in column [col]. *)
Definition fresh (col id : string) (tbl : list (gmap string value)) : Prop :=
  select_eq col (VStr id) tbl = [].

(** [UPDATE stages ... WHERE stage_id = sid], applying [f] to the rows it
    selects. *)
Definition update_rows (sid : string) (f : gmap string value -> gmap string value)
           (tbl : list (gmap string value)) : list (gmap string value) :=
  map (fun r => if sql_eq (cell r "stage_id") (VStr sid) then f r else r) tbl.

(** The cells of one column of a table, row by row. *)
Definition column (col : string) (tbl : list (gmap string value)) : list (option value) :=
  map (fun r => r !! col) tbl.

(** The number of rows of a child table that refer to stage [sid]. *)
Definition count_for (sid : string) (tbl : list (gmap string value)) : Z :=
  Z.of_nat (length (select_eq "stage_id" (VStr sid) tbl)).

(** *** Stage creation *)

Definition create_stage_required : list string :=
  omap (fun cp : string * param => match cp.2 with Required k => Some k | _ => None end)
       (create_stage_params "").
Definition create_stage_optional : list string :=
  omap (fun cp : string * param => match cp.2 with Optional k _ => Some k | _ => None end)
       (create_stage_params "").

Definition stage_created (stage_id : string) : value :=
  VDict (dict_of [("success", VBool true); ("stage_id", VStr stage_id);
                  ("message", VStr "Stage créé avec succès")]).

(** The row [create_stage] inserts for the payload [sd]. *)
Definition new_stage_row (e : env) (sd : gmap string value) : gmap string value :=
  list_to_map (map (fun cp : string * param => (cp.1, param_value sd cp.2))
                   (create_stage_params (uuid4 e 0))
               ++ stages_defaults (CURRENT_TIMESTAMP e)).

(** *** Updates *)

Definition stage_updated : value :=
  VDict (dict_of [("success", VBool true); ("message", VStr "Stage mis à jour avec succès")]).

(** The assignments of the soft delete. *)
Definition cancel (ts : string) (r : gmap string value) : gmap string value :=
  <["updated_at" := VStr ts]> (<["status" := VStr "ANNULE"]> r).

Definition set_progress (p : Q) (r : gmap string value) : gmap string value :=
  <["progress_percentage" := VNum p]> r.

(** *** Reports and evaluations *)

Definition report_required : list string :=
  ["stage_id"; "report_type"; "title"; "submitted_by"].
Definition evaluation_required : list string :=
  ["stage_id"; "evaluator_id"; "evaluator_type"].

(** The weighted sum of the five sub-scores, as the specification writes
    it. *)
Definition weighted_sum (t s a i r : Q) : Q :=
  (0.30 * t + 0.20 * s + 0.15 * a + 0.15 * i + 0.20 * r)%Q.

(** The same sum in the order [evaluate_stage] and [StageEvaluation] compute
    it. *)
Definition computed_score (t s a i r : Q) : Q :=
  (t * 0.30 + s * 0.20 + a * 0.15 + i * 0.15 + r * 0.20)%Q.

(** The grade bands, as the specification words them. *)
Definition grade_band (score : Q) (g : string) : Prop :=
  ((16 <= score)%Q -> g = "A - Excellent")
  /\ ((14 <= score)%Q /\ (score < 16)%Q -> g = "B - Très Bien")
  /\ ((12 <= score)%Q /\ (score < 14)%Q -> g = "C - Bien")
  /\ ((10 <= score)%Q /\ (score < 12)%Q -> g = "D - Passable")
  /\ ((score < 10)%Q -> g = "E - Insuffisant").

(** The progress formula of the specification: the elapsed-time percentage
    times 0.4, plus 10 per report up to 30, plus 15 per evaluation up to 30,
    capped at 100. *)
Definition progress_formula (time_percentage : Q) (report_count evaluation_count : Z) : Q :=
  Qmin (time_percentage * 0.4
        + Qmin (inject_Z report_count * 10) 30
        + Qmin (inject_Z evaluation_count * 15) 30) 100.

(** *** The router *)

(** The message types [_process_message] has a branch for. *)
Definition message_catalog : list string :=
  ["register_institution"; "disconnect"; "heartbeat_response";
   "create_stage"; "update_stage"; "get_stage"; "list_stages"; "delete_stage";
   "assign_supervisor"; "list_supervisors";
   "submit_report"; "list_reports"; "review_report";
   "evaluate_stage"; "get_evaluations";
   "get_statistics"; "generate_certificate"].

(** The message types whose handlers call nothing but operations of the
    store that catch their own exceptions. *)
Definition guarded_types : list string :=
  ["heartbeat_response"; "update_stage"; "delete_stage"; "assign_supervisor";
   "evaluate_stage"; "get_statistics"].

Definition registration_ack (institution_id : value) : value :=
  VDict (dict_of [("status", VStr "success");
                  ("message", VStr "Institution enregistrée avec succès");
                  ("institution_id", institution_id)]).

Definition unknown_type_response (e : env) (msg_type : value) : value :=
  VDict (dict_of [("status", VStr "error");
                  ("message", VStr ("Type de message inconnu: " +:+ py_str e msg_type))]).

(** The entries a map holds for the key [k]. *)
Definition entries_for {V} (k : hkey) (m : gmap hkey V) : list (hkey * V) :=
  filter (fun kv : hkey * V => kv.1 = k) (map_to_list m).

End Spec.

(** ** Concrete inputs *)

Module Examples.
Import Protocols StageService Server Spec.

(** [str(v)] of the values the examples render; the others are not reached
    and are left empty. *)
Definition runtime_str (v : value) : string :=
  match v with
  | VNone => "None"
  | VBool true => "True"
  | VBool false => "False"
  | _ => ""
  end.

(** An environment that draws the identifiers [ids], at the given clock
    text and time. *)
Definition env_at (ids : list string) (clock : string) (today : datetime) : env :=
  {| uuid4 := fun n => nth n ids "";
     CURRENT_TIMESTAMP := clock;
     now := today;
     str_of := runtime_str;
     str_exn := fun _ => "";
     json_dumps := fun _ => "" |}.

Definition empty_manager : StageManager :=
  {| db := {| stages := []; supervisors := []; reports := []; evaluations := [];
              stage_history := [] |};
     reports_path := "data_central_server/reports";
     files := ∅ |}.

Definition server_over (m : StageManager) : StageServerManager :=
  {| connected_institutions := ∅; institution_sockets := ∅;
     total_stages_created := 0; total_reports_submitted := 0; total_evaluations := 0;
     stage_manager := m;
     net := {| sent := []; incoming := ∅; closed := ∅ |} |}.

(** A stage from 2025-02-01 to 2025-05-01, created on 2025-01-10. *)
Definition stage_payload : gmap string value :=
  dict_of [("student_id", VStr "etu-1"); ("student_name", VStr "Amina Ngono");
           ("university_id", VStr "univ_uy1"); ("university_name", VStr "Université de Yaoundé I");
           ("department", VStr "Informatique");
           ("company_id", VStr "ent_mtn"); ("company_name", VStr "MTN Cameroun");
           ("company_city", VStr "Douala"); ("company_region", VStr "Littoral");
           ("stage_title", VStr "Supervision réseau"); ("stage_type", VStr "ACADEMIQUE");
           ("start_date", VStr "2025-02-01"); ("end_date", VStr "2025-05-01")].

Definition at_creation : env :=
  env_at ["stage-1"; "history-1"] "2025-01-10 09:00:00" (mk_datetime 2025 1 10 9 0 0 0).

Definition manager_with_stage : StageManager :=
  (create_stage at_creation (VDict stage_payload) empty_manager).2.

(** A final report for that stage, submitted two days later, before the
    stage has begun. *)
Definition final_report : gmap string value :=
  dict_of [("stage_id", VStr "stage-1"); ("report_type", VStr "FINAL");
           ("title", VStr "Rapport final"); ("submitted_by", VStr "etu-1")].

Definition at_submission : env :=
  env_at ["report-1"] "2025-01-12 09:00:00" (mk_datetime 2025 1 12 9 0 0 0).

Definition manager_with_report : StageManager :=
  (submit_report at_submission (VDict final_report) manager_with_stage).2.

(** The same stage as a [Stage] object. *)
Definition pending_stage : Stage :=
  Build_Stage "stage-1" "Supervision réseau" "" (date 2025 2 1) (date 2025 5 1)
              "ACADEMIQUE" Protocols.PENDING [] [].

(** A stage in progress, seen at the middle of its twenty days. *)
Definition running_stage : Stage :=
  Build_Stage "stage-2" "Audit" "" (date 2025 1 1) (date 2025 1 21)
              "ACADEMIQUE" IN_PROGRESS [] [].
Definition mid_course : datetime := mk_datetime 2025 1 11 12 0 0 0.

(** The evaluation of the specification: sub-scores 18, 16, 14, 12, 15. *)
Definition evaluation_payload : gmap string value :=
  dict_of [("stage_id", VStr "stage-1"); ("evaluator_id", VStr "enc-1");
           ("evaluator_type", VStr "ACADEMIQUE");
           ("technical_skills_score", VNum 18); ("soft_skills_score", VNum 16);
           ("attendance_score", VNum 14); ("initiative_score", VNum 12);
           ("report_quality_score", VNum 15)].

Definition at_evaluation : env :=
  env_at ["evaluation-1"] "2025-04-30 09:00:00" (mk_datetime 2025 4 30 9 0 0 0).

(** Creation payloads for the validation protocol. *)
Definition creation_data (start_date end_date : string) : gmap string value :=
  dict_of [("student_id", VStr "etu-1"); ("company_id", VStr "ent_mtn");
           ("university_id", VStr "univ_uy1"); ("title", VStr "Supervision réseau");
           ("stage_type", VStr "ACADEMIQUE");
           ("start_date", VStr start_date); ("end_date", VStr end_date)].
Definition undated_data : gmap string value :=
  delete "start_date" (delete "end_date" (creation_data "" "")).
Definition validation_time : datetime := mk_datetime 2024 12 1 8 0 0 0.

(** Messages. *)
Definition registration (institution_type : string) : gmap string value :=
  dict_of [("type", VStr "register_institution"); ("institution_id", VStr "univ_uy1");
           ("name", VStr "Université de Yaoundé I");
           ("institution_type", VStr institution_type);
           ("region", VStr "Centre"); ("city", VStr "Yaoundé")].

Definition unknown_message : gmap string value :=
  dict_of [("type", VStr "ping"); ("payload", VList [VNum 1; VNone])].

Definition update_message : gmap string value :=
  dict_of [("type", VStr "update_stage"); ("stage_id", VList [])].

Definition delete_message (requester : list (string * value)) : gmap string value :=
  dict_of ([("type", VStr "delete_stage"); ("stage_id", VStr "stage-1")] ++ requester).

Definition at_deletion : env :=
  env_at ["history-2"] "2025-01-15 09:00:00" (mk_datetime 2025 1 15 9 0 0 0).

(** Forty-five stages, for the pagination example. *)
Definition forty_five_stages : StageManager :=
  {| db := {| stages := repeat (new_stage_row at_creation stage_payload) 45;
              supervisors := []; reports := []; evaluations := []; stage_history := [] |};
     reports_path := "data_central_server/reports";
     files := ∅ |}.

End Examples.
(** ** [stage-protocols.py]: people, completion requirements and
       notifications *)

Module Dataclasses.
Import Protocols.

Inductive UserRole :=
| STUDENT | ACADEMIC_SUPERVISOR | COMPANY_SUPERVISOR | ADMIN | COORDINATOR.

Definition UserRole_value (r : UserRole) : string :=
  match r with
  | STUDENT => "ETUDIANT"
  | ACADEMIC_SUPERVISOR => "ENCADREUR_ACADEMIQUE"
  | COMPANY_SUPERVISOR => "ENCADREUR_ENTREPRISE"
  | ADMIN => "ADMINISTRATEUR"
  | COORDINATOR => "COORDINATEUR"
  end.

Record Student := {
  student_id : string;
  matricule : string;
  student_first_name : string;
  student_last_name : string;
  student_email : string;
  student_phone : string;
  student_university_id : string;
  student_department : string;
  academic_level : string;
  academic_year : string;
  date_of_birth : string;
  gender : string;
  address : string
}.

Record Supervisor := {
  supervisor_id : string;
  first_name : string;
  last_name : string;
  email : string;
  phone : string;
  supervisor_type : string;
  institution_id : string;
  department : string;
  supervisor_title : string;
  specialization : string;
  max_students : Z;
  current_students : Z
}.

(** [Supervisor.is_available] *)
Definition is_available (s : Supervisor) : bool :=
  current_students s <? max_students s.

(** The people of a [Stage], which [Protocols.Stage] leaves out: its student
    and its two supervisors, each of which may be [None]. *)
Record StagePeople := {
  student : Student;
  academic_supervisor : option Supervisor;
  company_supervisor : option Supervisor
}.

(** [sum(e.final_score for e in evaluations)]: from 0, left to right. *)
Definition sum_scores (evaluations : list StageEvaluation) : Q :=
  fold_left (fun acc e => (acc + final_score e)%Q) evaluations 0%Q.

(** [Stage.final_grade]: [None] without evaluations. *)
Definition final_grade (s : Stage) : option string :=
  match evaluations s with
  | [] => None
  | evs =>
      let avg_score := (sum_scores evs / inject_Z (Z.of_nat (length evs)))%Q in
      Some (grade_of avg_score)
  end.

(** [int(x)] on a float: towards zero. *)
Definition py_int (x : Q) : Z :=
  if Qle_bool 0 x then Qfloor x else Qceiling x.

Definition REQUIRED_REPORTS_PER_MONTH : Z := 1.
Definition MINIMUM_EVALUATION_SCORE : Q := 10.

(** [StageValidationProtocol.calculate_completion_requirements] *)
Definition calculate_completion_requirements (s : Stage) : gmap string value :=
  let duration_months := (inject_Z (duration_weeks s) / 4)%Q in
  let required_reports := py_int (duration_months * inject_Z REQUIRED_REPORTS_PER_MONTH) in
  dict_of
    [("required_weekly_reports", VNum (inject_Z required_reports));
     ("required_midterm_report", VBool (8 <=? duration_weeks s));
     ("required_final_report", VBool true);
     ("required_evaluations", VNum 2);
     ("minimum_attendance", VNum 80);
     ("submitted_reports", VNum (inject_Z (Z.of_nat (length (reports s)))));
     ("submitted_evaluations", VNum (inject_Z (Z.of_nat (length (evaluations s)))))].

End Dataclasses.

Module NotificationProtocol.
Import Protocols Dataclasses.

Definition NOTIFICATION_TYPES : list (string * string) :=
  [("STAGE_CREATED", "Nouveau stage créé");
   ("STAGE_APPROVED", "Stage approuvé");
   ("STAGE_STARTED", "Stage démarré");
   ("SUPERVISOR_ASSIGNED", "Encadreur assigné");
   ("REPORT_SUBMITTED", "Rapport soumis");
   ("REPORT_REVIEWED", "Rapport évalué");
   ("EVALUATION_COMPLETED", "Évaluation complétée");
   ("STAGE_COMPLETED", "Stage terminé");
   ("DEADLINE_REMINDER", "Rappel d'échéance");
   ("STAGE_CANCELLED", "Stage annulé")].

(** [NOTIFICATION_TYPES.get(notification_type)] *)
Fixpoint lookup_type (notification_type : string) (l : list (string * string))
  : option string :=
  match l with
  | [] => None
  | (k, v) :: l => if String.eqb k notification_type then Some v else lookup_type notification_type l
  end.

(** The rendering of an optional text inside an f-string. *)
Definition str_option (o : option string) : string :=
  match o with Some s => s | None => "None" end.

(** [generate_notification]; [id] is the digest the notification receives and
    [now] the time of the call. *)
Definition generate_notification (id : string) (now : datetime)
           (notification_type : string) (stage : Stage) (recipient_role : UserRole)
           (additional_data : option (gmap string value)) : gmap string value :=
  let notification := dict_of
    [("id", VStr id);
     ("type", VStr notification_type);
     ("title", VStr (default "Notification" (lookup_type notification_type NOTIFICATION_TYPES)));
     ("stage_id", VStr (stage_id stage));
     ("stage_title", VStr (title stage));
     ("recipient_role", VStr (UserRole_value recipient_role));
     ("created_at", VStr (StageService.isoformat now));
     ("is_read", VBool false);
     ("priority", VStr "NORMAL")] in
  let notification :=
    if String.eqb notification_type "DEADLINE_REMINDER" then
      <["message" := VStr ("Rappel: Échéance proche pour le stage '" +:+ title stage +:+ "'")]>
        (<["priority" := VStr "HIGH"]> notification)
    else if String.eqb notification_type "STAGE_CANCELLED" then
      <["message" := VStr ("Le stage '" +:+ title stage +:+ "' a été annulé")]>
        (<["priority" := VStr "HIGH"]> notification)
    else if String.eqb notification_type "EVALUATION_COMPLETED" then
      <["message" := VStr ("Une nouvelle évaluation a été soumise pour '" +:+ title stage +:+ "'")]>
        notification
    else
      <["message" := VStr (str_option (lookup_type notification_type NOTIFICATION_TYPES)
                           +:+ " - " +:+ title stage)]> notification in
  match additional_data with
  | Some data => if truthy (VDict data) then data ∪ notification else notification
  | None => notification
  end.

Definition supervisor_notifications : list string :=
  ["REPORT_SUBMITTED"; "STAGE_STARTED"; "STAGE_COMPLETED";
   "DEADLINE_REMINDER"; "STAGE_CANCELLED"].

(** [get_recipients_for_notification] *)
Definition get_recipients_for_notification (notification_type : string) (people : StagePeople)
  : list string :=
  let recipients := [student_email (student people)] in
  if bool_decide (notification_type ∈ supervisor_notifications) then
    let recipients :=
      match academic_supervisor people with
      | Some s => recipients ++ [email s]
      | None => recipients
      end in
    match company_supervisor people with
    | Some s => recipients ++ [email s]
    | None => recipients
    end
  else recipients.

End NotificationProtocol.
(** ** [enhanced-stage-service.py]: synchronisation *)

Module Sync.
Import StageService.

(** [EnhancedStageService.sync_stages_with_institutions]; the stage manager is
    the one of the server. *)
Definition sync_stages_with_institutions (e : env) (stage_ids : list value) (m : StageManager)
  : gmap string value :=
  let '(synced, failed) :=
    fold_left
      (fun (results : list value * list value) stage_id =>
         let '(synced, failed) := results in
         match get_stage stage_id m with
         | Ok stage =>
             if truthy stage then (synced ++ [stage_id], failed)
             else (synced,
                   failed ++ [VDict (dict_of [("stage_id", stage_id);
                                              ("error", VStr "Non trouvé")])])
         | Raise x =>
             (synced,
              failed ++ [VDict (dict_of [("stage_id", stage_id);
                                         ("error", VStr (str_exn e x))])])
         end)
      stage_ids ([], []) in
  dict_of [("synced", VList synced); ("failed", VList failed)].

End Sync.
(** ** Vocabulary of the further properties *)

Module Props.
Import Protocols StageService Server Spec Dataclasses NotificationProtocol Sync.

(** The evaluation rows of the store hold the final scores of the
    evaluations [evs], in the same order. *)
Definition scored_as (evs : list StageEvaluation) (rows : list value) : Prop :=
  Forall2 (fun ev row => subscript row "final_score" = Ok (VNum (final_score ev))) evs rows.

(** The assignments of [update_stage] to the column [c]. *)
Definition assign (c : string) (v : value) (ts : string) (r : gmap string value)
  : gmap string value :=
  <["updated_at" := VStr ts]> (<[c := v]> r).

(** The message of a store operation that caught the exception [x]. *)
Definition refused (e : env) (x : exn) : value :=
  VDict (dict_of [("success", VBool false); ("message", VStr (str_exn e x))]).

Definition stage_not_found : value :=
  VDict (dict_of [("success", VBool false); ("message", VStr "Stage non trouvé")]).

(** *** Supervisors *)

Definition supervisor_assigned : value :=
  VDict (dict_of [("success", VBool true); ("message", VStr "Encadreur assigné avec succès")]).

(** The column of [stages] that receives a supervisor of type [ty]. *)
Definition supervisor_column (ty : value) : string :=
  if eq_str ty "ACADEMIQUE" then "academic_supervisor_id" else "company_supervisor_id".

(** One more student for the supervisor of a row. *)
Definition one_more_student (r : gmap string value) : gmap string value :=
  <["current_students" := plus_one (cell r "current_students")]> r.

(** [UPDATE tbl SET ... WHERE col = p] as a map over the rows. *)
Definition update_matching (col : string) (p : value)
           (f : gmap string value -> gmap string value)
           (tbl : list (gmap string value)) : list (gmap string value) :=
  map (fun r => if sql_eq (cell r col) p then f r else r) tbl.

(** The row [assign_supervisor] inserts for the payload [sd], before its
    counter is incremented. *)
Definition new_supervisor_row (e : env) (sd : gmap string value) : gmap string value :=
  list_to_map (map (fun cp : string * param => (cp.1, param_value sd cp.2)) supervisor_params
               ++ supervisors_defaults (CURRENT_TIMESTAMP e)).

(** *** Attachments *)

(** The path under which [submit_report] writes the attachment of the report
    [report_id]. *)
Definition attachment_path (e : env) (m : StageManager) (report_id : string)
           (rd : gmap string value) : string :=
  let file_name := report_id +:+ "_" +:+ py_str e (get_or rd "filename" (VStr "report.pdf")) in
  reports_path m +:+ "/" +:+ file_name.

(** The payload carries the attachment [b] under a name without directory
    part. *)
Definition attached (e : env) (report_id : string) (rd : gmap string value) (b : string)
  : Prop :=
  rd !! "report_file" = Some (VBytes b) /\ b <> ""
  /\ has_slash (report_id +:+ "_" +:+ py_str e (get_or rd "filename" (VStr "report.pdf")))
     = false.

(** *** Certificates *)

Definition stage_unfinished : value :=
  VDict (dict_of [("success", VBool false); ("message", VStr "Le stage doit être terminé")]).

(** Every row holds a number as its final score, as the rows that
    [evaluate_stage] inserts do. *)
Definition scored (rows : list (gmap string value)) : Prop :=
  Forall (fun r => exists q, r !! "final_score" = Some (VNum q)) rows.

(** The fields a certificate copies from the stage. *)
Definition certificate_fields : list string :=
  ["student_name"; "university_name"; "company_name"; "stage_title"; "start_date"; "end_date"].

(** *** Pages *)

(** The stages of the response of [list_stages] to one page (none when it
    raises). *)
Definition page_of (filters : value) (page page_size : Z) (m : StageManager) : list value :=
  match list_stages filters (inject_Z page) (inject_Z page_size) m with
  | Ok (VDict response) =>
      match response !! "stages" with
      | Some (VList l) => l
      | _ => []
      end
  | _ => []
  end.

(** The stages that satisfy the conditions, newest first. *)
Definition matching_stages (conds : list (value * (value -> gmap string value -> bool)))
           (m : StageManager) : list (gmap string value) :=
  order_by_desc "created_at" (List.filter (matches conds) (stages (db m))).

(** *** Synchronisation *)

(** A stage of the store bears the identifier. *)
Definition known (m : StageManager) (stage_id : value) : bool :=
  match adapt stage_id with
  | Ok p => existsb (fun r => sql_eq (cell r "stage_id") p) (stages (db m))
  | Raise _ => false
  end.

(** The entry of the failures for an identifier. *)
Definition failure_of (e : env) (m : StageManager) (stage_id : value) : value :=
  VDict (dict_of [("stage_id", stage_id);
                  ("error", VStr (match adapt stage_id with
                                  | Ok _ => "Non trouvé"
                                  | Raise x => str_exn e x
                                  end))]).

(** *** The server *)

(** The three counters of the server. *)
Definition totals (s : StageServerManager) : Z * Z * Z :=
  (total_stages_created s, total_reports_submitted s, total_evaluations s).

(** The message types whose handlers only read. *)
Definition read_only_types : list string :=
  ["heartbeat_response"; "get_stage"; "list_stages"; "list_supervisors"; "list_reports";
   "get_evaluations"; "get_statistics"; "generate_certificate"].

(** The type of a message, when it is a dict whose type is a text. *)
Definition type_of (message : value) : option string :=
  match message with
  | VDict d => match d !! "type" with Some (VStr t) => Some t | _ => None end
  | _ => None
  end.

(** *** Buffers *)

(** What is left of a buffer after its first [k] bytes. *)
Definition after (k : nat) (s : string) : string :=
  substring k (String.length s - k) s.

(** The go-ahead the server sends before it reads an attachment. *)
Definition ready : value := VDict (dict_of [("status", VStr "ready")]).

(** The report data once the attachment [bytes] of the message is received. *)
Definition with_attachment (message d : gmap string value) (bytes : string)
  : gmap string value :=
  <["filename" := get_or message "filename" (VStr "rapport.pdf")]>
    (<["report_file" := VBytes bytes]> d).

(** *** Registry and notifications *)

Definition disconnected : value :=
  VDict (dict_of [("status", VStr "success"); ("message", VStr "Déconnecté")]).

(** The notification of a stage created under the title [title]. *)
Definition stage_created_notification (e : env) (title : string) : value :=
  VDict (dict_of [("type", VStr "notification");
                  ("notification_type", VStr "STAGE_CREATED");
                  ("message", VStr ("Nouveau stage créé: " +:+ title));
                  ("timestamp", VStr (isoformat (now e)))]).

(** What is written to the socket of an institution, when it has one that is
    alive. *)
Definition delivered (s : StageServerManager) (k : hkey) (notification : value)
  : list (nat * value) :=
  match institution_sockets s !! k with
  | Some sock => if bool_decide (sock ∈ closed (net s)) then [] else [(sock, notification)]
  | None => []
  end.

(** *** Reports *)

(** The assignments of a review. *)
Definition review (reviewer feedback score : value) (ts : string) (r : gmap string value)
  : gmap string value :=
  <["score" := score]> (<["feedback" := feedback]> (<["review_date" := VStr ts]>
    (<["reviewed_by" := reviewer]> (<["status" := VStr "EVALUE"]> r)))).

Definition report_reviewed : value :=
  VDict (dict_of [("status", VStr "success"); ("message", VStr "Rapport évalué")]).

(** The text a row holds as its submission date (the empty text when it
    holds none). *)
Definition submitted_at (r : gmap string value) : string :=
  match cell r "submission_date" with
  | VStr s => s
  | _ => ""
  end.

(** Every row holds a text as its submission date, as the rows of the
    table do by the default of the column. *)
Definition dated (rows : list (gmap string value)) : Prop :=
  forallb (fun r => is_text (cell r "submission_date")) rows = true.

(** From the most recent to the oldest: no row is older than a row after
    it. *)
Fixpoint newest_first (rows : list (gmap string value)) : Prop :=
  match rows with
  | [] => True
  | r :: rest =>
      Forall (fun later => String.leb (submitted_at later) (submitted_at r) = true) rest
      /\ newest_first rest
  end.

(** The answer of [get_stage] to an identifier no stage bears. *)
Definition no_such_stage : value :=
  VDict (dict_of [("status", VStr "error"); ("message", VStr "Stage non trouvé")]).

End Props.
(** ** Further concrete inputs *)

Module Scenarios.
Import Protocols StageService Server Spec Dataclasses NotificationProtocol Examples Props.

(** The evaluation of the examples as a [StageEvaluation], and the finished
    stage that holds it. *)
Definition evaluation_entity : StageEvaluation :=
  Build_StageEvaluation "evaluation-1" "stage-1" "enc-1" "ACADEMIQUE" (date 2025 4 30)
                        18 16 14 12 15 "" "".

Definition evaluated_stage : Stage :=
  Build_Stage "stage-1" "Supervision réseau" "" (date 2025 2 1) (date 2025 5 1)
              "ACADEMIQUE" COMPLETED [] [evaluation_entity].

(** The store after that evaluation, and the stage [get_stage] reads from
    it. *)
Definition manager_with_evaluation : StageManager :=
  (evaluate_stage at_evaluation (VDict evaluation_payload) manager_with_stage).2.

Definition stored_evaluations : list value :=
  map VDict (select_eq "stage_id" (VStr "stage-1") (evaluations (db manager_with_evaluation))).

Definition stored_stage : gmap string value :=
  match get_stage (VStr "stage-1") manager_with_evaluation with
  | Ok (VDict stage) => stage
  | _ => ∅
  end.

(** A payload without the department of the student. *)
Definition incomplete_payload : gmap string value := delete "department" stage_payload.

(** A supervisor for the stage of the examples. *)
Definition supervisor_payload : gmap string value :=
  dict_of [("supervisor_id", VStr "enc-1"); ("first_name", VStr "Paul");
           ("last_name", VStr "Biya Mbarga"); ("email", VStr "enc1@uy1.cm");
           ("supervisor_type", VStr "ACADEMIQUE"); ("institution_id", VStr "univ_uy1")].

Definition at_assignment : env :=
  env_at ["history-3"] "2025-01-20 09:00:00" (mk_datetime 2025 1 20 9 0 0 0).

(** The same supervisor with five students already, which is the most the
    table allows by default. *)
Definition busy_supervisor : gmap string value :=
  <["current_students" := VNum 5]> (new_supervisor_row at_assignment supervisor_payload).

Definition manager_with_busy_supervisor : StageManager :=
  set_db (set_supervisors [busy_supervisor] (db manager_with_stage)) manager_with_stage.

(** A weekly report with its file, and the same report without title. *)
Definition report_with_file : gmap string value :=
  dict_of [("stage_id", VStr "stage-1"); ("report_type", VStr "HEBDOMADAIRE");
           ("title", VStr "Semaine 1"); ("submitted_by", VStr "etu-1");
           ("report_file", VBytes "%PDF-1.4"); ("filename", VStr "semaine1.pdf")].

Definition untitled_report : gmap string value := delete "title" report_with_file.

(** A request for the second page of pages of no stage. *)
Definition empty_pages : gmap string value :=
  dict_of [("type", VStr "list_stages"); ("page", VNum 2); ("page_size", VNum 0)].

(** The stage of the examples once it is finished. *)
Definition at_completion : env :=
  env_at ["history-4"] "2025-05-02 09:00:00" (mk_datetime 2025 5 2 9 0 0 0).

Definition finished_manager : StageManager :=
  (update_stage at_completion (VStr "stage-1") (VStr "status") (VStr "TERMINE")
                (VStr "univ_uy1") manager_with_stage).2.

Definition finished_row : gmap string value :=
  assign "status" (VStr "TERMINE") "2025-05-02 09:00:00"
         (new_stage_row at_creation stage_payload).

Definition at_certificate : env :=
  env_at ["certificate-1"] "2025-05-03 09:00:00" (mk_datetime 2025 5 3 9 0 0 0).

(** The weekly report sent without its file, which follows on the socket 7:
    the message announces 8 bytes. *)
Definition weekly_report : gmap string value :=
  delete "report_file" (delete "filename" report_with_file).

Definition upload_message : gmap string value :=
  dict_of [("type", VStr "submit_report"); ("report_data", VDict weekly_report);
           ("has_file", VBool true); ("file_size", VNum 8);
           ("filename", VStr "semaine1.pdf")].

(** A network on which [bytes] have arrived on the socket 7. *)
Definition network_with (bytes : string) : network :=
  {| sent := []; incoming := {[ 7%nat := bytes ]}; closed := ∅ |}.

(** The university of the examples registered on the socket 7, over a store
    without stages. *)
Definition registered_server : StageServerManager :=
  (_process_message at_creation (VDict (registration "UNIVERSITE")) 7
                    (server_over empty_manager)).2.

Definition goodbye : gmap string value :=
  dict_of [("type", VStr "disconnect"); ("institution_id", VStr "univ_uy1")].

Definition creation_message : gmap string value :=
  dict_of [("type", VStr "create_stage"); ("stage_data", VDict stage_payload)].

Definition statistics_request : gmap string value :=
  dict_of [("type", VStr "get_statistics")].

Definition reports_request : gmap string value :=
  dict_of [("type", VStr "list_reports"); ("stage_id", VStr "stage-1")].

Definition review_message : gmap string value :=
  dict_of [("type", VStr "review_report"); ("report_id", VStr "report-1");
           ("reviewer_id", VStr "enc-1"); ("score", VNum 15); ("feedback", VStr "Bien")].

Definition at_review : env :=
  env_at [] "2025-01-13 09:00:00" (mk_datetime 2025 1 13 9 0 0 0).

(** A request about a stage that does not exist. *)
Definition request_for_stage_9 (msg_type : string) : gmap string value :=
  dict_of [("type", VStr msg_type); ("stage_id", VStr "stage-9");
           ("requester_id", VStr "univ_uy1")].

End Scenarios.

(** * Properties *)

Import StageService Server Spec.

(** ** Arithmetic *)

Lemma Qle_bool_false (a b : Q) : Qle_bool a b = false <-> (b < a)%Q.
Proof.
  split; intros H.
  - apply Qnot_le_lt. intros Hle. apply Qle_bool_iff in Hle. congruence.
  - destruct (Qle_bool a b) eqn:E; [|reflexivity].
    apply Qle_bool_iff in E. exfalso. exact (Qlt_not_le _ _ H E).
Qed.

Lemma py_min_is_min (a b : Q) : (py_min a b == Qmin a b)%Q.
Proof.
  unfold py_min. destruct (Qle_bool a b) eqn:E.
  - apply Qle_bool_iff in E. symmetry. by apply Q.min_l.
  - apply Qle_bool_false in E. symmetry. apply Q.min_r. by apply Qlt_le_weak.
Qed.

Lemma whole_weeks_below_4 (days : Z) : (days / 7 <? 4) = (days <? 28).
Proof.
  destruct (Z.ltb_spec days 28) as [H|H].
  - apply Z.ltb_lt. apply Z.div_lt_upper_bound; lia.
  - apply Z.ltb_ge. apply Z.div_le_lower_bound; lia.
Qed.

Lemma whole_weeks_above_26 (days : Z) : (days / 7 >? 26) = (189 <=? days).
Proof.
  rewrite Z.gtb_ltb.
  destruct (Z.leb_spec 189 days) as [H|H].
  - apply Z.ltb_lt. assert (27 <= days / 7) by (apply Z.div_le_lower_bound; lia). lia.
  - apply Z.ltb_ge. assert (days / 7 < 27) by (apply Z.div_lt_upper_bound; lia). lia.
Qed.

Lemma Qfloor_inject_div (a : Z) (p : positive) :
  Qfloor (inject_Z a / inject_Z (Z.pos p)) = a / Z.pos p.
Proof.
  rewrite (Qfloor_comp _ (a # p)); [reflexivity|].
  unfold Qeq, Qdiv, Qmult, Qinv, inject_Z. cbn. lia.
Qed.

(** [(t + p - 1) // p] is the ceiling of [t / p]. *)
Lemma floor_of_sum_is_ceiling (t : Z) (p : positive) :
  Qfloor ((inject_Z t + inject_Z (Z.pos p) - 1) / inject_Z (Z.pos p))
  = Qceiling (inject_Z t / inject_Z (Z.pos p)).
Proof.
  rewrite (Qfloor_comp _ (inject_Z (t + Z.pos p - 1) / inject_Z (Z.pos p))).
  2:{ unfold Qeq, Qdiv, Qmult, Qminus, Qplus, Qopp, Qinv, inject_Z. cbn. lia. }
  rewrite Qfloor_inject_div.
  unfold Qceiling.
  rewrite (Qfloor_comp _ (inject_Z (- t) / inject_Z (Z.pos p))).
  2:{ unfold Qeq, Qdiv, Qmult, Qopp, Qinv, inject_Z. cbn. lia. }
  rewrite Qfloor_inject_div.
  pose proof (Z.div_mod (- t) (Z.pos p) ltac:(lia)) as Hdm.
  pose proof (Z.mod_pos_bound (- t) (Z.pos p) ltac:(lia)) as Hb.
  set (q := - t / Z.pos p) in *. set (r := (- t) mod Z.pos p) in *.
  symmetry. apply (Z.div_unique _ _ _ (Z.pos p - 1 - r)); [lia|].
  replace (Z.pos p * - q) with (- (Z.pos p * q)) by ring. lia.
Qed.

Lemma as_integer_inject (q : Q) (z : Z) : (q == inject_Z z)%Q -> as_integer q = Ok z.
Proof.
  intros H. unfold as_integer.
  rewrite (Qfloor_comp _ _ H), Qfloor_Z.
  assert (Qeq_bool (inject_Z z) q = true) as -> by (apply Qeq_bool_iff; by symmetry).
  reflexivity.
Qed.

(** The elapsed-time percentage lies between 0 and 100. *)
Lemma time_progress_bounds (today start_date end_date : datetime) (tp : Q) :
  time_progress today start_date end_date = Ok tp -> (0 <= tp <= 100)%Q.
Proof.
  unfold time_progress, gt, lt.
  destruct (Z.ltb_spec (total_microseconds today) (total_microseconds start_date)) as [H1|H1].
  { intros [= <-]. split; [apply Qle_refl|discriminate]. }
  destruct (Z.ltb_spec (total_microseconds end_date) (total_microseconds today)) as [H2|H2].
  { intros [= <-]. split; [discriminate|apply Qle_refl]. }
  unfold delta_days.
  set (elapsed := (total_microseconds today - total_microseconds start_date)
                  / microseconds_per_day).
  set (total := (total_microseconds end_date - total_microseconds start_date)
                / microseconds_per_day).
  assert (He : 0 <= elapsed) by (apply Z.div_pos; [lia|reflexivity]).
  assert (Het : elapsed <= total) by (apply Z.div_le_mono; [reflexivity|lia]).
  destruct (Z.eqb_spec total 0) as [H0|H0]; [discriminate|].
  intros [= <-].
  destruct total as [|p|p]; try lia.
  unfold Qle, Qdiv, Qmult, Qinv, inject_Z. cbn. split; nia.
Qed.

(** The stored progress is the formula of the specification. *)
Lemma stored_progress_formula (tp : Q) (report_count eval_count : Z) :
  (stored_progress tp report_count eval_count
   == progress_formula tp report_count eval_count)%Q.
Proof.
  unfold stored_progress, progress_formula.
  rewrite !py_min_is_min. apply Q.min_comm.
Qed.

(** ** The validation protocol *)

Section ValidationProtocol.
Import Protocols.
Implicit Types (sd : gmap string value) (now : datetime).

(** One error per required field that is missing or empty. *)
Lemma missing_errors_count sd f :
  In f required_fields ->
  count_occ string_dec
    (map missing_field_error
       (List.filter (fun field => negb (truthy (get sd field))) required_fields))
    (missing_field_error f)
  = if truthy (get sd f) then 0%nat else 1%nat.
Proof.
  unfold required_fields. cbn [In List.filter].
  intros H.
  destruct (truthy (get sd "student_id")) eqn:E1,
           (truthy (get sd "company_id")) eqn:E2,
           (truthy (get sd "university_id")) eqn:E3,
           (truthy (get sd "title")) eqn:E4,
           (truthy (get sd "stage_type")) eqn:E5;
    repeat (destruct H as [<-|H]; [rewrite ?E1, ?E2, ?E3, ?E4, ?E5; reflexivity|]);
    destruct H.
Qed.

Lemma duration_error_not_missing (l : list string) :
  ~ In minimum_duration_error (map missing_field_error l) /\
  ~ In maximum_duration_error (map missing_field_error l).
Proof.
  split; intros H; apply in_map_iff in H as (x & Hx & _); discriminate Hx.
Qed.




(** C10.  When [start_date] or [end_date] is absent (or empty) and the five
    required fields are non-empty, [validate_stage_creation] checks no date
    and returns [ok] with no error and no warning. *)
Theorem validate_stage_creation_without_dates now sd :
  truthy (get sd "start_date") = false \/ truthy (get sd "end_date") = false ->
  (forall f, In f required_fields -> truthy (get sd f) = true) ->
  validate_stage_creation now sd = Ok (true, [], []).
Proof.
  intros Hd Hreq. unfold validate_stage_creation.
  assert (truthy (get sd "start_date") && truthy (get sd "end_date") = false) as ->.
  { destruct Hd as [-> | ->]; [reflexivity|apply andb_false_r]. }
  cbn [mbind result_bind mret result_ret app].
  unfold required_fields in *. cbn [List.filter].
  rewrite !Hreq by (cbn; tauto). reflexivity.
Qed.

Lemma validate_stage_creation_without_dates_witness :
  Examples.undated_data !! "start_date" = None
  /\ Examples.undated_data !! "end_date" = None
  /\ validate_stage_creation Examples.validation_time Examples.undated_data
     = Ok (true, [], []).
Proof.
  split; [reflexivity|]. split; [reflexivity|].
  apply validate_stage_creation_without_dates.
  - left. reflexivity.
  - intros f Hf. cbn in Hf.
    repeat (destruct Hf as [<-|Hf]; [reflexivity|]). destruct Hf.
Defined.

(** [validate_report_submission] refuses exactly the stages that are neither
    in progress nor approved, and the final reports below 80% of progress. *)
Lemma validate_report_submission_ok now (stage : Stage) (ty : ReportType) (p : Q) :
  progress_percentage now stage = Ok p ->
  exists ok errors,
    validate_report_submission now stage ty = Ok (ok, errors)
    /\ (ok = false <->
        (status stage <> IN_PROGRESS /\ status stage <> APPROVED)
        \/ (ty = FINAL /\ (p < 80)%Q)).
Proof.
  intros Hp. unfold validate_report_submission.
  assert (Hst : bool_decide (status stage ∈ [IN_PROGRESS; APPROVED]) = false
                <-> status stage <> IN_PROGRESS /\ status stage <> APPROVED).
  { rewrite bool_decide_eq_false. rewrite !elem_of_cons, elem_of_nil. tauto. }
  destruct (decide (ty = FINAL)) as [->|Hty].
  - rewrite Hp. cbn.
    destruct (Qle_bool 80 p) eqn:E.
    + destruct (bool_decide (status stage ∈ [IN_PROGRESS; APPROVED])) eqn:B.
      * eexists _, _. split; [reflexivity|]. cbn. split; [discriminate|].
        intros [H|[_ H]]; [apply Hst in H; discriminate|].
        apply Qle_bool_false in H. congruence.
      * eexists _, _. split; [reflexivity|]. cbn. split; [|reflexivity].
        intros _. left. apply Hst. reflexivity.
    + apply Qle_bool_false in E.
      destruct (bool_decide (status stage ∈ [IN_PROGRESS; APPROVED])) eqn:B;
        (eexists _, _; split; [reflexivity|]; cbn; split; [|reflexivity]);
        intros _; right; auto.
  - cbn.
    destruct (bool_decide (status stage ∈ [IN_PROGRESS; APPROVED])) eqn:B.
    + eexists _, _. split; [reflexivity|]. cbn. split; [discriminate|].
      intros [H|[H _]]; [apply Hst in H; discriminate|contradiction].
    + eexists _, _. split; [reflexivity|]. cbn. split; [|reflexivity].
      intros _. left. apply Hst. reflexivity.
Qed.

(** [Stage.progress_percentage]: fixed by the status when the stage is
    completed, pending or cancelled, and otherwise the elapsed-time
    percentage alone. *)
Lemma entity_progress today (stage : Stage) :
  (status stage = COMPLETED -> progress_percentage today stage = Ok 100%Q)
  /\ (status stage = PENDING \/ status stage = CANCELLED ->
      progress_percentage today stage = Ok 0%Q)
  /\ (status stage = APPROVED \/ status stage = IN_PROGRESS \/ status stage = SUSPENDED ->
      progress_percentage today stage
      = (tp ← time_progress today (start_date stage) (end_date stage);
         mret (py_min 100 tp))).
Proof.
  unfold progress_percentage, time_progress.
  repeat split.
  - intros ->. reflexivity.
  - intros [-> | ->]; reflexivity.
  - intros [-> | [-> | ->]]; cbn;
      destruct (lt today (start_date stage)); try reflexivity;
      destruct (gt today (end_date stage)); try reflexivity;
      destruct (delta_days (end_date stage) (start_date stage) =? 0); reflexivity.
Qed.

Lemma grade_of_band (score : Q) : grade_band score (grade_of score).
Proof.
  unfold grade_band, grade_of.
  destruct (Qle_bool 16 score) eqn:E16; [apply Qle_bool_iff in E16|apply Qle_bool_false in E16];
  (destruct (Qle_bool 14 score) eqn:E14; [apply Qle_bool_iff in E14|apply Qle_bool_false in E14]);
  (destruct (Qle_bool 12 score) eqn:E12; [apply Qle_bool_iff in E12|apply Qle_bool_false in E12]);
  (destruct (Qle_bool 10 score) eqn:E10; [apply Qle_bool_iff in E10|apply Qle_bool_false in E10]);
  repeat split; intros; try reflexivity; exfalso; lra.
Qed.

End ValidationProtocol.

(** ** Dictionaries and tables *)

Section Dicts.
Implicit Types (d : gmap string value) (l : list (string * value)).

(** A dict literal is read by its first binding of the key. *)
Lemma lookup_dict_of l k : dict_of l !! k = assoc k l.
Proof.
  unfold dict_of. induction l as [|[k' v] l IH]; [reflexivity|].
  cbn [list_to_map foldr assoc fst snd].
  change (foldr (fun p => <[p.1 := p.2]>) ∅ l) with (list_to_map l : gmap string value).
  destruct (String.eqb_spec k' k) as [->|Hne].
  - apply lookup_insert_eq.
  - rewrite lookup_insert_ne by done. exact IH.
Qed.

Lemma cell_dict_of l k : cell (list_to_map l) k = default VNone (assoc k l).
Proof. unfold cell, get, get_or. by rewrite <- lookup_dict_of. Qed.

Lemma storable_adapt v : storable v = true -> adapt v = Ok v.
Proof. by destruct v. Qed.

Lemma text_storable_dict d : text_dict d -> storable_dict d.
Proof. intros H k v Hk. specialize (H k v Hk). by destruct v. Qed.

Lemma storable_get_or d k dflt :
  storable_dict d -> storable dflt = true -> storable (get_or d k dflt) = true.
Proof.
  intros Hd Hdf. unfold get_or. destruct (d !! k) eqn:E; cbn; [by apply (Hd k)|done].
Qed.

Lemma text_get d k v : text_dict d -> d !! k = Some v -> exists s, v = VStr s.
Proof. intros Hd Hk. specialize (Hd k v Hk). destruct v; try discriminate. eauto. Qed.

Lemma read_ok d p :
  storable_dict d -> param_ok d p = true ->
  read (VDict d) p = Ok (param_value d p) /\ storable (param_value d p) = true.
Proof.
  intros Hd Hp. destruct p as [k|k dflt|v]; cbn in *.
  - apply bool_decide_eq_true in Hp as [v Hv].
    unfold getitem, get, get_or. rewrite Hv. cbn. split; [done|by apply (Hd k)].
  - split; [done|by apply storable_get_or].
  - done.
Qed.

(** The parameters of a statement bind when the dict is storable and holds
    the required keys. *)
Lemma bind_params_ok d (ps : list (string * param)) :
  storable_dict d ->
  forallb (fun cp => param_ok d cp.2) ps = true ->
  bind_params (VDict d) ps = Ok (map (fun cp => (cp.1, param_value d cp.2)) ps).
Proof.
  intros Hd Hps. unfold bind_params.
  assert (H1 : mapM (fun cp : string * param => v ← read (VDict d) cp.2; mret (cp.1, v)) ps
               = Ok (map (fun cp => (cp.1, param_value d cp.2)) ps)
               /\ Forall (fun cv : string * value => storable cv.2 = true)
                         (map (fun cp => (cp.1, param_value d cp.2)) ps)).
  { induction ps as [|[c p] ps IH]; [by split; [|constructor]|].
    cbn in Hps. apply andb_true_iff in Hps as [Hp Hps].
    destruct (read_ok d p Hd Hp) as [Hr Hs].
    destruct (IH Hps) as [IH1 IH2].
    split.
    - cbn. rewrite Hr. cbn. rewrite IH1. reflexivity.
    - constructor; assumption. }
  destruct H1 as [-> Hall]. cbn [mbind result_bind].
  induction Hall as [|[c v] l Hv _ IH]; [reflexivity|].
  cbn in *. rewrite (storable_adapt v Hv). cbn. rewrite IH. reflexivity.
Qed.
End Dicts.

Section Tables.
Implicit Types (r : gmap string value) (tbl : list (gmap string value)).

(** A value no row holds keeps a UNIQUE column unique. *)
Lemma unique_ok_fresh col r tbl :
  select_eq col (cell r col) tbl = [] -> unique_ok [col] r tbl = true.
Proof.
  unfold unique_ok, select_eq. cbn [forallb]. rewrite andb_true_r.
  induction tbl as [|o tbl IH]; [reflexivity|].
  cbn. destruct (sql_eq (cell o col) (cell r col)); [discriminate|]. exact IH.
Qed.

Lemma select_eq_app col p tbl tbl' :
  select_eq col p (tbl ++ tbl') = select_eq col p tbl ++ select_eq col p tbl'.
Proof. apply List.filter_app. Qed.

(** An [UPDATE] that assigns no constrained column always passes. *)
Lemma updated_ok_untouched before (marked : list (bool * gmap string value)) :
  updated_ok [] [] before marked = true.
Proof.
  revert before. induction marked as [|[c r] l IH]; intros before; [reflexivity|].
  cbn. rewrite IH. by destruct c.
Qed.
End Tables.

Lemma get_text_dict (d : gmap string value) (k : string) :
  text_dict d -> get d k = VNone \/ exists s, get d k = VStr s.
Proof.
  intros H. unfold get, get_or. destruct (d !! k) eqn:E; cbn; [right|by left].
  by apply (text_get d k).
Qed.

(** [json.dumps] accepts a dict of texts. *)
Lemma text_dict_serializable (d : gmap string value) :
  text_dict d -> json_serializable (VDict d) = true.
Proof.
  intros Hd. cbn [json_serializable].
  revert Hd. unfold text_dict.
  apply (map_fold_weak_ind
           (fun (b : bool) (m : gmap string value) =>
              map_Forall (fun _ v => is_text v = true) m -> b = true)).
  - done.
  - intros k v m' b Hk IH Hall.
    apply map_Forall_insert in Hall as [Hv Hm]; [|done].
    rewrite (IH Hm). by destruct v.
Qed.

Lemma not_null_ok_intro (cols : list string) (r : gmap string value) :
  (forall c, In c cols -> is_null (cell r c) = false) -> not_null_ok cols r = true.
Proof.
  intros H. unfold not_null_ok. apply forallb_forall. intros c Hc. by rewrite H.
Qed.

(** [_log_history] appends one entry when the stage and the actor are not
    null. *)
Lemma log_history_ok (history_id ts : string) (stage_id : value) (action : string)
      (field old_value new_value changed_by : value) (d : database) :
  storable stage_id = true -> storable field = true -> storable old_value = true ->
  storable new_value = true -> storable changed_by = true ->
  is_null stage_id = false -> is_null changed_by = false ->
  fresh "history_id" history_id (stage_history d) ->
  exists entry,
    _log_history history_id ts stage_id action field old_value new_value changed_by d
    = Ok (set_stage_history (stage_history d ++ [entry]) d)
    /\ entry !! "stage_id" = Some stage_id
    /\ entry !! "action" = Some (VStr action)
    /\ entry !! "field_changed" = Some field
    /\ entry !! "old_value" = Some old_value
    /\ entry !! "new_value" = Some new_value
    /\ entry !! "changed_by" = Some changed_by.
Proof.
  intros S1 S2 S3 S4 S5 N1 N2 Hfresh. unfold _log_history.
  cbn [mapM mbind result_bind mret result_ret fst snd adapt].
  rewrite !storable_adapt by assumption. cbn [mbind result_bind mret result_ret app].
  unfold insert_row, history_unique.
  rewrite not_null_ok_intro, unique_ok_fresh; cycle 1.
  - rewrite cell_dict_of. exact Hfresh.
  - unfold history_not_null. cbn [In]. intros c [<-|[<-|[<-|[]]]];
      rewrite cell_dict_of; cbn; first [assumption|reflexivity].
  - cbn [andb mbind result_bind mret result_ret].
    eexists. split; [reflexivity|].
    change (@list_to_map string value (gmap string value) _ _) with dict_of.
    rewrite !lookup_dict_of. cbn. auto 10.
Qed.

(** ** The stage store *)

Section CreateStage.
Variables (e : env) (sd : gmap string value) (m : StageManager).
Hypothesis Htext : text_dict sd.
Hypothesis Hrequired : forall k, In k create_stage_required -> is_Some (sd !! k).

Lemma required_text k : In k create_stage_required -> exists s, get sd k = VStr s.
Proof.
  intros Hk. destruct (Hrequired k Hk) as [v Hv].
  destruct (text_get sd k v Htext Hv) as [s ->].
  exists s. unfold get, get_or. by rewrite Hv.
Qed.

Lemma create_stage_params_ok :
  forallb (fun cp : string * param => param_ok sd cp.2) (create_stage_params (uuid4 e 0)) = true.
Proof.
  unfold create_stage_params. cbn [forallb snd param_ok storable andb].
  repeat match goal with
         | |- context [bool_decide (is_Some (sd !! ?k))] =>
             rewrite (bool_decide_eq_true_2 (is_Some (sd !! k)))
               by (apply Hrequired; unfold create_stage_required; cbn; tauto)
         end.
  reflexivity.
Qed.

Lemma new_stage_row_not_null : not_null_ok stages_not_null (new_stage_row e sd) = true.
Proof.
  apply not_null_ok_intro. intros c Hc.
  assert (Hreq : In c create_stage_required).
  { unfold stages_not_null in Hc. unfold create_stage_required. cbn in *. tauto. }
  destruct (required_text c Hreq) as [s Hs].
  unfold new_stage_row. rewrite cell_dict_of.
  unfold stages_not_null in Hc. cbn [In] in Hc.
  repeat (destruct Hc as [<-|Hc]; [cbn -[get get_or]; rewrite Hs; reflexivity|]).
  destruct Hc.
Qed.

Lemma new_stage_row_id : cell (new_stage_row e sd) "stage_id" = VStr (uuid4 e 0).
Proof. unfold new_stage_row. rewrite cell_dict_of. reflexivity. Qed.

(** The effect of [create_stage] on a valid payload: one stage row and one
    history entry. *)
Lemma create_stage_ok :
  fresh "stage_id" (uuid4 e 0) (stages (db m)) ->
  fresh "history_id" (uuid4 e 1) (stage_history (db m)) ->
  exists entry,
    create_stage e (VDict sd) m
    = (stage_created (uuid4 e 0),
       set_db (set_stage_history (stage_history (db m) ++ [entry])
                 (set_stages (stages (db m) ++ [new_stage_row e sd]) (db m))) m)
    /\ entry !! "stage_id" = Some (VStr (uuid4 e 0))
    /\ entry !! "action" = Some (VStr "CREATE").
Proof.
  intros Hfresh Hhist.
  unfold create_stage, transaction, create_stage_body.
  rewrite (bind_params_ok sd _ (text_storable_dict sd Htext) create_stage_params_ok).
  cbn [mbind result_bind].
  fold (new_stage_row e sd).
  unfold insert_row, stages_unique.
  rewrite new_stage_row_not_null, unique_ok_fresh
    by (rewrite new_stage_row_id; exact Hfresh).
  cbn [andb mbind result_bind].
  rewrite (text_dict_serializable sd Htext). cbn [mbind result_bind vget as_dict mret result_ret].
  edestruct (log_history_ok (uuid4 e 1) (CURRENT_TIMESTAMP e) (VStr (uuid4 e 0)) "CREATE"
               VNone VNone (VStr (json_dumps e (VDict sd)))
               (get_or sd "created_by" (VStr "system"))
               (set_stages (stages (db m) ++ [new_stage_row e sd]) (db m)))
    as (entry & Hlog & Hid & Hact & _); try reflexivity.
  - apply storable_get_or; [by apply text_storable_dict|reflexivity].
  - unfold get_or. destruct (sd !! "created_by") eqn:E; [|reflexivity].
    destruct (text_get sd _ _ Htext E) as [s ->]. reflexivity.
  - exact Hhist.
  - rewrite Hlog. cbn [mbind result_bind mret result_ret].
    exists entry. auto.
Qed.
End CreateStage.

(** *** Updates *)

Lemma update_where_unconstrained (assigned : list string) (col : string) (p : value)
      (f : gmap string value -> gmap string value) (tbl : list (gmap string value)) :
  List.filter (fun c => bool_decide (c ∈ assigned)) stages_not_null = [] ->
  List.filter (fun c => bool_decide (c ∈ assigned)) stages_unique = [] ->
  update_where stages_not_null stages_unique assigned col p f tbl
  = Ok (map (fun r => if sql_eq (cell r col) p then f r else r) tbl).
Proof.
  intros H1 H2. unfold update_where. rewrite H1, H2, updated_ok_untouched.
  f_equal. rewrite map_map. apply map_ext. intros r. by destruct (sql_eq _ _).
Qed.

Lemma select_eq_update_rows (sid : string) (f : gmap string value -> gmap string value)
      (tbl : list (gmap string value)) :
  (forall r, cell (f r) "stage_id" = cell r "stage_id") ->
  select_eq "stage_id" (VStr sid) (update_rows sid f tbl)
  = map f (select_eq "stage_id" (VStr sid) tbl).
Proof.
  intros Hf. unfold select_eq, update_rows.
  induction tbl as [|r tbl IH]; [reflexivity|].
  cbn [map List.filter].
  destruct (sql_eq (cell r "stage_id") (VStr sid)) eqn:E.
  - rewrite Hf, E. cbn [map]. by rewrite IH.
  - rewrite E. exact IH.
Qed.

(** The effect of [update_stage] on the [status] of an existing stage. *)
Lemma update_status_ok (e : env) (sid : string) (new_value updated_by : value)
      (m : StageManager) (row : gmap string value) (rest : list (gmap string value)) :
  storable new_value = true ->
  storable updated_by = true -> is_null updated_by = false ->
  select_eq "stage_id" (VStr sid) (stages (db m)) = row :: rest ->
  fresh "history_id" (uuid4 e 0) (stage_history (db m)) ->
  exists entry,
    update_stage e (VStr sid) (VStr "status") new_value updated_by m
    = (stage_updated,
       set_db (set_stage_history (stage_history (db m) ++ [entry])
                 (set_stages
                    (update_rows sid
                       (fun r => <["updated_at" := VStr (CURRENT_TIMESTAMP e)]>
                                   (<["status" := new_value]> r))
                       (stages (db m)))
                    (db m))) m)
    /\ entry !! "stage_id" = Some (VStr sid)
    /\ entry !! "action" = Some (VStr "UPDATE")
    /\ entry !! "field_changed" = Some (VStr "status")
    /\ entry !! "old_value" = Some (VStr (py_str e (cell row "status")))
    /\ entry !! "new_value" = Some new_value
    /\ entry !! "changed_by" = Some updated_by.
Proof.
  intros Sv Sb Nb Hrow Hfresh.
  unfold update_stage, transaction, update_stage_body.
  cbn [column_name]. rewrite bool_decide_eq_true_2 by (unfold stages_columns; set_solver).
  cbn [mbind result_bind adapt]. rewrite Hrow.
  rewrite (storable_adapt _ Sv). cbn [mbind result_bind].
  rewrite update_where_unconstrained by reflexivity.
  cbn [mbind result_bind].
  edestruct (log_history_ok (uuid4 e 0) (CURRENT_TIMESTAMP e) (VStr sid) "UPDATE"
               (VStr "status") (VStr (py_str e (cell row "status"))) new_value updated_by
               (set_stages
                  (update_rows sid
                     (fun r => <["updated_at" := VStr (CURRENT_TIMESTAMP e)]>
                                 (<["status" := new_value]> r))
                     (stages (db m)))
                  (db m)))
    as (entry & Hlog & Hfacts); try eassumption; try reflexivity.
  unfold update_rows in Hlog. rewrite Hlog. cbn [mbind result_bind mret result_ret].
  exists entry. split; [reflexivity|exact Hfacts].
Qed.
(** *** Evaluations and reports *)

Section Evaluate.
Variables (e : env) (ed : gmap string value) (m : StageManager) (t s a i r : Q).
Hypothesis Hstorable : storable_dict ed.
Hypothesis Hrequired :
  forall k, In k evaluation_required -> exists v, ed !! k = Some v /\ is_null v = false.
Hypothesis Ht : ed !! "technical_skills_score" = Some (VNum t).
Hypothesis Hs : ed !! "soft_skills_score" = Some (VNum s).
Hypothesis Ha : ed !! "attendance_score" = Some (VNum a).
Hypothesis Hi : ed !! "initiative_score" = Some (VNum i).
Hypothesis Hr : ed !! "report_quality_score" = Some (VNum r).
Hypothesis Hfresh : fresh "evaluation_id" (uuid4 e 0) (evaluations (db m)).


(** The effect of [evaluate_stage]: one row, which holds the score and the
    grade the response returns. *)
Lemma evaluate_stage_ok :
  exists response row,
    evaluate_stage e (VDict ed) m
    = (VDict response, set_db (set_evaluations (evaluations (db m) ++ [row]) (db m)) m)
    /\ response !! "success" = Some (VBool true)
    /\ response !! "final_score" = Some (VNum (computed_score t s a i r))
    /\ response !! "grade" = Some (VStr (Protocols.grade_of (computed_score t s a i r)))
    /\ row !! "final_score" = Some (VNum (computed_score t s a i r))
    /\ row !! "grade" = Some (VStr (Protocols.grade_of (computed_score t s a i r)))
    /\ row !! "stage_id" = ed !! "stage_id".
Proof.
  unfold evaluate_stage, transaction, evaluate_stage_body, weighted, vget.
  cbn [as_dict mbind result_bind mret result_ret].
  unfold get_or. rewrite Ht, Hs, Ha, Hi, Hr.
  cbn [from_option id mul_float as_number mbind result_bind].
  fold (computed_score t s a i r).
  change (if Qle_bool 16 (computed_score t s a i r) then _ else _)
    with (Protocols.grade_of (computed_score t s a i r)).
  rewrite (bind_params_ok ed _ Hstorable).
  2:{ unfold evaluation_params. cbn [forallb snd param_ok storable andb].
      repeat match goal with
             | |- context [bool_decide (is_Some (ed !! ?k))] =>
                 rewrite (bool_decide_eq_true_2 (is_Some (ed !! k)))
                   by (destruct (Hrequired k) as (? & -> & _);
                       [unfold evaluation_required; cbn; tauto|eauto])
             end.
      reflexivity. }
  cbn [mbind result_bind].
  unfold insert_row, evaluations_unique.
  rewrite not_null_ok_intro, unique_ok_fresh; cycle 1.
  - rewrite cell_dict_of. exact Hfresh.
  - intros c Hc. destruct (Hrequired c Hc) as (v & Hv & Hn).
    rewrite cell_dict_of. unfold evaluations_not_null in Hc. cbn [In] in Hc.
    repeat (destruct Hc as [<-|Hc];
            [cbn -[get get_or]; unfold get, get_or; rewrite Hv; exact Hn|]).
    destruct Hc.
  - cbn [andb mbind result_bind mret result_ret].
    eexists _, _. split; [reflexivity|].
    change (@list_to_map string value (gmap string value) _ _) with dict_of.
    rewrite !lookup_dict_of.
    repeat apply conj; try reflexivity.
    destruct (Hrequired "stage_id") as (v & Hv & _); [cbn; tauto|].
    cbn -[get get_or]. unfold get, get_or. by rewrite Hv.
Qed.

Lemma score_is_weighted_sum : (computed_score t s a i r == weighted_sum t s a i r)%Q.
Proof. unfold computed_score, weighted_sum. ring. Qed.
End Evaluate.

Section SubmitReport.
Variables (e : env) (rd : gmap string value) (m : StageManager) (sid : string).
Variables (row : gmap string value) (rest : list (gmap string value)).
Variables (start_text end_text : string) (start_date end_date : datetime) (tp : Q).
Hypothesis Hstorable : storable_dict rd.
Hypothesis Hnofile : truthy (get rd "report_file") = false.
Hypothesis Hrequired :
  forall k, In k report_required -> exists v, rd !! k = Some v /\ is_null v = false.
Hypothesis Hsid : rd !! "stage_id" = Some (VStr sid).
Hypothesis Hfresh : fresh "report_id" (uuid4 e 0) (reports (db m)).
Hypothesis Hrow : select_eq "stage_id" (VStr sid) (stages (db m)) = row :: rest.
Hypothesis Hstart : cell row "start_date" = VStr start_text.
Hypothesis Hend : cell row "end_date" = VStr end_text.
Hypothesis Pstart : strptime_Ymd start_text = Ok start_date.
Hypothesis Pend : strptime_Ymd end_text = Ok end_date.
Hypothesis Htp : time_progress (now e) start_date end_date = Ok tp.

(** The effect of [submit_report] without attachment for an existing stage:
    one report row, and the progress of the stage recomputed. *)
Lemma submit_report_ok :
  exists response report,
    submit_report e (VDict rd) m
    = (VDict response,
       set_files (files m)
         (set_db (set_stages
                    (update_rows sid
                       (set_progress
                          (stored_progress tp (count_for sid (reports (db m)) + 1)
                                              (count_for sid (evaluations (db m)))))
                       (stages (db m)))
                    (set_reports (reports (db m) ++ [report]) (db m))) m))
    /\ response !! "success" = Some (VBool true)
    /\ response !! "report_id" = Some (VStr (uuid4 e 0))
    /\ report !! "report_id" = Some (VStr (uuid4 e 0))
    /\ report !! "stage_id" = Some (VStr sid)
    /\ report !! "report_type" = rd !! "report_type"
    /\ report !! "status" = Some (VStr "SOUMIS").
Proof.
  unfold submit_report, save_report_file, vget.
  cbn [as_dict mbind result_bind mret result_ret].
  change (get_or rd "report_file" VNone) with (get rd "report_file"). rewrite Hnofile.
  unfold transaction, submit_report_body. cbn [mbind result_bind].
  rewrite (bind_params_ok rd _ Hstorable).
  2:{ unfold report_params. cbn [forallb snd param_ok storable andb].
      repeat match goal with
             | |- context [bool_decide (is_Some (rd !! ?k))] =>
                 rewrite (bool_decide_eq_true_2 (is_Some (rd !! k)))
                   by (destruct (Hrequired k) as (? & -> & _);
                       [unfold report_required; cbn; tauto|eauto])
             end.
      reflexivity. }
  cbn [mbind result_bind].
  set (report := list_to_map _).
  assert (Hcells : forall k, report !! k
             = assoc k (map (fun cp : string * param => (cp.1, param_value rd cp.2))
                            (report_params (uuid4 e 0) VNone)
                        ++ reports_defaults (CURRENT_TIMESTAMP e))).
  { intros k. apply lookup_dict_of. }
  assert (Hrsid : cell report "stage_id" = VStr sid).
  { unfold cell, get, get_or. rewrite Hcells. cbn -[get get_or].
    unfold get, get_or. by rewrite Hsid. }
  unfold insert_row, reports_unique.
  rewrite not_null_ok_intro, unique_ok_fresh; cycle 1.
  - unfold cell at 1, get, get_or. rewrite Hcells. exact Hfresh.
  - intros c Hc. destruct (Hrequired c Hc) as (v & Hv & Hn).
    unfold cell, get, get_or. rewrite Hcells.
    unfold reports_not_null in Hc. cbn [In] in Hc.
    repeat (destruct Hc as [<-|Hc];
            [cbn -[get get_or]; unfold get, get_or; rewrite Hv; exact Hn|]).
    destruct Hc.
  - cbn [andb mbind result_bind subscript].
    unfold getitem. rewrite Hsid. cbn [mbind result_bind].
    unfold _update_stage_progress.
    cbn [adapt mbind result_bind stages set_reports reports evaluations].
    rewrite Hrow, Hstart, Hend. cbn [strptime_cell]. rewrite Pstart, Pend.
    cbn [mbind result_bind]. rewrite Htp. cbn [mbind result_bind].
    rewrite update_where_unconstrained by reflexivity.
    cbn [mbind result_bind mret result_ret].
    rewrite select_eq_app. cbn [select_eq List.filter]. rewrite Hrsid.
    cbn [sql_eq]. rewrite String.eqb_refl. rewrite length_app. cbn [length].
    rewrite Nat2Z.inj_add.
    eexists _, report. split; [reflexivity|].
    change (@list_to_map string value (gmap string value) _ _) with dict_of.
    rewrite !lookup_dict_of, !Hcells.
    repeat apply conj; try reflexivity.
    cbn -[get get_or]. unfold get, get_or. by rewrite Hsid.
    destruct (Hrequired "report_type") as (v & Hv & _); [cbn; tauto|].
    cbn -[get get_or]. unfold get, get_or. by rewrite Hv.
Qed.
End SubmitReport.

(** *** Listing *)

Lemma switched_on_texts (f : gmap string value)
      (l : list (string * (value -> gmap string value -> bool))) :
  text_dict f ->
  Forall (fun pc : value * (value -> gmap string value -> bool) => adapt pc.1 = Ok pc.1)
         (omap (fun kc : string * (value -> gmap string value -> bool) =>
                  if truthy (get f kc.1) then Some (get f kc.1, kc.2) else None) l).
Proof.
  intros Hf. induction l as [|[k c] l IH]; [constructor|].
  cbn [omap list_omap fst snd].
  destruct (get_text_dict f k Hf) as [-> | [s ->]]; cbn [truthy]; [exact IH|].
  destruct (negb (s =? "")%string); [|exact IH].
  constructor; [reflexivity|exact IH].
Qed.

Lemma active_conditions_texts (f : gmap string value) :
  text_dict f ->
  exists conds,
    active_conditions (VDict f) = Ok conds
    /\ Forall (fun pc : value * (value -> gmap string value -> bool) =>
                 adapt pc.1 = Ok pc.1) conds.
Proof.
  intros Hf. unfold active_conditions.
  destruct (truthy (VDict f)); [|eexists; split; [reflexivity|constructor]].
  cbn [as_dict mbind result_bind mret result_ret].
  eexists; split; [reflexivity|]. by apply switched_on_texts.
Qed.

Lemma bind_conditions_texts (conds : list (value * (value -> gmap string value -> bool))) :
  Forall (fun pc : value * (value -> gmap string value -> bool) =>
            adapt pc.1 = Ok pc.1) conds ->
  mapM (fun pc : value * (value -> gmap string value -> bool) =>
          p ← adapt pc.1; mret (p, pc.2)) conds = Ok conds.
Proof.
  induction 1 as [|[p c] l Hp _ IH]; [reflexivity|].
  cbn in *. rewrite Hp. cbn. rewrite IH. reflexivity.
Qed.


(** *** Creation and retrieval *)



(** *** Pagination *)



(** *** Evaluation *)



(** *** Progress *)




(** *** Submission of reports *)




(** ** The registry of institutions *)

Section Registry.
Context {V : Type}.
Implicit Types (m : gmap hkey V) (k : hkey) (l : list (hkey * V)).

Lemma no_entry_of_absent_key l k :
  k ∉ l.*1 -> filter (fun kv : hkey * V => kv.1 = k) l = [].
Proof.
  induction l as [|[k' v'] l IH]; [reflexivity|].
  rewrite fmap_cons, not_elem_of_cons. cbn [fst]. intros [Hne Hl].
  rewrite filter_cons_False by (cbn; congruence). by apply IH.
Qed.

Lemma one_entry_in_nodup l k v :
  NoDup l.*1 -> (k, v) ∈ l -> filter (fun kv : hkey * V => kv.1 = k) l = [(k, v)].
Proof.
  induction l as [|[k' v'] l IH]; intros Hnd Hin; [by apply elem_of_nil in Hin|].
  rewrite fmap_cons in Hnd. apply NoDup_cons in Hnd as [Hk' Hnd]. cbn [fst] in Hk'.
  apply elem_of_cons in Hin as [Heq|Hin].
  - injection Heq as <- <-.
    rewrite filter_cons_True by reflexivity.
    by rewrite no_entry_of_absent_key.
  - assert (k' <> k).
    { intros ->. apply Hk'. apply list_elem_of_fmap. by exists (k, v). }
    rewrite filter_cons_False by (cbn; congruence). by apply IH.
Qed.

(** A key that is bound has exactly one entry in a map. *)
Lemma entries_for_bound m k v : m !! k = Some v -> entries_for k m = [(k, v)].
Proof.
  intros Hk. apply one_entry_in_nodup.
  - apply NoDup_fst_map_to_list.
  - by apply elem_of_map_to_list.
Qed.

Lemma size_insert_same m k (a b : V) : size (<[k := a]> m) = size (<[k := b]> m).
Proof.
  rewrite <- !(size_dom (D := gset hkey)). by rewrite !dom_insert_L.
Qed.
End Registry.

(** A registration with a hashable identifier and a known institution type
    is entered in both maps and acknowledged. *)
Lemma register_institution_ok (e : env) (msg : gmap string value) (sock : nat)
      (s : StageServerManager) (k : hkey) (t : InstitutionType) :
  key_of (get msg "institution_id") = Ok k ->
  InstitutionType_of (get_or msg "institution_type" (VStr "UNIVERSITE")) = Ok t ->
  exists inst,
    _register_institution e msg sock s
    = (Ok (registration_ack (get msg "institution_id")),
       set_registry (<[k := inst]> (connected_institutions s))
                    (<[k := sock]> (institution_sockets s)) s)
    /\ institution_id inst = get msg "institution_id"
    /\ name inst = get_or msg "name" (VStr "")
    /\ institution_type inst = t
    /\ status inst = CONNECTED.
Proof.
  intros Hk Ht. unfold _register_institution. rewrite Ht, Hk.
  eexists. split; [reflexivity|]. cbn. auto.
Qed.




(** ** The router *)

(** A type outside the catalog falls through every branch. *)
Lemma process_unknown_type (e : env) (msg : gmap string value) (sock : nat)
      (s : StageServerManager) :
  (forall t, In t message_catalog -> eq_str (get msg "type") t = false) ->
  _process_message e (VDict msg) sock s = (Ok (unknown_type_response e (get msg "type")), s).
Proof.
  intros H. unfold _process_message.
  repeat match goal with
         | |- context [eq_str (get msg "type") ?t] =>
             rewrite (H t) by (unfold message_catalog; cbn; tauto)
         end.
  reflexivity.
Qed.

(** The handlers of the guarded types return whatever the store answers. *)
Lemma process_guarded_type (e : env) (msg : gmap string value) (sock : nat)
      (s : StageServerManager) (t : string) :
  In t guarded_types -> get msg "type" = VStr t ->
  exists response, (_process_message e (VDict msg) sock s).1 = Ok response.
Proof.
  unfold guarded_types. cbn [In]. intros Ht Hty.
  unfold _process_message. rewrite Hty.
  repeat (destruct Ht as [<-|Ht]); [..|destruct Ht]; cbn [eq_str String.eqb Ascii.eqb Bool.eqb].
  - eexists. reflexivity.
  - unfold _handle_update_stage. destruct (update_stage _ _ _ _ _ _). eexists. reflexivity.
  - unfold _handle_delete_stage. destruct (update_stage _ _ _ _ _ _). eexists. reflexivity.
  - unfold _handle_assign_supervisor. destruct (assign_supervisor _ _ _ _). eexists. reflexivity.
  - unfold _handle_evaluate_stage. destruct (evaluate_stage _ _ _).
    destruct (success_of _); eexists; reflexivity.
  - eexists. reflexivity.
Qed.





(** ** Soft deletion *)




(** ** Completion requirements and final grades *)

Section Completion.
Import Protocols Dataclasses.

Lemma py_int_nonneg_div (w : Z) : 0 <= w -> py_int (inject_Z w / 4 * inject_Z 1) = w / 4.
Proof.
  intros Hw. unfold py_int.
  assert (Heq : (inject_Z w / 4 * inject_Z 1 == inject_Z w / inject_Z 4)%Q).
  { unfold Qeq, Qdiv, Qmult, Qinv, inject_Z. cbn. lia. }
  assert (Hpos : Qle_bool 0 (inject_Z w / 4 * inject_Z 1) = true).
  { apply Qle_bool_iff. unfold Qle, Qdiv, Qmult, Qinv, inject_Z. cbn. lia. }
  rewrite Hpos, (Qfloor_comp _ _ Heq). apply (Qfloor_inject_div w 4).
Qed.

(** X1.  For a stage that does not end before it starts, the number of
    periodic reports required is the number of whole periods of 28 days, a
    mid-term report is required from 56 days on, and the submitted counters
    are the lengths of the two lists of the stage. *)
Theorem completion_requirements_by_duration (s : Stage) (days : Z) :
  delta_days (end_date s) (start_date s) = days -> 0 <= days ->
  let r := calculate_completion_requirements s in
  r !! "required_weekly_reports" = Some (VNum (inject_Z (days / 28)))
  /\ r !! "required_midterm_report" = Some (VBool (56 <=? days))
  /\ r !! "required_final_report" = Some (VBool true)
  /\ r !! "submitted_reports" = Some (VNum (inject_Z (Z.of_nat (length (Protocols.reports s)))))
  /\ r !! "submitted_evaluations"
     = Some (VNum (inject_Z (Z.of_nat (length (Protocols.evaluations s))))).
Proof.
  intros Hdays Hpos r. subst r. unfold calculate_completion_requirements.
  rewrite !lookup_dict_of. cbn [assoc String.eqb Ascii.eqb Bool.eqb].
  unfold duration_weeks, REQUIRED_REPORTS_PER_MONTH. rewrite Hdays.
  assert (Hw : 0 <= days / 7) by (apply Z.div_pos; lia).
  rewrite (py_int_nonneg_div _ Hw), Z.div_div by lia.
  change (7 * 4) with 28.
  assert (Hmid : (8 <=? days / 7) = (56 <=? days)).
  { destruct (Z.leb_spec 56 days) as [H|H].
    - apply Z.leb_le. apply Z.div_le_lower_bound; lia.
    - apply Z.leb_gt. apply Z.div_lt_upper_bound; lia. }
  rewrite Hmid. repeat apply conj; reflexivity.
Qed.

Lemma completion_requirements_by_duration_witness :
  let r := calculate_completion_requirements Examples.pending_stage in
  r !! "required_weekly_reports" = Some (VNum (inject_Z (89 / 28)))
  /\ r !! "required_midterm_report" = Some (VBool (56 <=? 89))
  /\ r !! "required_final_report" = Some (VBool true)
  /\ r !! "submitted_reports"
     = Some (VNum (inject_Z (Z.of_nat (length (Protocols.reports Examples.pending_stage)))))
  /\ r !! "submitted_evaluations"
     = Some (VNum (inject_Z (Z.of_nat (length (Protocols.evaluations Examples.pending_stage))))).
Proof.
  apply (completion_requirements_by_duration Examples.pending_stage 89); [reflexivity|lia].
Defined.

End Completion.

Section FinalGrade.
Import Protocols Dataclasses Props.

Lemma sum_final_scores_scored (evs : list StageEvaluation) (rows : list value) (acc : Q) :
  scored_as evs rows ->
  sum_final_scores acc rows = Ok (fold_left (fun a e => (a + final_score e)%Q) evs acc).
Proof.
  intros H. revert acc. induction H as [|ev row evs rows Hrow _ IH]; intros acc.
  - reflexivity.
  - cbn [sum_final_scores fold_left]. rewrite Hrow. cbn [mbind result_bind as_number].
    apply IH.
Qed.

(** X2.  The mention a certificate carries and [Stage.final_grade] are the
    same band of the same mean: the final grade is the mention behind its
    letter, and a stage without evaluation has no final grade where the
    certificate says that it is not evaluated. *)
Theorem final_grade_is_lettered_mention (s : Stage) (stage : gmap string value)
        (rows : list value) :
  get stage "evaluations" = VList rows ->
  scored_as (Protocols.evaluations s) rows ->
  (Protocols.evaluations s = [] ->
   final_grade s = None /\ _get_final_grade stage = Ok "Non évalué")
  /\ (Protocols.evaluations s <> [] ->
      exists letter mention,
        In letter ["A"; "B"; "C"; "D"; "E"]
        /\ final_grade s = Some (letter +:+ " - " +:+ mention)
        /\ _get_final_grade stage = Ok mention).
Proof.
  intros Hrows Hscored. unfold final_grade, _get_final_grade. rewrite Hrows.
  split.
  - intros Hnil. rewrite Hnil in *. inversion Hscored; subst. split; reflexivity.
  - intros Hne.
    pose proof (Forall2_length _ _ _ Hscored) as Hlen.
    pose proof (sum_final_scores_scored _ _ 0%Q Hscored) as Hsum.
    destruct (Protocols.evaluations s) as [|ev evs] eqn:Eevs; [done|].
    destruct rows as [|row rows']; [discriminate|].
    rewrite Hsum. cbn [mbind result_bind mret result_ret].
    unfold sum_scores. rewrite <- Hlen.
    set (avg := (_ / _)%Q). unfold grade_of.
    destruct (Qle_bool 16 avg); [exists "A", "Excellent"; cbn; auto 10|].
    destruct (Qle_bool 14 avg); [exists "B", "Très Bien"; cbn; auto 10|].
    destruct (Qle_bool 12 avg); [exists "C", "Bien"; cbn; auto 10|].
    destruct (Qle_bool 10 avg); [exists "D", "Passable"; cbn; auto 10|].
    exists "E", "Insuffisant"; cbn; auto 10.
Qed.

End FinalGrade.

(** ** Notifications *)

Section Notifications.
Import Protocols Dataclasses NotificationProtocol.

(** X3.  The student is always the first recipient of a notification.  The
    other recipients, at most two, are supervisors assigned to the stage, and
    there are none for a type outside the five that concern supervisors, such
    as the assignment of a supervisor or a completed evaluation. *)
Theorem recipients_of_notification (notification_type : string) (people : StagePeople) :
  exists others,
    get_recipients_for_notification notification_type people
    = student_email (student people) :: others
    /\ (length others <= 2)%nat
    /\ (forall x, In x others ->
          exists s, (academic_supervisor people = Some s \/ company_supervisor people = Some s)
                    /\ x = email s)
    /\ (notification_type ∉ supervisor_notifications -> others = []).
Proof.
  unfold get_recipients_for_notification.
  destruct (bool_decide_reflect (notification_type ∈ supervisor_notifications)) as [Hin|Hout].
  - destruct (academic_supervisor people) as [a|], (company_supervisor people) as [c|];
      cbn [app]; eexists; (split; [reflexivity|]); cbn [length In];
      (repeat apply conj; [lia| |done]); intros x Hx.
    + destruct Hx as [<-|[<-|[]]]; eauto.
    + destruct Hx as [<-|[]]; eauto.
    + destruct Hx as [<-|[]]; eauto.
    + destruct Hx.
  - exists []. repeat apply conj; [reflexivity|cbn; lia|intros x []|done].
Qed.

(** X4.  A notification of a type the catalog does not hold is still built:
    it is titled "Notification", its priority is normal, it is unread, and
    its message renders the missing catalog entry as the text "None". *)
Theorem notification_of_unknown_type (digest : string) (now : datetime) (notification_type : string)
        (stage : Stage) (recipient_role : UserRole) :
  lookup_type notification_type NOTIFICATION_TYPES = None ->
  let n := generate_notification digest now notification_type stage recipient_role None in
  n !! "type" = Some (VStr notification_type)
  /\ n !! "title" = Some (VStr "Notification")
  /\ n !! "message" = Some (VStr ("None - " +:+ title stage))
  /\ n !! "priority" = Some (VStr "NORMAL")
  /\ n !! "is_read" = Some (VBool false).
Proof.
  intros Hnone n. subst n. unfold generate_notification.
  assert (Hne : forall k v, In (k, v) NOTIFICATION_TYPES -> String.eqb notification_type k = false).
  { intros k v Hk. apply String.eqb_neq. intros ->.
    revert Hnone Hk. generalize NOTIFICATION_TYPES.
    induction l as [|[k' v'] l IH]; cbn; [tauto|].
    destruct (String.eqb_spec k' k) as [->|Hne]; [discriminate|].
    intros Hl [[= -> ->]|Hin]; [done|]. by apply IH. }
  rewrite (Hne "DEADLINE_REMINDER" "Rappel d'échéance") by (cbn; tauto).
  rewrite (Hne "STAGE_CANCELLED" "Stage annulé") by (cbn; tauto).
  rewrite (Hne "EVALUATION_COMPLETED" "Évaluation complétée") by (cbn; tauto).
  rewrite Hnone. cbn [default str_option from_option id].
  rewrite lookup_insert_eq.
  rewrite !lookup_insert_ne by done.
  rewrite !lookup_dict_of. repeat apply conj; reflexivity.
Qed.

End Notifications.

(** ** The stage store: refusals *)

Section Refusals.

Lemma set_db_same (m : StageManager) : set_db (db m) m = m.
Proof. by destruct m. Qed.

(** Reading the parameters stops at the first required key the dict lacks. *)
Lemma bind_params_missing (d : gmap string value) (ps : list (string * param)) :
  (exists c k, In (c, Required k) ps /\ d !! k = None) ->
  exists k, (exists c, In (c, Required k) ps) /\ d !! k = None
            /\ bind_params (VDict d) ps = Raise (KeyError k).
Proof.
  intros H.
  assert (Hread : exists k, (exists c, In (c, Required k) ps) /\ d !! k = None
            /\ mapM (fun cp : string * param => v ← read (VDict d) cp.2; mret (cp.1, v)) ps
               = Raise (KeyError k)).
  { induction ps as [|[c p] ps IH]; destruct H as (c0 & k0 & Hin & Hnone).
    - destruct Hin.
    - destruct (read (VDict d) p) as [v|x] eqn:Hread.
      + assert (Htail : exists c k, In (c, Required k) ps /\ d !! k = None).
        { destruct Hin as [[= -> ->]|Hin]; [|eauto].
          cbn in Hread. unfold getitem in Hread. rewrite Hnone in Hread. discriminate. }
        destruct (IH Htail) as (k & (c' & Hk) & Hd & Hbind).
        exists k. split; [exists c'; by right|]. split; [exact Hd|].
        cbn [mapM snd fst]. rewrite Hread. cbn [mbind result_bind]. rewrite Hbind.
        reflexivity.
      + destruct p as [k|k dflt|v]; cbn in Hread; try discriminate.
        unfold getitem in Hread. destruct (d !! k) eqn:E; [discriminate|].
        injection Hread as <-.
        exists k. split; [exists c; by left|]. split; [exact E|].
        cbn [mapM snd fst read subscript]. unfold getitem. rewrite E. reflexivity. }
  destruct Hread as (k & Hk & Hd & Hr). exists k. unfold bind_params. rewrite Hr. auto.
Qed.

Lemma create_stage_required_params (stage_id k : string) :
  In k create_stage_required <-> exists c, In (c, Required k) (create_stage_params stage_id).
Proof.
  unfold create_stage_required, create_stage_params. cbn [omap list_omap snd fst].
  split.
  - cbn [In]. intros H.
    repeat (destruct H as [<-|H]; [eexists; cbn [In]; eauto 30|]). destruct H.
  - intros [c H]. cbn [In] in H.
    repeat (destruct H as [[= <- <-]|H] || destruct H as [[=]|H]);
      first [cbn; tauto | destruct H].
Qed.

(** X5.  [create_stage] refuses a payload that lacks one of the fields it
    requires: the response names such a field in a [KeyError], and nothing
    is stored, neither a stage nor a line of history. *)
Theorem create_stage_missing_field (e : env) (sd : gmap string value) (m : StageManager) :
  (exists k, In k create_stage_required /\ sd !! k = None) ->
  exists k,
    In k create_stage_required /\ sd !! k = None
    /\ create_stage e (VDict sd) m
       = (VDict (dict_of [("success", VBool false);
                          ("message", VStr ("Erreur: " +:+ str_exn e (KeyError k)))]), m).
Proof.
  intros (k0 & Hin & Hnone).
  destruct (bind_params_missing sd (create_stage_params (uuid4 e 0))) as (k & Hk & Hd & Hbind).
  { apply (create_stage_required_params (uuid4 e 0)) in Hin as [c Hc]. eauto. }
  exists k. split; [by apply (create_stage_required_params (uuid4 e 0))|].
  split; [exact Hd|].
  unfold create_stage, transaction, create_stage_body. rewrite Hbind.
  cbn [mbind result_bind]. by rewrite set_db_same.
Qed.

End Refusals.

(** ** The stage store: updates of any column *)

Section Updates.
Import Props.

Lemma updated_ok_not_null (nn : list string) (before : list (gmap string value))
      (marked : list (bool * gmap string value)) :
  Forall (fun br : bool * gmap string value => br.1 = true -> not_null_ok nn br.2 = true) marked ->
  updated_ok nn [] before marked = true.
Proof.
  intros H. revert before. induction H as [|[b r] l Hr _ IH]; intros before; [reflexivity|].
  cbn [updated_ok]. rewrite IH, andb_true_r. destruct b; [|reflexivity].
  cbn in Hr. rewrite Hr by reflexivity. reflexivity.
Qed.

Lemma updated_at_nullable : ~ In "updated_at" stages_not_null.
Proof.
  unfold stages_not_null. cbn [In]. intros H.
  repeat (destruct H as [H|H]; [discriminate H|]). exact H.
Qed.

Lemma touched_unique (c : string) :
  c <> "stage_id" ->
  List.filter (fun x => bool_decide (x ∈ [c; "updated_at"])) stages_unique = [].
Proof.
  intros Hc. unfold stages_unique. cbn [List.filter].
  rewrite bool_decide_eq_false_2; [reflexivity|].
  rewrite !elem_of_cons, elem_of_nil. intros [H|[H|[]]]; [by subst|discriminate].
Qed.

(** The [UPDATE] of [update_stage] passes when it puts no NULL in a NOT NULL
    column and does not assign the key. *)
Lemma update_where_assign (c : string) (v p : value) (ts : string)
      (tbl : list (gmap string value)) :
  c <> "stage_id" -> (In c stages_not_null -> is_null v = false) ->
  update_where stages_not_null stages_unique [c; "updated_at"] "stage_id" p (assign c v ts) tbl
  = Ok (map (fun r => if sql_eq (cell r "stage_id") p then assign c v ts r else r) tbl).
Proof.
  intros Hc Hv. unfold update_where. rewrite (touched_unique c Hc).
  rewrite updated_ok_not_null.
  - f_equal. rewrite map_map. apply map_ext. intros r. by destruct (sql_eq _ _).
  - apply List.Forall_forall. intros [b r] Hbr Hb. cbn in Hb. subst b. cbn [snd].
    apply in_map_iff in Hbr as (r0 & Hr0 & _).
    destruct (sql_eq (cell r0 "stage_id") p); [|discriminate]. injection Hr0 as <-.
    apply not_null_ok_intro. intros x Hx. apply filter_In in Hx as [Hnn Hx].
    apply bool_decide_eq_true in Hx.
    rewrite !elem_of_cons, elem_of_nil in Hx. destruct Hx as [->|[->|[]]].
    + unfold cell, get, get_or, assign.
      destruct (String.eqb_spec c "updated_at") as [->|Hne].
      * exfalso. exact (updated_at_nullable Hnn).
      * rewrite lookup_insert_ne by done. rewrite lookup_insert_eq. cbn. by apply Hv.
    + exfalso. exact (updated_at_nullable Hnn).
Qed.

End Updates.

(** No column of [stages] bears the name of a nested list. *)
Lemma column_not_nested (c : string) :
  c ∈ stages_columns -> c <> "reports" /\ c <> "evaluations".
Proof.
  intros H. split; intros ->; revert H;
    [apply (bool_decide_eq_false_1 ("reports" ∈ stages_columns))
    |apply (bool_decide_eq_false_1 ("evaluations" ∈ stages_columns))]; reflexivity.
Qed.

Section UpdateThenGet.
Import Props.
Variables (e : env) (sid c : string) (v updated_by : value) (m : StageManager).
Variables (row : gmap string value) (rest : list (gmap string value)).
Hypothesis Hcolumn : c ∈ stages_columns.
Hypothesis Hkey : c <> "stage_id".
Hypothesis Hrow : select_eq "stage_id" (VStr sid) (stages (db m)) = row :: rest.

Lemma assign_keeps_key (ts : string) (r : gmap string value) :
  cell (assign c v ts r) "stage_id" = cell r "stage_id".
Proof.
  unfold cell, get, get_or, assign.
  rewrite lookup_insert_ne by done. by rewrite lookup_insert_ne.
Qed.

(** The effect of [update_stage] on a column other than the key. *)
Lemma update_stage_ok :
  storable v = true -> (In c stages_not_null -> is_null v = false) ->
  storable updated_by = true -> is_null updated_by = false ->
  fresh "history_id" (uuid4 e 0) (stage_history (db m)) ->
  exists entry,
    update_stage e (VStr sid) (VStr c) v updated_by m
    = (stage_updated,
       set_db (set_stage_history (stage_history (db m) ++ [entry])
                 (set_stages (update_rows sid (assign c v (CURRENT_TIMESTAMP e))
                                          (stages (db m)))
                             (db m))) m)
    /\ entry !! "stage_id" = Some (VStr sid)
    /\ entry !! "action" = Some (VStr "UPDATE")
    /\ entry !! "field_changed" = Some (VStr c)
    /\ entry !! "old_value" = Some (VStr (py_str e (cell row c)))
    /\ entry !! "new_value" = Some v
    /\ entry !! "changed_by" = Some updated_by.
Proof.
  intros Sv Nv Sb Nb Hfresh.
  unfold update_stage, transaction, update_stage_body.
  cbn [column_name]. rewrite bool_decide_eq_true_2 by exact Hcolumn.
  cbn [mbind result_bind adapt]. rewrite Hrow.
  rewrite (storable_adapt _ Sv). cbn [mbind result_bind].
  fold (assign c v (CURRENT_TIMESTAMP e)).
  rewrite (update_where_assign c v (VStr sid) _ _ Hkey Nv).
  cbn [mbind result_bind].
  fold (update_rows sid (assign c v (CURRENT_TIMESTAMP e)) (stages (db m))).
  edestruct (log_history_ok (uuid4 e 0) (CURRENT_TIMESTAMP e) (VStr sid) "UPDATE"
               (VStr c) (VStr (py_str e (cell row c))) v updated_by
               (set_stages (update_rows sid (assign c v (CURRENT_TIMESTAMP e)) (stages (db m)))
                           (db m)))
    as (entry & Hlog & Hfacts); try eassumption; try reflexivity.
  rewrite Hlog. cbn [mbind result_bind mret result_ret].
  exists entry. split; [reflexivity|exact Hfacts].
Qed.

End UpdateThenGet.


Lemma final_grade_is_lettered_mention_witness :
  (Protocols.evaluations Scenarios.evaluated_stage = [] ->
   Dataclasses.final_grade Scenarios.evaluated_stage = None
   /\ _get_final_grade Scenarios.stored_stage = Ok "Non évalué")
  /\ (Protocols.evaluations Scenarios.evaluated_stage <> [] ->
      exists letter mention,
        In letter ["A"; "B"; "C"; "D"; "E"]
        /\ Dataclasses.final_grade Scenarios.evaluated_stage
           = Some (letter +:+ " - " +:+ mention)
        /\ _get_final_grade Scenarios.stored_stage = Ok mention).
Proof.
  apply (final_grade_is_lettered_mention Scenarios.evaluated_stage Scenarios.stored_stage
           Scenarios.stored_evaluations); [reflexivity|].
  repeat constructor.
Defined.

Lemma notification_of_unknown_type_witness :
  let n := NotificationProtocol.generate_notification "0123456789ab" Examples.mid_course
             "STAGE_SUSPENDED" Examples.running_stage Dataclasses.COORDINATOR None in
  n !! "type" = Some (VStr "STAGE_SUSPENDED")
  /\ n !! "title" = Some (VStr "Notification")
  /\ n !! "message" = Some (VStr ("None - " +:+ Protocols.title Examples.running_stage))
  /\ n !! "priority" = Some (VStr "NORMAL")
  /\ n !! "is_read" = Some (VBool false).
Proof.
  apply (notification_of_unknown_type "0123456789ab" Examples.mid_course "STAGE_SUSPENDED"
           Examples.running_stage Dataclasses.COORDINATOR).
  reflexivity.
Defined.

Lemma create_stage_missing_field_witness :
  exists k,
    In k create_stage_required /\ Scenarios.incomplete_payload !! k = None
    /\ create_stage Examples.at_creation (VDict Scenarios.incomplete_payload)
                    Examples.empty_manager
       = (VDict (dict_of [("success", VBool false);
                          ("message",
                           VStr ("Erreur: " +:+ str_exn Examples.at_creation (KeyError k)))]),
          Examples.empty_manager).
Proof.
  apply (create_stage_missing_field Examples.at_creation Scenarios.incomplete_payload
           Examples.empty_manager).
  exists "department". split; [cbn; tauto|reflexivity].
Defined.


Section UpdateRefusals.
Import Props.

Lemma updated_ok_violation (nn uq : list string) (before : list (gmap string value))
      (marked : list (bool * gmap string value)) :
  Exists (fun br : bool * gmap string value => br.1 = true /\ not_null_ok nn br.2 = false) marked ->
  updated_ok nn uq before marked = false.
Proof.
  intros H. revert before. induction H as [[b r] l [Hb Hr]|[b r] l _ IH]; intros before.
  - cbn in Hb, Hr. subst b. cbn [updated_ok]. by rewrite Hr.
  - cbn [updated_ok]. rewrite IH. apply andb_false_r.
Qed.

Lemma null_violates (c : string) (ts : string) (r : gmap string value) :
  In c stages_not_null ->
  not_null_ok (List.filter (fun x => bool_decide (x ∈ [c; "updated_at"])) stages_not_null)
              (assign c VNone ts r) = false.
Proof.
  intros Hc.
  assert (Hne : c <> "updated_at").
  { intros ->. exact (updated_at_nullable Hc). }
  assert (Hmem : In c (List.filter (fun x => bool_decide (x ∈ [c; "updated_at"]))
                                   stages_not_null)).
  { apply filter_In. split; [exact Hc|]. apply bool_decide_eq_true. constructor. }
  unfold not_null_ok.
  destruct (forallb _ _) eqn:E; [|reflexivity].
  rewrite forallb_forall in E. specialize (E c Hmem).
  assert (Hcell : cell (assign c VNone ts r) c = VNone).
  { unfold cell, get, get_or, assign. by rewrite lookup_insert_ne, lookup_insert_eq. }
  rewrite Hcell in E. discriminate E.
Qed.

Lemma update_stage_unknown (e : env) (sid c : string) (v updated_by : value)
      (m : StageManager) :
  c ∈ stages_columns ->
  select_eq "stage_id" (VStr sid) (stages (db m)) = [] ->
  update_stage e (VStr sid) (VStr c) v updated_by m = (stage_not_found, m).
Proof.
  intros Hcolumn Hnone. unfold update_stage, transaction, update_stage_body.
  cbn [column_name]. rewrite bool_decide_eq_true_2 by exact Hcolumn.
  cbn [mbind result_bind adapt]. rewrite Hnone. cbn [mret result_ret].
  by rewrite set_db_same.
Qed.

(** X7.  [update_stage] refuses without writing anything: for an identifier
    no stage bears the answer is that the stage is not found, and an update
    that would put a NULL in a NOT NULL column of an existing stage is
    answered with the integrity error of the database. *)
Theorem update_stage_refusals (e : env) (sid c : string) (v updated_by : value)
        (m : StageManager) :
  c ∈ stages_columns ->
  (select_eq "stage_id" (VStr sid) (stages (db m)) = [] ->
   update_stage e (VStr sid) (VStr c) v updated_by m = (stage_not_found, m))
  /\ (select_eq "stage_id" (VStr sid) (stages (db m)) <> [] -> In c stages_not_null ->
      update_stage e (VStr sid) (VStr c) VNone updated_by m = (refused e IntegrityError, m)).
Proof.
  intros Hcolumn. split; [by apply update_stage_unknown|].
  unfold update_stage, transaction, update_stage_body.
  cbn [column_name]. rewrite bool_decide_eq_true_2 by exact Hcolumn.
  cbn [mbind result_bind adapt].
  - intros Hrows Hnn.
    destruct (select_eq "stage_id" (VStr sid) (stages (db m))) as [|row rest] eqn:Hsel; [done|].
    cbn [mbind result_bind].
    fold (assign c VNone (CURRENT_TIMESTAMP e)).
    unfold update_where. rewrite updated_ok_violation.
    + cbn [mbind result_bind]. by rewrite set_db_same.
    + assert (Hin : In row (select_eq "stage_id" (VStr sid) (stages (db m))))
        by (rewrite Hsel; by left).
      apply filter_In in Hin as [Hin Heq].
      apply List.Exists_exists. exists (true, assign c VNone (CURRENT_TIMESTAMP e) row).
      split.
      * apply in_map_iff. exists row. by rewrite Heq.
      * split; [reflexivity|]. by apply null_violates.
Qed.

Lemma update_stage_refusals_witness :
  update_stage Examples.at_deletion (VStr "stage-9") (VStr "stage_title") (VStr "Audit")
               (VStr "univ_uy1") Examples.manager_with_stage
  = (stage_not_found, Examples.manager_with_stage)
  /\ update_stage Examples.at_deletion (VStr "stage-1") (VStr "stage_title") VNone
                  (VStr "univ_uy1") Examples.manager_with_stage
     = (refused Examples.at_deletion IntegrityError, Examples.manager_with_stage).
Proof.
  assert (Hcolumn : "stage_title" ∈ stages_columns)
    by (apply (bool_decide_eq_true_1 ("stage_title" ∈ stages_columns)); reflexivity).
  split.
  - apply (update_stage_refusals Examples.at_deletion "stage-9" "stage_title" (VStr "Audit")
             (VStr "univ_uy1") Examples.manager_with_stage Hcolumn).
    reflexivity.
  - apply (update_stage_refusals Examples.at_deletion "stage-1" "stage_title" (VStr "Audit")
             (VStr "univ_uy1") Examples.manager_with_stage Hcolumn).
    + assert (Hrows : select_eq "stage_id" (VStr "stage-1")
                                (stages (db Examples.manager_with_stage))
                      = [new_stage_row Examples.at_creation Examples.stage_payload])
        by reflexivity.
      rewrite Hrows. discriminate.
    + unfold stages_not_null. cbn [In]. tauto.
Defined.

End UpdateRefusals.

(** ** The stage store: supervisors *)

Section Supervisors.
Import Props.

Lemma update_where_free (nn uq assigned : list string) (col : string) (p : value)
      (f : gmap string value -> gmap string value) (tbl : list (gmap string value)) :
  List.filter (fun c => bool_decide (c ∈ assigned)) nn = [] ->
  List.filter (fun c => bool_decide (c ∈ assigned)) uq = [] ->
  update_where nn uq assigned col p f tbl = Ok (update_matching col p f tbl).
Proof.
  intros H1 H2. unfold update_where, update_matching. rewrite H1, H2, updated_ok_untouched.
  f_equal. rewrite map_map. apply map_ext. intros r. by destruct (sql_eq _ _).
Qed.

Lemma update_matching_none (col : string) (p : value)
      (f : gmap string value -> gmap string value) (tbl : list (gmap string value)) :
  select_eq col p tbl = [] -> update_matching col p f tbl = tbl.
Proof.
  unfold select_eq, update_matching. induction tbl as [|r tbl IH]; [reflexivity|].
  cbn [List.filter map]. destruct (sql_eq (cell r col) p); [discriminate|].
  intros H. by rewrite IH.
Qed.

Lemma update_matching_app (col : string) (p : value)
      (f : gmap string value -> gmap string value) (tbl tbl' : list (gmap string value)) :
  update_matching col p f (tbl ++ tbl')
  = update_matching col p f tbl ++ update_matching col p f tbl'.
Proof. apply map_app. Qed.

Lemma select_eq_update_matching (col : string) (p : value)
      (f : gmap string value -> gmap string value) (tbl : list (gmap string value)) :
  (forall r, cell (f r) col = cell r col) ->
  select_eq col p (update_matching col p f tbl) = map f (select_eq col p tbl).
Proof.
  intros Hf. unfold select_eq, update_matching.
  induction tbl as [|r tbl IH]; [reflexivity|].
  cbn [map List.filter].
  destruct (sql_eq (cell r col) p) eqn:E.
  - rewrite Hf, E. cbn [map]. by rewrite IH.
  - rewrite E. exact IH.
Qed.

Variables (e : env) (sid sup : string) (ty : value) (sd : gmap string value).
Variable (m : StageManager).
Hypothesis Hstorable : storable_dict sd.
Hypothesis Hsup : sd !! "supervisor_id" = Some (VStr sup).
Hypothesis Hty : sd !! "supervisor_type" = Some ty.
Hypothesis Hby : is_null (get_or sd "assigned_by" (VStr "system")) = false.
Hypothesis Hhist : fresh "history_id" (uuid4 e 0) (stage_history (db m)).

Lemma supervisor_column_free :
  supervisor_column ty <> "stage_id" /\ ~ In (supervisor_column ty) stages_not_null.
Proof.
  unfold supervisor_column. destruct (eq_str ty "ACADEMIQUE"); split; try discriminate;
    unfold stages_not_null; cbn [In]; intros H;
    repeat (destruct H as [H|H]; [discriminate H|]); exact H.
Qed.

(** The end of [assign_supervisor], once the supervisor is in the table
    [sups]. *)
Lemma assign_supervisor_tail (d : database) :
  stage_history d = stage_history (db m) ->
  exists entry,
    (let field := supervisor_column ty in
     t ← update_where stages_not_null stages_unique [field; "updated_at"] "stage_id" (VStr sid)
           (fun r => <["updated_at" := VStr (CURRENT_TIMESTAMP e)]> (<[field := VStr sup]> r))
           (stages d);
     let d := set_stages t d in
     t ← update_where supervisors_not_null supervisors_unique ["current_students"]
           "supervisor_id" (VStr sup)
           (fun r => <["current_students" := plus_one (cell r "current_students")]> r)
           (supervisors d);
     let d := set_supervisors t d in
     assigned_by ← vget (VDict sd) "assigned_by" (VStr "system");
     d ← _log_history (uuid4 e 0) (CURRENT_TIMESTAMP e)
           (VStr sid) "ASSIGN_SUPERVISOR" (VStr field) VNone (VStr sup) assigned_by d;
     mret (supervisor_assigned, d))
    = Ok (supervisor_assigned,
          set_stage_history (stage_history (db m) ++ [entry])
            (set_supervisors
               (update_matching "supervisor_id" (VStr sup) one_more_student (supervisors d))
               (set_stages
                  (update_rows sid (assign (supervisor_column ty) (VStr sup)
                                           (CURRENT_TIMESTAMP e)) (stages d)) d)))
    /\ entry !! "stage_id" = Some (VStr sid)
    /\ entry !! "action" = Some (VStr "ASSIGN_SUPERVISOR")
    /\ entry !! "field_changed" = Some (VStr (supervisor_column ty))
    /\ entry !! "new_value" = Some (VStr sup).
Proof.
  intros Hh. cbn zeta.
  destruct supervisor_column_free as [Hkey Hnn].
  fold (assign (supervisor_column ty) (VStr sup) (CURRENT_TIMESTAMP e)).
  rewrite (update_where_assign _ (VStr sup) (VStr sid) _ _ Hkey) by (intros H; by destruct Hnn).
  cbn [mbind result_bind].
  rewrite update_where_free by reflexivity.
  cbn [mbind result_bind vget as_dict mret result_ret supervisors set_stages].
  fold one_more_student.
  fold (update_rows sid (assign (supervisor_column ty) (VStr sup) (CURRENT_TIMESTAMP e))
                    (stages d)).
  edestruct (log_history_ok (uuid4 e 0) (CURRENT_TIMESTAMP e) (VStr sid) "ASSIGN_SUPERVISOR"
               (VStr (supervisor_column ty)) VNone (VStr sup)
               (get_or sd "assigned_by" (VStr "system"))
               (set_supervisors
                  (update_matching "supervisor_id" (VStr sup) one_more_student (supervisors d))
                  (set_stages
                     (update_rows sid (assign (supervisor_column ty) (VStr sup)
                                              (CURRENT_TIMESTAMP e)) (stages d)) d)))
    as (entry & Hlog & Hid & Hact & Hfield & _ & Hnew & _);
    [reflexivity|reflexivity|reflexivity|reflexivity| |reflexivity|exact Hby| |].
  - apply storable_get_or; [exact Hstorable|reflexivity].
  - cbn [stage_history set_supervisors set_stages]. rewrite Hh. exact Hhist.
  - rewrite Hlog. cbn [mbind result_bind mret result_ret stage_history set_supervisors set_stages].
    rewrite Hh. exists entry. repeat apply conj; try assumption. reflexivity.
Qed.


Lemma assign_supervisor_unfold (d : database) :
  assign_supervisor_body e (VStr sid) (VDict sd) d
  = (d ← match select_eq "supervisor_id" (VStr sup) (supervisors d) with
         | [] =>
             cells ← bind_params (VDict sd) supervisor_params;
             t ← insert_row supervisors_not_null supervisors_unique
                   (list_to_map (cells ++ supervisors_defaults (CURRENT_TIMESTAMP e)))
                   (supervisors d);
             mret (set_supervisors t d)
         | _ :: _ => mret d
         end;
     let field := supervisor_column ty in
     t ← update_where stages_not_null stages_unique [field; "updated_at"] "stage_id" (VStr sid)
           (fun r => <["updated_at" := VStr (CURRENT_TIMESTAMP e)]> (<[field := VStr sup]> r))
           (stages d);
     let d := set_stages t d in
     t ← update_where supervisors_not_null supervisors_unique ["current_students"]
           "supervisor_id" (VStr sup)
           (fun r => <["current_students" := plus_one (cell r "current_students")]> r)
           (supervisors d);
     let d := set_supervisors t d in
     assigned_by ← vget (VDict sd) "assigned_by" (VStr "system");
     d ← _log_history (uuid4 e 0) (CURRENT_TIMESTAMP e)
           (VStr sid) "ASSIGN_SUPERVISOR" (VStr field) VNone (VStr sup) assigned_by d;
     mret (supervisor_assigned, d)).
Proof.
  unfold assign_supervisor_body. cbn [subscript]. unfold getitem. rewrite Hsup, Hty.
  reflexivity.
Qed.

(** The effect of [assign_supervisor] for a supervisor the table holds. *)
Lemma assign_known_supervisor_ok (srow : gmap string value) (srest : list (gmap string value)) :
  select_eq "supervisor_id" (VStr sup) (supervisors (db m)) = srow :: srest ->
  exists entry,
    assign_supervisor e (VStr sid) (VDict sd) m
    = (supervisor_assigned,
       set_db (set_stage_history (stage_history (db m) ++ [entry])
                 (set_supervisors
                    (update_matching "supervisor_id" (VStr sup) one_more_student
                                     (supervisors (db m)))
                    (set_stages
                       (update_rows sid (assign (supervisor_column ty) (VStr sup)
                                                (CURRENT_TIMESTAMP e)) (stages (db m)))
                       (db m)))) m)
    /\ entry !! "stage_id" = Some (VStr sid)
    /\ entry !! "action" = Some (VStr "ASSIGN_SUPERVISOR")
    /\ entry !! "field_changed" = Some (VStr (supervisor_column ty))
    /\ entry !! "new_value" = Some (VStr sup).
Proof.
  intros Hknown. unfold assign_supervisor, transaction.
  rewrite assign_supervisor_unfold, Hknown. cbn [mbind result_bind mret result_ret].
  destruct (assign_supervisor_tail (db m) eq_refl) as (entry & Htail & Hfacts).
  cbn zeta in Htail. rewrite Htail. exists entry. split; [reflexivity|exact Hfacts].
Qed.

Lemma unique_ok_cons (c : string) (cs : list string) (r : gmap string value)
      (tbl : list (gmap string value)) :
  unique_ok (c :: cs) r tbl = unique_ok [c] r tbl && unique_ok cs r tbl.
Proof. unfold unique_ok. cbn [forallb]. by rewrite andb_true_r. Qed.

(** The effect of [assign_supervisor] for a supervisor the table does not
    hold yet. *)
Lemma assign_new_supervisor_ok (mail : string) :
  sd !! "email" = Some (VStr mail) ->
  is_null ty = false ->
  (forall k, In k ["first_name"; "last_name"; "institution_id"] ->
             is_null (get_or sd k (VStr "")) = false) ->
  fresh "supervisor_id" sup (supervisors (db m)) ->
  fresh "email" mail (supervisors (db m)) ->
  exists entry,
    assign_supervisor e (VStr sid) (VDict sd) m
    = (supervisor_assigned,
       set_db (set_stage_history (stage_history (db m) ++ [entry])
                 (set_supervisors
                    (supervisors (db m) ++ [one_more_student (new_supervisor_row e sd)])
                    (set_stages
                       (update_rows sid (assign (supervisor_column ty) (VStr sup)
                                                (CURRENT_TIMESTAMP e)) (stages (db m)))
                       (db m)))) m)
    /\ entry !! "stage_id" = Some (VStr sid)
    /\ entry !! "action" = Some (VStr "ASSIGN_SUPERVISOR")
    /\ entry !! "field_changed" = Some (VStr (supervisor_column ty))
    /\ entry !! "new_value" = Some (VStr sup).
Proof.
  intros Hmail Hnty Hnames Hfresh Hfmail. unfold assign_supervisor, transaction.
  rewrite assign_supervisor_unfold, Hfresh.
  rewrite (bind_params_ok sd _ Hstorable).
  2:{ unfold supervisor_params. cbn [forallb snd param_ok storable andb].
      rewrite !bool_decide_eq_true_2 by eauto. reflexivity. }
  cbn [mbind result_bind]. fold (new_supervisor_row e sd).
  assert (Hcell : forall k, cell (new_supervisor_row e sd) k
                  = default VNone
                      (assoc k (map (fun cp : string * param => (cp.1, param_value sd cp.2))
                                    supervisor_params
                                ++ supervisors_defaults (CURRENT_TIMESTAMP e)))).
  { intros k. apply cell_dict_of. }
  assert (Hid : cell (new_supervisor_row e sd) "supervisor_id" = VStr sup).
  { rewrite Hcell. cbn -[get get_or]. unfold get, get_or. by rewrite Hsup. }
  assert (Hem : cell (new_supervisor_row e sd) "email" = VStr mail).
  { rewrite Hcell. cbn -[get get_or]. unfold get, get_or. by rewrite Hmail. }
  unfold insert_row.
  rewrite not_null_ok_intro, (unique_ok_cons "supervisor_id" ["email"]), !unique_ok_fresh;
    cycle 1.
  - rewrite Hem. exact Hfmail.
  - rewrite Hid. exact Hfresh.
  - intros c Hc. unfold supervisors_not_null in Hc. cbn [In] in Hc.
    destruct Hc as [<-|[<-|[<-|[<-|[<-|[]]]]]].
    + rewrite Hcell. cbn -[get get_or]. apply Hnames. cbn; tauto.
    + rewrite Hcell. cbn -[get get_or]. apply Hnames. cbn; tauto.
    + by rewrite Hem.
    + rewrite Hcell. cbn -[get get_or]. unfold get, get_or. by rewrite Hty.
    + rewrite Hcell. cbn -[get get_or]. apply Hnames. cbn; tauto.
  - cbn [andb mbind result_bind mret result_ret].
    destruct (assign_supervisor_tail
                (set_supervisors (supervisors (db m) ++ [new_supervisor_row e sd]) (db m))
                eq_refl) as (entry & Htail & Hfacts).
    cbn zeta. cbn zeta in Htail. cbn [mret result_ret] in Htail. rewrite Htail.
    exists entry. split; [|exact Hfacts].
    cbn [supervisors stages set_supervisors set_stages set_stage_history].
    rewrite update_matching_app, (update_matching_none _ _ _ _ Hfresh).
    unfold update_matching at 1. cbn [map]. rewrite Hid. cbn [sql_eq].
    rewrite String.eqb_refl. reflexivity.
Qed.

End Supervisors.

Section SupervisorProperties.
Import Props.

(** X8.  Assigning a supervisor the table does not hold yet registers the
    supervisor with one student and the default limit of five, writes the
    identifier in the column of the stage that the supervisor type selects
    (the academic one for the type ACADEMIQUE, the company one for any other
    type), and adds one entry to the history.  Whether a stage bears the
    identifier is not checked: without one, no stage changes and the answer
    is the same. *)
Theorem assign_new_supervisor (e : env) (sid sup mail ty : string) (sd : gmap string value)
        (m : StageManager) :
  storable_dict sd ->
  sd !! "supervisor_id" = Some (VStr sup) ->
  sd !! "email" = Some (VStr mail) ->
  sd !! "supervisor_type" = Some (VStr ty) ->
  (forall k, In k ["first_name"; "last_name"; "institution_id"] ->
             is_null (get_or sd k (VStr "")) = false) ->
  is_null (get_or sd "assigned_by" (VStr "system")) = false ->
  fresh "supervisor_id" sup (supervisors (db m)) ->
  fresh "email" mail (supervisors (db m)) ->
  fresh "history_id" (uuid4 e 0) (stage_history (db m)) ->
  let column := if String.eqb ty "ACADEMIQUE" then "academic_supervisor_id"
                else "company_supervisor_id" in
  exists m' srow entry,
    assign_supervisor e (VStr sid) (VDict sd) m = (supervisor_assigned, m')
    /\ supervisors (db m') = supervisors (db m) ++ [srow]
    /\ srow !! "supervisor_id" = Some (VStr sup)
    /\ srow !! "current_students" = Some (VNum 1)
    /\ srow !! "max_students" = Some (VNum 5)
    /\ stages (db m')
       = update_rows sid (assign column (VStr sup) (CURRENT_TIMESTAMP e)) (stages (db m))
    /\ (select_eq "stage_id" (VStr sid) (stages (db m)) = [] -> stages (db m') = stages (db m))
    /\ stage_history (db m') = stage_history (db m) ++ [entry]
    /\ entry !! "action" = Some (VStr "ASSIGN_SUPERVISOR")
    /\ entry !! "field_changed" = Some (VStr column)
    /\ entry !! "new_value" = Some (VStr sup).
Proof.
  intros Hst Hsup Hmail Hty Hnames Hby Hfresh Hfmail Hhist column.
  destruct (assign_new_supervisor_ok e sid sup (VStr ty) sd m Hst Hsup Hty Hby Hhist mail
              Hmail eq_refl Hnames Hfresh Hfmail) as (entry & Heq & _ & Hact & Hfield & Hnew).
  change (supervisor_column (VStr ty)) with column in *.
  eexists. exists (one_more_student (new_supervisor_row e sd)), entry.
  split; [exact Heq|].
  cbn [db set_db supervisors stages stage_history set_stage_history set_supervisors set_stages].
  repeat apply conj; try assumption; try reflexivity.
  - unfold one_more_student. rewrite lookup_insert_ne by done.
    unfold new_supervisor_row. rewrite lookup_dict_of. cbn -[get get_or].
    unfold get, get_or. by rewrite Hsup.
  - intros Hnone. unfold update_rows.
    exact (update_matching_none "stage_id" (VStr sid) _ _ Hnone).
Qed.

Lemma assign_new_supervisor_witness :
  exists m' srow entry,
    assign_supervisor Scenarios.at_assignment (VStr "stage-1")
                      (VDict Scenarios.supervisor_payload) Examples.manager_with_stage
    = (supervisor_assigned, m')
    /\ supervisors (db m') = supervisors (db Examples.manager_with_stage) ++ [srow]
    /\ srow !! "supervisor_id" = Some (VStr "enc-1")
    /\ srow !! "current_students" = Some (VNum 1)
    /\ srow !! "max_students" = Some (VNum 5)
    /\ stages (db m')
       = update_rows "stage-1"
           (assign "academic_supervisor_id" (VStr "enc-1")
                   (CURRENT_TIMESTAMP Scenarios.at_assignment))
           (stages (db Examples.manager_with_stage))
    /\ (select_eq "stage_id" (VStr "stage-1") (stages (db Examples.manager_with_stage)) = [] ->
        stages (db m') = stages (db Examples.manager_with_stage))
    /\ stage_history (db m') = stage_history (db Examples.manager_with_stage) ++ [entry]
    /\ entry !! "action" = Some (VStr "ASSIGN_SUPERVISOR")
    /\ entry !! "field_changed" = Some (VStr "academic_supervisor_id")
    /\ entry !! "new_value" = Some (VStr "enc-1").
Proof.
  apply (assign_new_supervisor Scenarios.at_assignment "stage-1" "enc-1" "enc1@uy1.cm"
           "ACADEMIQUE" Scenarios.supervisor_payload Examples.manager_with_stage);
    try reflexivity.
  - apply (bool_decide_unpack (storable_dict _)). vm_compute. exact I.
  - intros k Hk. cbn [In] in Hk. destruct Hk as [<-|[<-|[<-|[]]]]; reflexivity.
Defined.

(** X9.  Assigning a supervisor the table already holds adds one to the
    number of its students and leaves its limit as it is, whatever the two
    numbers are: the assignment is not refused when the limit is reached.
    No supervisor is added. *)
Theorem assign_supervisor_ignores_limit (e : env) (sid sup : string) (ty : value)
        (sd : gmap string value) (m : StageManager) (srow : gmap string value) (n : Q) :
  storable_dict sd ->
  sd !! "supervisor_id" = Some (VStr sup) ->
  sd !! "supervisor_type" = Some ty ->
  is_null (get_or sd "assigned_by" (VStr "system")) = false ->
  fresh "history_id" (uuid4 e 0) (stage_history (db m)) ->
  select_eq "supervisor_id" (VStr sup) (supervisors (db m)) = [srow] ->
  srow !! "current_students" = Some (VNum n) ->
  exists m' srow',
    assign_supervisor e (VStr sid) (VDict sd) m = (supervisor_assigned, m')
    /\ select_eq "supervisor_id" (VStr sup) (supervisors (db m')) = [srow']
    /\ srow' !! "current_students" = Some (VNum (n + 1))
    /\ srow' !! "max_students" = srow !! "max_students"
    /\ length (supervisors (db m')) = length (supervisors (db m)).
Proof.
  intros Hst Hsup Hty Hby Hhist Hrow Hn.
  destruct (assign_known_supervisor_ok e sid sup ty sd m Hst Hsup Hty Hby Hhist srow []
              Hrow) as (entry & Heq & _).
  eexists. exists (one_more_student srow). split; [exact Heq|].
  cbn [db set_db supervisors set_stage_history set_supervisors].
  rewrite select_eq_update_matching, Hrow.
  2:{ intros r. unfold cell, get, get_or, one_more_student. by rewrite lookup_insert_ne. }
  repeat apply conj.
  - reflexivity.
  - unfold one_more_student, cell, get, get_or. rewrite lookup_insert_eq, Hn. reflexivity.
  - unfold one_more_student. by rewrite lookup_insert_ne.
  - unfold update_matching. apply length_map.
Qed.

Lemma assign_supervisor_ignores_limit_witness :
  Scenarios.busy_supervisor !! "max_students" = Some (VNum 5)
  /\ exists m' srow',
      assign_supervisor Scenarios.at_assignment (VStr "stage-1")
                        (VDict Scenarios.supervisor_payload)
                        Scenarios.manager_with_busy_supervisor
      = (supervisor_assigned, m')
      /\ select_eq "supervisor_id" (VStr "enc-1") (supervisors (db m')) = [srow']
      /\ srow' !! "current_students" = Some (VNum (5 + 1))
      /\ srow' !! "max_students" = Scenarios.busy_supervisor !! "max_students"
      /\ length (supervisors (db m'))
         = length (supervisors (db Scenarios.manager_with_busy_supervisor)).
Proof.
  split; [reflexivity|].
  apply (assign_supervisor_ignores_limit Scenarios.at_assignment "stage-1" "enc-1"
           (VStr "ACADEMIQUE") Scenarios.supervisor_payload
           Scenarios.manager_with_busy_supervisor Scenarios.busy_supervisor 5);
    try reflexivity.
  apply (bool_decide_unpack (storable_dict _)). vm_compute. exact I.
Defined.

End SupervisorProperties.

(** ** The stage store: what an evaluation leaves alone *)

Section EvaluationFrame.
Import Props.

Lemma insert_row_inv (nn uq : list string) (r : gmap string value)
      (tbl t : list (gmap string value)) :
  insert_row nn uq r tbl = Ok t -> t = tbl ++ [r].
Proof. unfold insert_row. destruct (_ && _); [by intros [= <-]|discriminate]. Qed.

(** The first placeholder of a statement, when it is a text the code
    supplies, is the first cell bound. *)
Lemma bind_params_head (data : value) (c s : string) (ps : list (string * param))
      (cells : list (string * value)) :
  bind_params data ((c, Const (VStr s)) :: ps) = Ok cells ->
  exists rest, cells = (c, VStr s) :: rest.
Proof.
  unfold bind_params. cbn [mapM fst snd read mbind result_bind mret result_ret].
  destruct (mapM _ ps) as [vs|]; [|discriminate].
  cbn [mapM fst snd mbind result_bind mret result_ret adapt].
  destruct (mapM _ vs) as [cs|]; [|discriminate].
  cbn [mbind result_bind mret result_ret]. intros [= <-]. eauto.
Qed.

Lemma evaluate_stage_body_inv (e : env) (ed : value) (d d' : database) (r : value) :
  evaluate_stage_body e ed d = Ok (r, d') ->
  success_of r = true
  /\ exists row, d' = set_evaluations (evaluations d ++ [row]) d
                 /\ row !! "evaluation_id" = Some (VStr (uuid4 e 0)).
Proof.
  unfold evaluate_stage_body.
  repeat (match goal with
          | |- context [weighted ?a ?b ?c] => destruct (weighted a b c); [|discriminate]
          end; cbn [mbind result_bind]).
  match goal with
  | |- context [bind_params ?a ?b] => destruct (bind_params a b) as [cells|] eqn:Hb; [|discriminate]
  end.
  cbn [mbind result_bind].
  match goal with
  | |- context [insert_row ?a ?b ?c ?t] =>
      destruct (insert_row a b c t) as [t'|] eqn:Hi; [|discriminate]
  end.
  cbn [mbind result_bind mret result_ret]. intros [= <- <-].
  apply insert_row_inv in Hi. subst t'.
  split; [reflexivity|]. eexists. split; [reflexivity|].
  apply bind_params_head in Hb as [rest ->].
  change (@list_to_map string value (gmap string value) _ _) with dict_of.
  rewrite lookup_dict_of. cbn [app assoc]. by rewrite String.eqb_refl.
Qed.

(** X10.  [evaluate_stage] writes to the table of evaluations only.  On
    success it appends one row, under the fresh identifier; on failure the
    store is unchanged.  In no case does it touch the stages (whose stored
    progress therefore stays what it was), the reports, the supervisors, the
    history or the report files. *)
Theorem evaluate_stage_frame (e : env) (ed : value) (m : StageManager) :
  let '(response, m') := evaluate_stage e ed m in
  stages (db m') = stages (db m)
  /\ reports (db m') = reports (db m)
  /\ supervisors (db m') = supervisors (db m)
  /\ stage_history (db m') = stage_history (db m)
  /\ files m' = files m
  /\ (if success_of response
      then exists row, evaluations (db m') = evaluations (db m) ++ [row]
                       /\ row !! "evaluation_id" = Some (VStr (uuid4 e 0))
      else m' = m).
Proof.
  unfold evaluate_stage, transaction.
  destruct (evaluate_stage_body e ed (db m)) as [[r d']|x] eqn:Hbody.
  - apply evaluate_stage_body_inv in Hbody as (Hs & row & -> & Hid).
    rewrite Hs. repeat apply conj; try reflexivity. by exists row.
  - cbn [success_of failure_message]. unfold get, get_or. rewrite lookup_dict_of.
    cbn [assoc String.eqb Ascii.eqb Bool.eqb default from_option id truthy].
    rewrite set_db_same. repeat apply conj; reflexivity.
Qed.

End EvaluationFrame.

(** ** The stage store: attachments of reports *)

Section Attachments.
Import Props.

Lemma save_attachment (e : env) (rd : gmap string value) (m : StageManager) (b : string) :
  attached e (uuid4 e 0) rd b ->
  save_report_file e (uuid4 e 0) (VDict rd) m
  = (Ok (VStr (attachment_path e m (uuid4 e 0) rd)),
     <[attachment_path e m (uuid4 e 0) rd := b]> (files m)).
Proof.
  intros (Hb & Hne & Hslash).
  unfold save_report_file, vget. cbn [as_dict mbind result_bind mret result_ret].
  assert (Hget : get_or rd "report_file" VNone = VBytes b) by (unfold get_or; by rewrite Hb).
  rewrite Hget. cbn [truthy].
  apply String.eqb_neq in Hne. rewrite Hne. cbn [negb].
  rewrite Hslash. reflexivity.
Qed.



End Attachments.



(** ** Certificates *)

Section Certificates.
Import Props.

Lemma sum_final_scores_scored_rows (rows : list (gmap string value)) (acc : Q) :
  scored rows -> exists q, sum_final_scores acc (map VDict rows) = Ok q.
Proof.
  intros H. revert acc. induction H as [|r rows [q Hq] _ IH]; intros acc.
  - by exists acc.
  - cbn [map sum_final_scores subscript]. unfold getitem. rewrite Hq.
    cbn [mbind result_bind as_number]. apply IH.
Qed.

(** X13.  A certificate is issued for an existing stage exactly when its
    status is TERMINE.  The certificate then carries the fresh identifier,
    the names, title and dates of the stage, and, when the stage has no
    evaluation, the mention that it is not evaluated.  In any other status
    the answer is that the stage must be finished. *)
Theorem certificate_requires_finished_stage (e : env) (sid : string) (m : StageManager)
        (row : gmap string value) (rest : list (gmap string value)) :
  select_eq "stage_id" (VStr sid) (stages (db m)) = row :: rest ->
  scored (select_eq "stage_id" (VStr sid) (evaluations (db m))) ->
  (eq_str (cell row "status") "TERMINE" = false ->
   generate_stage_certificate e (VStr sid) m = Ok stage_unfinished)
  /\ (eq_str (cell row "status") "TERMINE" = true ->
      exists certificate mention,
        generate_stage_certificate e (VStr sid) m
        = Ok (VDict (dict_of [("success", VBool true); ("certificate", VDict certificate)]))
        /\ certificate !! "certificate_id" = Some (VStr (uuid4 e 0))
        /\ certificate !! "stage_id" = Some (VStr sid)
        /\ (forall k, In k certificate_fields -> certificate !! k = Some (cell row k))
        /\ certificate !! "final_grade" = Some (VStr mention)
        /\ (select_eq "stage_id" (VStr sid) (evaluations (db m)) = [] ->
            mention = "Non évalué")).
Proof.
  intros Hrow Hscored. unfold generate_stage_certificate, get_stage.
  cbn [adapt mbind result_bind]. rewrite Hrow. cbn [mbind result_bind mret result_ret].
  set (stage := <["evaluations" := _]> _).
  assert (Hcell : forall k, k <> "evaluations" -> k <> "reports" -> get stage k = cell row k).
  { intros k H1 H2. unfold stage, get, get_or, cell. by rewrite !lookup_insert_ne. }
  rewrite (Hcell "status") by done.
  split; intros Hstatus; rewrite Hstatus; cbn [negb]; [reflexivity|].
  assert (Hevs : get stage "evaluations"
                 = VList (map VDict (select_eq "stage_id" (VStr sid) (evaluations (db m))))).
  { unfold stage, get, get_or. by rewrite lookup_insert_eq. }
  assert (Hgrade : exists mention,
             _get_final_grade stage = Ok mention
             /\ (select_eq "stage_id" (VStr sid) (evaluations (db m)) = [] ->
                 mention = "Non évalué")).
  { unfold _get_final_grade. rewrite Hevs.
    destruct (select_eq "stage_id" (VStr sid) (evaluations (db m))) as [|ev evs] eqn:E.
    - by exists "Non évalué".
    - cbn [map]. change (VDict ev :: map VDict evs) with (map VDict (ev :: evs)).
      destruct (sum_final_scores_scored_rows (ev :: evs) 0%Q Hscored) as [q ->].
      cbn [mbind result_bind mret result_ret]. eexists. split; [reflexivity|discriminate]. }
  destruct Hgrade as (mention & -> & Hnone).
  cbn [mbind result_bind mret result_ret].
  eexists _, mention. split; [reflexivity|].
  rewrite !lookup_dict_of.
  repeat apply conj; try reflexivity; [|exact Hnone].
  intros k Hk. rewrite lookup_dict_of. unfold certificate_fields in Hk. cbn [In] in Hk.
  repeat (destruct Hk as [<-|Hk]; [cbn [assoc String.eqb Ascii.eqb Bool.eqb];
                                   by rewrite Hcell|]).
  destruct Hk.
Qed.

End Certificates.

Lemma certificate_requires_finished_stage_witness :
  generate_stage_certificate Scenarios.at_certificate (VStr "stage-1")
                             Examples.manager_with_stage
  = Ok Props.stage_unfinished
  /\ exists certificate mention,
      generate_stage_certificate Scenarios.at_certificate (VStr "stage-1")
                                 Scenarios.finished_manager
      = Ok (VDict (dict_of [("success", VBool true); ("certificate", VDict certificate)]))
      /\ certificate !! "certificate_id" = Some (VStr "certificate-1")
      /\ certificate !! "stage_title" = Some (VStr "Supervision réseau")
      /\ certificate !! "final_grade" = Some (VStr mention)
      /\ mention = "Non évalué".
Proof.
  split.
  - apply (certificate_requires_finished_stage Scenarios.at_certificate "stage-1"
             Examples.manager_with_stage
             (new_stage_row Examples.at_creation Examples.stage_payload) []);
      [reflexivity|constructor|reflexivity].
  - destruct (certificate_requires_finished_stage Scenarios.at_certificate "stage-1"
                Scenarios.finished_manager Scenarios.finished_row [])
      as [_ Hissued]; [reflexivity|constructor|].
    destruct Hissued as (certificate & mention & Hc & Hid & _ & Hfields & Hgrade & Hnone);
      [reflexivity|].
    exists certificate, mention. split; [exact Hc|]. split; [exact Hid|].
    split; [|split; [exact Hgrade|by apply Hnone]].
    rewrite (Hfields "stage_title") by (cbn; tauto). reflexivity.
Defined.

(** ** Pagination *)

Section Pagination.
Import Props.

Lemma list_stages_zero (f : gmap string value) (page : Q) (m : StageManager) :
  text_dict f -> list_stages (VDict f) page 0 m = Raise ZeroDivisionError.
Proof.
  intros Hf. unfold list_stages.
  destruct (active_conditions_texts f Hf) as (conds & -> & Hall).
  cbn [mbind result_bind]. rewrite (bind_conditions_texts conds Hall).
  rewrite (as_integer_inject 0 0) by reflexivity.
  rewrite (as_integer_inject _ 0) by ring.
  reflexivity.
Qed.

(** X14.  A [list_stages] message that asks for pages of size 0 makes the
    router raise [ZeroDivisionError], whatever the page and the filters (none,
    or texts): the total number of pages is computed by a division by the
    page size, and nothing catches the exception before the connection
    loop.  The server is unchanged. *)
Theorem list_stages_page_size_zero (e : env) (msg : gmap string value) (client_socket : nat)
        (s : StageServerManager) :
  msg !! "type" = Some (VStr "list_stages") ->
  msg !! "page_size" = Some (VNum 0) ->
  (exists page, get_or msg "page" (VNum 1) = VNum page) ->
  (exists f, get_or msg "filters" (VDict ∅) = VDict f /\ text_dict f) ->
  _process_message e (VDict msg) client_socket s = (Raise ZeroDivisionError, s).
Proof.
  intros Hty Hps [page Hpage] (f & Hf & Htext).
  unfold _process_message, get, get_or. rewrite Hty.
  cbn [default from_option id eq_str String.eqb Ascii.eqb Bool.eqb].
  unfold _handle_list_stages. rewrite Hf, Hpage.
  unfold get_or at 1. rewrite Hps. cbn [default from_option id as_number].
  by rewrite list_stages_zero.
Qed.

Lemma list_stages_page_size_zero_witness :
  _process_message Examples.at_creation (VDict Scenarios.empty_pages) 7
                   (Examples.server_over Examples.forty_five_stages)
  = (Raise ZeroDivisionError, Examples.server_over Examples.forty_five_stages).
Proof.
  apply (list_stages_page_size_zero Examples.at_creation Scenarios.empty_pages 7
           (Examples.server_over Examples.forty_five_stages)); try reflexivity.
  - by exists 2%Q.
  - exists ∅. split; [reflexivity|].
    apply (bool_decide_unpack (text_dict _)). vm_compute. exact I.
Defined.

End Pagination.

Section Pages.
Import Props.

Lemma chunks_cover {A} (p : nat) (l : list A) (n : nat) :
  (length l <= n * p)%nat ->
  concat (map (fun k => take p (drop (k * p) l)) (seq 0 n)) = l.
Proof.
  revert l. induction n as [|n IH]; intros l Hl.
  - destruct l; [reflexivity|cbn in Hl; lia].
  - cbn [seq map concat]. rewrite Nat.mul_0_l, drop_0.
    rewrite <- seq_shift, map_map.
    rewrite (map_ext _ (fun k => take p (drop (k * p) (drop p l)))).
    + rewrite IH by (rewrite length_drop; lia). apply take_drop.
    + intros k. rewrite drop_drop. reflexivity.
Qed.

Lemma insert_desc_length (col : string) (r : gmap string value) (l : list (gmap string value)) :
  length (insert_desc col r l) = S (length l).
Proof.
  induction l as [|x l IH]; [reflexivity|]. cbn [insert_desc].
  destruct (sql_le _ _); cbn [length]; [by rewrite IH|reflexivity].
Qed.

Lemma order_by_desc_length (col : string) (l : list (gmap string value)) :
  length (order_by_desc col l) = length l.
Proof.
  unfold order_by_desc. induction l as [|x l IH]; [reflexivity|].
  cbn [fold_right]. rewrite insert_desc_length. by rewrite IH.
Qed.

(** What [list_stages] answers for the page [k] of size [p]. *)
Lemma page_of_items (f : gmap string value) (conds : list (value * (value -> gmap string value -> bool)))
      (k p : Z) (m : StageManager) :
  0 < p -> 1 <= k -> text_dict f ->
  active_conditions (VDict f) = Ok conds ->
  page_of (VDict f) k p m
  = map VDict (take (Z.to_nat p) (drop (Z.to_nat (k - 1) * Z.to_nat p) (matching_stages conds m))).
Proof.
  intros Hp Hk Hf Hc. unfold page_of, list_stages. rewrite Hc.
  destruct (active_conditions_texts f Hf) as (conds' & Hc' & Hall).
  rewrite Hc in Hc'. injection Hc' as <-.
  cbn [mbind result_bind]. rewrite (bind_conditions_texts conds Hall).
  rewrite (as_integer_inject (inject_Z p) p) by reflexivity.
  rewrite (as_integer_inject _ ((k - 1) * p)).
  2:{ unfold Qeq, Qmult, Qminus, Qplus, Qopp, inject_Z. cbn. lia. }
  assert (Qeq_bool (inject_Z p) 0 = false) as ->.
  { destruct (Qeq_bool (inject_Z p) 0) eqn:E; [|reflexivity].
    apply Qeq_bool_iff in E. unfold Qeq, inject_Z in E. cbn in E. lia. }
  cbn [mbind result_bind mret result_ret].
  rewrite lookup_dict_of. cbn [assoc String.eqb Ascii.eqb Bool.eqb].
  unfold rows_as_list, limit_offset, matching_stages.
  assert ((p <? 0) = false) as -> by lia.
  rewrite Z2Nat.inj_mul by lia. reflexivity.
Qed.



End Pages.

(** ** Synchronisation *)

Section Synchronisation.
Import Props Sync.

Lemma truthy_insert (k : string) (v : value) (d : gmap string value) :
  truthy (VDict (<[k := v]> d)) = true.
Proof.
  cbn [truthy]. apply negb_true_iff, bool_decide_eq_false.
  intros H. apply dom_empty_inv_L in H. by apply insert_non_empty in H.
Qed.

Lemma get_stage_known (m : StageManager) (stage_id : value) :
  match get_stage stage_id m with
  | Ok stage => truthy stage = known m stage_id /\ exists p, adapt stage_id = Ok p
  | Raise x => adapt stage_id = Raise x /\ known m stage_id = false
  end.
Proof.
  unfold get_stage, known. destruct (adapt stage_id) as [p|x]; [|by split].
  cbn [mbind result_bind]. unfold select_eq.
  induction (stages (db m)) as [|r tbl IH]; cbn [List.filter existsb].
  - split; [reflexivity|eauto].
  - destruct (sql_eq (cell r "stage_id") p); cbn [orb mret result_ret].
    + split; [apply truthy_insert|eauto].
    + exact IH.
Qed.

(** X16.  [sync_stages_with_institutions] never raises and sorts the
    identifiers it is given in two: the synchronised ones are those a stage
    of the store bears, in the order given, and every other identifier has
    one entry among the failures, in the order given too, with the message
    that it is not found (or the text of the exception, for an identifier
    that cannot be bound to a query).  The store is only read. *)
Theorem sync_partitions_identifiers (e : env) (stage_ids : list value) (m : StageManager) :
  let results := sync_stages_with_institutions e stage_ids m in
  results !! "synced" = Some (VList (List.filter (known m) stage_ids))
  /\ results !! "failed"
     = Some (VList (map (failure_of e m)
                        (List.filter (fun stage_id => negb (known m stage_id)) stage_ids))).
Proof.
  cbn zeta. unfold sync_stages_with_institutions.
  assert (H : forall synced failed,
             fold_left
               (fun (results : list value * list value) stage_id =>
                  let '(synced, failed) := results in
                  match get_stage stage_id m with
                  | Ok stage =>
                      if truthy stage then (synced ++ [stage_id], failed)
                      else (synced,
                            failed ++ [VDict (dict_of [("stage_id", stage_id);
                                                       ("error", VStr "Non trouvé")])])
                  | Raise x =>
                      (synced,
                       failed ++ [VDict (dict_of [("stage_id", stage_id);
                                                  ("error", VStr (str_exn e x))])])
                  end)
               stage_ids (synced, failed)
             = (synced ++ List.filter (known m) stage_ids,
                failed ++ map (failure_of e m)
                              (List.filter (fun stage_id => negb (known m stage_id))
                                           stage_ids))).
  { induction stage_ids as [|i ids IH]; intros synced failed.
    - cbn. by rewrite !app_nil_r.
    - cbn [fold_left List.filter].
      pose proof (get_stage_known m i) as Hk.
      destruct (get_stage i m) as [stage|x].
      + destruct Hk as [Hk [p Hp]]. rewrite Hk.
        destruct (known m i); cbn [negb map]; rewrite IH, <- app_assoc; [reflexivity|].
        unfold failure_of. by rewrite Hp.
      + destruct Hk as [Hx Hk]. rewrite Hk. cbn [negb map]. rewrite IH, <- app_assoc.
        unfold failure_of. by rewrite Hx. }
  rewrite H. rewrite !lookup_dict_of. split; reflexivity.
Qed.

End Synchronisation.

(** ** The router: what a message can change *)

Section RouterFrame.
Import Props.

Lemma send_notification_frame (e : env) (recipient_id : value) (notification_type message : string)
      (s s' : StageServerManager) :
  _send_notification e recipient_id notification_type message s = Ok s' ->
  totals s' = totals s
  /\ connected_institutions s' = connected_institutions s
  /\ institution_sockets s' = institution_sockets s
  /\ stage_manager s' = stage_manager s.
Proof.
  unfold _send_notification. destruct (key_of recipient_id) as [k|]; [|discriminate].
  cbn [mbind result_bind]. destruct (institution_sockets s !! k) as [sock|].
  - destruct (send sock _ (net s)); intros [= <-]; by repeat split.
  - intros [= <-]. by repeat split.
Qed.

(** X17.  Handling one message changes the counters of the server by at most
    one, in all: a counter never decreases, and the only counter that can
    grow is the one of the type of the message (stages created for
    [create_stage], reports submitted for [submit_report], evaluations for
    [evaluate_stage]), whether the handler returns or raises. *)
Theorem router_counts_at_most_one (e : env) (message : value) (client_socket : nat)
        (s : StageServerManager) :
  let s' := (_process_message e message client_socket s).2 in
  totals s' = totals s
  \/ (type_of message = Some "create_stage"
      /\ totals s' = (total_stages_created s + 1, total_reports_submitted s, total_evaluations s))
  \/ (type_of message = Some "submit_report"
      /\ totals s' = (total_stages_created s, total_reports_submitted s + 1, total_evaluations s))
  \/ (type_of message = Some "evaluate_stage"
      /\ totals s' = (total_stages_created s, total_reports_submitted s, total_evaluations s + 1)).
Proof.
  cbn zeta. destruct message as [| | | | | | |msg]; try (left; reflexivity).
  unfold _process_message, type_of, get, get_or.
  destruct (msg !! "type") as [[| | |t| | | |]|]; cbn [default from_option id eq_str];
    try (left; reflexivity).
  repeat match goal with
         | |- context [if String.eqb t ?k then _ else _] =>
             destruct (String.eqb_spec t k) as [->|_]
         end; try (left; reflexivity).
  - (* register_institution *)
    left. unfold _register_institution.
    destruct (InstitutionType_of _); [|reflexivity].
    destruct (key_of _); reflexivity.
  - (* disconnect *)
    left. unfold _handle_disconnect, _cleanup_disconnected_institution.
    destruct (key_of _); reflexivity.
  - (* create_stage *)
    unfold _handle_create_stage.
    destruct (create_stage e _ (stage_manager s)) as [result m].
    destruct (success_of result); [|left; reflexivity].
    right; left. split; [reflexivity|].
    destruct (get_or msg "stage_data" (VDict ∅)); try reflexivity.
    destruct (_send_notification _ _ _ _ _) as [s'|] eqn:E; [|reflexivity].
    apply send_notification_frame in E as [Ht _]. cbn [snd]. rewrite Ht. reflexivity.
  - (* update_stage *)
    left. unfold _handle_update_stage. by destruct (update_stage _ _ _ _ _ _).
  - (* delete_stage *)
    left. unfold _handle_delete_stage. by destruct (update_stage _ _ _ _ _ _).
  - (* assign_supervisor *)
    left. unfold _handle_assign_supervisor. by destruct (assign_supervisor _ _ _ _).
  - (* submit_report *)
    unfold _handle_submit_report.
    destruct (if truthy (get msg "has_file") then _ else _) as [[report_data|] n];
      [|left; reflexivity].
    destruct (submit_report e report_data _) as [result m].
    destruct (success_of result); [right; right; left; by split|left; reflexivity].
  - (* review_report *)
    left. unfold _handle_review_report.
    match goal with |- context [match ?x with Ok _ => _ | Raise _ => _ end] => destruct x end;
      [|reflexivity].
    by destruct (sliceable _).
  - (* evaluate_stage *)
    unfold _handle_evaluate_stage.
    destruct (evaluate_stage e _ _) as [result m].
    destruct (success_of result); [right; right; right; by split|left; reflexivity].
Qed.

(** X18.  The two maps of the registry hold the same identifiers before and
    after any message, and only a registration or a disconnection changes
    them: the handlers of all other types leave both maps as they are,
    whether they return or raise. *)
Theorem router_keeps_registry_aligned (e : env) (message : value) (client_socket : nat)
        (s : StageServerManager) :
  dom (connected_institutions s) = dom (institution_sockets s) ->
  let s' := (_process_message e message client_socket s).2 in
  dom (connected_institutions s') = dom (institution_sockets s')
  /\ (type_of message <> Some "register_institution" -> type_of message <> Some "disconnect" ->
      connected_institutions s' = connected_institutions s
      /\ institution_sockets s' = institution_sockets s).
Proof.
  intros Hdom. cbn zeta.
  destruct message as [| | | | | | |msg]; try (split; [exact Hdom|by split]).
  unfold _process_message, type_of, get, get_or.
  destruct (msg !! "type") as [[| | |t| | | |]|]; cbn [default from_option id eq_str];
    try (split; [exact Hdom|by split]).
  repeat match goal with
         | |- context [if String.eqb t ?k then _ else _] =>
             destruct (String.eqb_spec t k) as [->|_]
         end; try (split; [exact Hdom|by split]).
  - (* register_institution *)
    split; [|done]. unfold _register_institution.
    destruct (InstitutionType_of _); [|exact Hdom].
    destruct (key_of _); [|exact Hdom].
    cbn [snd connected_institutions institution_sockets set_registry].
    by rewrite !dom_insert_L, Hdom.
  - (* disconnect *)
    split; [|done]. unfold _handle_disconnect, _cleanup_disconnected_institution.
    destruct (key_of _); [|exact Hdom].
    cbn [mbind result_bind mret result_ret snd connected_institutions institution_sockets
         set_registry].
    by rewrite !dom_delete_L, Hdom.
  - (* create_stage *)
    unfold _handle_create_stage.
    destruct (create_stage e _ (stage_manager s)) as [result m].
    destruct (success_of result); [|split; [exact Hdom|by split]].
    destruct (get_or msg "stage_data" (VDict ∅)); try (split; [exact Hdom|by split]).
    destruct (_send_notification _ _ _ _ _) as [s'|] eqn:E; [|split; [exact Hdom|by split]].
    apply send_notification_frame in E as (_ & Hc & Hs & _). cbn [snd].
    rewrite Hc, Hs. split; [exact Hdom|by split].
  - (* update_stage *)
    unfold _handle_update_stage. destruct (update_stage _ _ _ _ _ _).
    split; [exact Hdom|by split].
  - (* delete_stage *)
    unfold _handle_delete_stage. destruct (update_stage _ _ _ _ _ _).
    split; [exact Hdom|by split].
  - (* assign_supervisor *)
    unfold _handle_assign_supervisor. destruct (assign_supervisor _ _ _ _).
    split; [exact Hdom|by split].
  - (* submit_report *)
    unfold _handle_submit_report.
    destruct (if truthy (get msg "has_file") then _ else _) as [[report_data|] n];
      [|split; [exact Hdom|by split]].
    destruct (submit_report e report_data _) as [result m].
    destruct (success_of result); split; [exact Hdom|by split|exact Hdom|by split].
  - (* review_report *)
    unfold _handle_review_report.
    match goal with |- context [match ?x with Ok _ => _ | Raise _ => _ end] => destruct x end;
      [|split; [exact Hdom|by split]].
    destruct (sliceable _); split; [exact Hdom|by split|exact Hdom|by split].
  - (* evaluate_stage *)
    unfold _handle_evaluate_stage.
    destruct (evaluate_stage e _ _) as [result m].
    destruct (success_of result); split; [exact Hdom|by split|exact Hdom|by split].
Qed.

(** X19.  The messages that only ask for something (a stage, a list, the
    evaluations, the statistics, a certificate, and the answer to a
    heartbeat) leave the whole server as it is: the store, the files, the
    registry, the counters and the sockets. *)
Theorem queries_change_nothing (e : env) (msg : gmap string value) (t : string)
        (client_socket : nat) (s : StageServerManager) :
  msg !! "type" = Some (VStr t) ->
  In t read_only_types ->
  (_process_message e (VDict msg) client_socket s).2 = s.
Proof.
  intros Hty Hin. unfold _process_message, get, get_or. rewrite Hty.
  unfold read_only_types in Hin. cbn [In] in Hin.
  repeat (destruct Hin as [<-|Hin]; [reflexivity|]). destruct Hin.
Qed.

End RouterFrame.

(** ** Receiving an attachment *)

Section ReceiveFile.
Import Props.

Lemma append_cons (c : ascii) (a b : string) : String c a +:+ b = String c (a +:+ b).
Proof. reflexivity. Qed.

Lemma length_append (a b : string) :
  String.length (a +:+ b) = (String.length a + String.length b)%nat.
Proof.
  induction a as [|c a IH]; [reflexivity|].
  rewrite append_cons. cbn [String.length]. by rewrite IH.
Qed.

Lemma append_assoc (a b c : string) : (a +:+ b) +:+ c = a +:+ (b +:+ c).
Proof. induction a as [|x a IH]; [reflexivity|]. rewrite !append_cons. by rewrite IH. Qed.

Lemma append_empty_r (a : string) : a +:+ "" = a.
Proof. induction a as [|x a IH]; [reflexivity|]. rewrite append_cons. by rewrite IH. Qed.

Lemma substring_all (s : string) : substring 0 (String.length s) s = s.
Proof. induction s as [|c s IH]; [reflexivity|]. cbn [String.length substring]. by rewrite IH. Qed.

Lemma prefix_length (k : nat) (s : string) :
  String.length (substring 0 k s) = Nat.min k (String.length s).
Proof.
  revert s. induction k as [|k IH]; intros [|c s]; try reflexivity.
  cbn [substring String.length Nat.min]. by rewrite IH.
Qed.

(** A buffer is the bytes taken from it followed by the bytes left. *)
Lemma prefix_suffix (k : nat) (s : string) :
  substring 0 k s +:+ substring k (String.length s - k) s = s.
Proof.
  revert s. induction k as [|k IH]; intros s.
  - rewrite Nat.sub_0_r, substring_all. by destruct s.
  - destruct s as [|c s]; [reflexivity|].
    cbn [substring String.length Nat.sub]. rewrite append_cons. by rewrite IH.
Qed.

Lemma prefix_of_append (a b : string) (k : nat) :
  substring 0 (String.length a + k) (a +:+ b) = a +:+ substring 0 k b.
Proof.
  induction a as [|c a IH]; [reflexivity|].
  rewrite !append_cons. cbn [String.length Nat.add substring]. by rewrite IH.
Qed.

Lemma after_0 (s : string) : after 0 s = s.
Proof. unfold after. rewrite Nat.sub_0_r. apply substring_all. Qed.

Lemma after_after (k j : nat) (s : string) : after j (after k s) = after (k + j) s.
Proof.
  revert s. induction k as [|k IH]; intros s.
  - by rewrite after_0.
  - destruct s as [|c s].
    + unfold after. cbn. by destruct j.
    + change (after (S k) (String c s)) with (after k s).
      change (after (S k + j) (String c s)) with (after (k + j) s). apply IH.
Qed.

Lemma after_length (k : nat) (s : string) :
  String.length (after k s) = (String.length s - k)%nat.
Proof.
  pose proof (f_equal String.length (prefix_suffix k s)) as H.
  rewrite length_append, prefix_length in H. fold (after k s) in H. lia.
Qed.

(** The size of the next chunk: at least one byte, and no more than the
    bytes that are missing. *)
Lemma chunk_size (N len : nat) :
  (len < N)%nat ->
  let size := py_min 8192 (inject_Z (Z.of_nat N) - inject_Z (Z.of_nat len)) in
  Qeq_bool (inject_Z (Qfloor size)) size = true
  /\ (1 <= Z.to_nat (Qfloor size) <= N - len)%nat.
Proof.
  intros Hlt. cbn zeta. unfold py_min.
  assert (Hd : (inject_Z (Z.of_nat N) - inject_Z (Z.of_nat len)
                == inject_Z (Z.of_nat N - Z.of_nat len))%Q).
  { unfold Qeq, Qminus, Qplus, Qopp, inject_Z. cbn. lia. }
  destruct (Qle_bool 8192 _) eqn:E.
  - split; [reflexivity|].
    apply Qle_bool_iff in E. rewrite Hd in E. unfold Qle, inject_Z in E. cbn in E.
    change (Qfloor 8192) with 8192. lia.
  - rewrite (Qfloor_comp _ _ Hd), Qfloor_Z. split.
    + apply Qeq_bool_iff. by symmetry.
    + lia.
Qed.

Lemma nonempty_length (s : string) : (1 <= String.length s)%nat -> String.eqb s "" = false.
Proof. destruct s; [cbn; lia|reflexivity]. Qed.

Lemma substring_0_0 (s : string) : substring 0 0 s = "".
Proof. by destruct s. Qed.

Lemma receive_file_done (fuel sock : nat) (N : nat) (data : string) (n : network) :
  (N <= String.length data)%nat ->
  receive_file fuel sock (inject_Z (Z.of_nat N)) data n = (Ok data, n).
Proof.
  intros H.
  assert (Hle : Qle_bool (inject_Z (Z.of_nat N)) (inject_Z (Z.of_nat (String.length data)))
                = true).
  { apply Qle_bool_iff. unfold Qle, inject_Z. cbn. lia. }
  destruct fuel; cbn [receive_file]; rewrite Hle; reflexivity.
Qed.

(** The loop, from any of its turns, when the bytes that are missing have
    arrived. *)
Lemma receive_file_from (fuel sock N : nat) (data cur : string) (n : network) :
  incoming n !! sock = Some cur ->
  (String.length data <= N)%nat ->
  (N - String.length data <= fuel)%nat ->
  (N - String.length data <= String.length cur)%nat ->
  exists n',
    receive_file fuel sock (inject_Z (Z.of_nat N)) data n
    = (Ok (data +:+ substring 0 (N - String.length data) cur), n')
    /\ sent n' = sent n /\ closed n' = closed n
    /\ (forall o, o <> sock -> incoming n' !! o = incoming n !! o)
    /\ incoming n' !! sock = Some (after (N - String.length data) cur).
Proof.
  revert data cur n. induction fuel as [|fuel IH]; intros data cur n Hcur Hlen Hfuel Hbuf.
  - assert (HN : (N - String.length data = 0)%nat) by lia.
    rewrite receive_file_done by lia. rewrite HN, substring_0_0, append_empty_r, after_0.
    exists n. by repeat split.
  - destruct (Nat.eq_dec (String.length data) N) as [Heq|Hne].
    { assert (HN : (N - String.length data = 0)%nat) by lia.
      rewrite receive_file_done by lia. rewrite HN, substring_0_0, append_empty_r, after_0.
      exists n. by repeat split. }
    assert (Hlt : (String.length data < N)%nat) by lia.
    cbn [receive_file].
    assert (Hle : Qle_bool (inject_Z (Z.of_nat N)) (inject_Z (Z.of_nat (String.length data)))
                  = false).
    { apply Qle_bool_false. unfold Qlt, inject_Z. cbn. lia. }
    rewrite Hle. cbn [negb].
    destruct (chunk_size N (String.length data) Hlt) as [Hint Hk]. cbn zeta in Hint, Hk.
    rewrite Hint.
    set (k := Z.to_nat (Qfloor _)) in *.
    unfold recv. rewrite Hcur. cbn [default from_option id].
    fold k. fold (after k cur). clearbody k.
    assert (Hchunk : String.length (substring 0 k cur) = k)
      by (rewrite prefix_length; lia).
    rewrite !(nonempty_length (substring 0 k cur)) by lia.
    destruct (IH (data +:+ substring 0 k cur) (after k cur)
                 {| sent := sent n; incoming := <[sock := after k cur]> (incoming n);
                    closed := closed n |})
      as (n' & Hr & Hs & Hc & Ho & Hi).
    + cbn [incoming]. apply lookup_insert_eq.
    + rewrite length_append. lia.
    + rewrite length_append. lia.
    + rewrite length_append, after_length. lia.
    + exists n'. rewrite Hr. rewrite length_append, Hchunk in *.
      repeat apply conj.
      * f_equal. f_equal. rewrite append_assoc. f_equal.
        pose proof (prefix_of_append (substring 0 k cur) (after k cur)
                      (N - (String.length data + k))) as Hsplit.
        unfold after at 1 in Hsplit. rewrite prefix_suffix, Hchunk in Hsplit.
        rewrite <- Hsplit. f_equal. lia.
      * exact Hs.
      * exact Hc.
      * intros o Hne'. rewrite Ho by done. cbn [incoming]. by rewrite lookup_insert_ne.
      * rewrite Hi, after_after. do 2 f_equal. lia.
Qed.


(** The loop, from any of its turns, when fewer bytes arrive than are
    missing and the peer stays silent. *)
Lemma receive_file_short_from (fuel sock N : nat) (data cur : string) (n : network) :
  default "" (incoming n !! sock) = cur ->
  sock ∉ closed n ->
  (String.length data + String.length cur < N)%nat ->
  (N - String.length data <= fuel)%nat ->
  exists n',
    receive_file fuel sock (inject_Z (Z.of_nat N)) data n = (Raise OSError, n')
    /\ sent n' = sent n /\ closed n' = closed n.
Proof.
  revert data cur n. induction fuel as [|fuel IH]; intros data cur n Hcur Hopen Hshort Hfuel;
    [lia|].
  assert (Hlt : (String.length data < N)%nat) by lia.
  cbn [receive_file].
  assert (Hle : Qle_bool (inject_Z (Z.of_nat N)) (inject_Z (Z.of_nat (String.length data)))
                = false).
  { apply Qle_bool_false. unfold Qlt, inject_Z. cbn. lia. }
  rewrite Hle. cbn [negb].
  destruct (chunk_size N (String.length data) Hlt) as [Hint Hk]. cbn zeta in Hint, Hk.
  rewrite Hint.
  set (k := Z.to_nat (Qfloor _)) in *.
  unfold recv. rewrite Hcur. fold k. fold (after k cur). clearbody k.
  destruct (String.eqb_spec (substring 0 k cur) "") as [Hempty|Hchunk].
  - rewrite bool_decide_eq_false_2 by exact Hopen. exists n. by repeat split.
  - apply String.eqb_neq in Hchunk. rewrite Hchunk.
    assert (Hcl : String.length (substring 0 k cur) = Nat.min k (String.length cur))
      by apply prefix_length.
    assert (Hpos : (1 <= String.length (substring 0 k cur))%nat).
    { destruct (substring 0 k cur); [discriminate|cbn; lia]. }
    destruct (IH (data +:+ substring 0 k cur) (after k cur)
                 {| sent := sent n; incoming := <[sock := after k cur]> (incoming n);
                    closed := closed n |})
      as (n' & Hr & Hs & Hc).
    + cbn [incoming]. by rewrite lookup_insert_eq.
    + exact Hopen.
    + rewrite length_append, after_length. lia.
    + rewrite length_append. lia.
    + exists n'. by repeat split.
Qed.


End ReceiveFile.



(** ** Registry and notifications *)

Section RegistryProperties.
Import Props.

Lemma get_bound (d : gmap string value) (k : string) (v : value) :
  d !! k = Some v -> get d k = v.
Proof. intros H. unfold get, get_or. by rewrite H. Qed.

(** X22.  A disconnection removes the institution the message names from
    both maps of the registry, on whatever socket the message arrives; after
    a registration it undoes it, so that a registry that did not hold the
    institution is back to what it was. *)
Theorem register_then_disconnect (e : env) (reg bye : gmap string value) (sock1 sock2 : nat)
        (s : StageServerManager) (k : hkey) (t : InstitutionType) :
  reg !! "type" = Some (VStr "register_institution") ->
  bye !! "type" = Some (VStr "disconnect") ->
  get bye "institution_id" = get reg "institution_id" ->
  key_of (get reg "institution_id") = Ok k ->
  InstitutionType_of (get_or reg "institution_type" (VStr "UNIVERSITE")) = Ok t ->
  let s1 := (_process_message e (VDict reg) sock1 s).2 in
  let handled := _process_message e (VDict bye) sock2 s1 in
  handled.1 = Ok disconnected
  /\ connected_institutions handled.2 = delete k (connected_institutions s)
  /\ institution_sockets handled.2 = delete k (institution_sockets s)
  /\ (connected_institutions s !! k = None -> institution_sockets s !! k = None ->
      handled.2 = s).
Proof.
  intros Hreg Hbye Hid Hk Ht. cbn zeta.
  destruct (register_institution_ok e reg sock1 s k t Hk Ht) as (inst & Hr & _).
  assert (Hs1 : (_process_message e (VDict reg) sock1 s).2
                = set_registry (<[k := inst]> (connected_institutions s))
                               (<[k := sock1]> (institution_sockets s)) s).
  { unfold _process_message. rewrite (get_bound _ _ _ Hreg).
    cbn [eq_str String.eqb Ascii.eqb Bool.eqb]. by rewrite Hr. }
  rewrite Hs1. unfold _process_message. rewrite (get_bound _ _ _ Hbye).
  cbn [eq_str String.eqb Ascii.eqb Bool.eqb].
  unfold _handle_disconnect, _cleanup_disconnected_institution. rewrite Hid, Hk.
  cbn [mbind result_bind mret result_ret fst snd connected_institutions institution_sockets
       set_registry].
  rewrite !delete_insert_eq. repeat apply conj; try reflexivity.
  intros H1 H2. rewrite !delete_id by assumption. by destruct s.
Qed.


End RegistryProperties.

Lemma router_keeps_registry_aligned_witness :
  let s' := (_process_message Examples.at_creation (VDict (Examples.registration "UNIVERSITE"))
                              7 (Examples.server_over Examples.empty_manager)).2 in
  dom (connected_institutions s') = dom (institution_sockets s')
  /\ (Props.type_of (VDict (Examples.registration "UNIVERSITE"))
        <> Some "register_institution" ->
      Props.type_of (VDict (Examples.registration "UNIVERSITE")) <> Some "disconnect" ->
      connected_institutions s'
      = connected_institutions (Examples.server_over Examples.empty_manager)
      /\ institution_sockets s'
         = institution_sockets (Examples.server_over Examples.empty_manager)).
Proof.
  apply (router_keeps_registry_aligned Examples.at_creation
           (VDict (Examples.registration "UNIVERSITE")) 7
           (Examples.server_over Examples.empty_manager)).
  cbn [Examples.server_over connected_institutions institution_sockets].
  by rewrite !dom_empty_L.
Defined.

Lemma queries_change_nothing_witness :
  (_process_message Examples.at_creation (VDict Scenarios.statistics_request) 7
                    Scenarios.registered_server).2
  = Scenarios.registered_server.
Proof.
  apply (queries_change_nothing Examples.at_creation Scenarios.statistics_request
           "get_statistics" 7 Scenarios.registered_server).
  - reflexivity.
  - unfold Props.read_only_types. cbn [In]. tauto.
Defined.

Lemma register_then_disconnect_witness :
  let s1 := (_process_message Examples.at_creation (VDict (Examples.registration "UNIVERSITE"))
                              7 (Examples.server_over Examples.empty_manager)).2 in
  let handled := _process_message Examples.at_creation (VDict Scenarios.goodbye) 9 s1 in
  handled.1 = Ok Props.disconnected
  /\ connected_institutions handled.2
     = delete (KStr "univ_uy1")
              (connected_institutions (Examples.server_over Examples.empty_manager))
  /\ institution_sockets handled.2
     = delete (KStr "univ_uy1")
              (institution_sockets (Examples.server_over Examples.empty_manager))
  /\ (connected_institutions (Examples.server_over Examples.empty_manager)
        !! KStr "univ_uy1" = None ->
      institution_sockets (Examples.server_over Examples.empty_manager)
        !! KStr "univ_uy1" = None ->
      handled.2 = Examples.server_over Examples.empty_manager).
Proof.
  apply (register_then_disconnect Examples.at_creation (Examples.registration "UNIVERSITE")
           Scenarios.goodbye 7 9 (Examples.server_over Examples.empty_manager)
           (KStr "univ_uy1") UNIVERSITY); reflexivity.
Defined.


(** ** Reports: lists and reviews *)

Section Reports.
Import Props.

Lemma insert_desc_perm (col : string) (r : gmap string value) (l : list (gmap string value)) :
  Permutation (insert_desc col r l) (r :: l).
Proof.
  induction l as [|x l IH]; [reflexivity|]. cbn [insert_desc].
  destruct (sql_le _ _); [|reflexivity].
  rewrite IH. apply perm_swap.
Qed.

Lemma order_by_desc_perm (col : string) (l : list (gmap string value)) :
  Permutation (order_by_desc col l) l.
Proof.
  unfold order_by_desc. induction l as [|x l IH]; [reflexivity|].
  cbn [fold_right]. rewrite insert_desc_perm. by constructor.
Qed.

Lemma leb_trans (a b c : string) :
  String.leb a b = true -> String.leb b c = true -> String.leb a c = true.
Proof.
  intros H1 H2. apply Is_true_true. apply Is_true_true in H1, H2.
  exact (transitivity (R := String.le) H1 H2).
Qed.

Lemma sql_le_dates (a b : gmap string value) :
  (exists s, cell a "submission_date" = VStr s) ->
  (exists s, cell b "submission_date" = VStr s) ->
  sql_le (cell a "submission_date") (cell b "submission_date")
  = String.leb (submitted_at a) (submitted_at b).
Proof. intros [s Hs] [t Ht]. unfold submitted_at. by rewrite Hs, Ht. Qed.

Lemma dated_texts (l : list (gmap string value)) :
  dated l <-> Forall (fun r => exists s, cell r "submission_date" = VStr s) l.
Proof.
  unfold dated. rewrite forallb_forall, List.Forall_forall.
  split; intros H r Hr; specialize (H r Hr).
  - destruct (cell r "submission_date"); try discriminate. eauto.
  - by destruct H as [s ->].
Qed.

Lemma insert_desc_sorted (r : gmap string value) (l : list (gmap string value)) :
  dated (r :: l) -> newest_first l -> newest_first (insert_desc "submission_date" r l).
Proof.
  rewrite dated_texts. intros Hd. apply Forall_cons in Hd as [Hr Hd].
  induction l as [|x l IH]; cbn [insert_desc newest_first].
  - intros _. by repeat constructor.
  - intros [Hx Hs]. apply Forall_cons in Hd as [Hdx Hd].
    rewrite (sql_le_dates r x Hr Hdx).
    destruct (String.leb (submitted_at r) (submitted_at x)) eqn:E; cbn [newest_first].
    + split; [|by apply IH].
      apply List.Forall_forall. intros y Hy.
      apply (Permutation_in _ (insert_desc_perm "submission_date" r l)) in Hy.
      destruct Hy as [<-|Hy]; [exact E|].
      rewrite List.Forall_forall in Hx. by apply Hx.
    + assert (Hxr : String.leb (submitted_at x) (submitted_at r) = true).
      { destruct (String.leb_total (submitted_at r) (submitted_at x)); congruence. }
      split; [|by split].
      constructor; [exact Hxr|].
      apply List.Forall_forall. intros y Hy. rewrite List.Forall_forall in Hx.
      exact (leb_trans _ _ _ (Hx y Hy) Hxr).
Qed.

Lemma order_by_desc_sorted (l : list (gmap string value)) :
  dated l -> newest_first (order_by_desc "submission_date" l).
Proof.
  unfold order_by_desc. induction l as [|x l IH]; intros Hd; [exact I|].
  cbn [fold_right]. apply dated_texts in Hd. apply Forall_cons in Hd as [Hx Hd].
  apply insert_desc_sorted; [|by apply IH, dated_texts].
  apply dated_texts. apply Forall_cons. split; [exact Hx|].
  rewrite List.Forall_forall in *. intros y Hy. apply Hd.
  by apply (Permutation_in _ (order_by_desc_perm "submission_date" l)).
Qed.



End Reports.

Section Reviews.
Import Props.

Lemma set_reports_same (m : StageManager) (s : StageServerManager) :
  stage_manager s = m ->
  set_stage_manager (set_db (set_reports (reports (db m)) (db m)) m) s = s.
Proof. intros <-. destruct s as [? ? ? ? ? [[] ? ?] ?]. reflexivity. Qed.



End Reviews.

(** ** Requests about a stage that does not exist *)

Section UnknownStage.
Import Props.

Lemma set_manager_same (s : StageServerManager) :
  set_stage_manager (stage_manager s) s = s.
Proof. by destruct s. Qed.

(** X26.  For an identifier that no stage bears, the router answers without
    raising and without changing the server: [get_stage] with the error
    status, [delete_stage] and [generate_certificate] with a failure, all
    three with the message that the stage is not found. *)
Theorem unknown_stage_is_not_found (e : env) (msg : gmap string value) (sid : string)
        (client_socket : nat) (s : StageServerManager) :
  msg !! "stage_id" = Some (VStr sid) ->
  select_eq "stage_id" (VStr sid) (stages (db (stage_manager s))) = [] ->
  (msg !! "type" = Some (VStr "get_stage") ->
   _process_message e (VDict msg) client_socket s = (Ok no_such_stage, s))
  /\ (msg !! "type" = Some (VStr "delete_stage") ->
      _process_message e (VDict msg) client_socket s = (Ok stage_not_found, s))
  /\ (msg !! "type" = Some (VStr "generate_certificate") ->
      _process_message e (VDict msg) client_socket s = (Ok stage_not_found, s)).
Proof.
  intros Hsid Hnone. repeat apply conj; intros Hty; unfold _process_message;
    rewrite (get_bound _ _ _ Hty); cbn [eq_str String.eqb Ascii.eqb Bool.eqb].
  - unfold _handle_get_stage, get_stage. rewrite (get_bound _ _ _ Hsid).
    cbn [adapt mbind result_bind]. rewrite Hnone. reflexivity.
  - unfold _handle_delete_stage. rewrite (get_bound _ _ _ Hsid).
    rewrite (update_stage_unknown e sid "status" (VStr "ANNULE") (get msg "requester_id")
               (stage_manager s)); [by rewrite set_manager_same| |exact Hnone].
    apply (bool_decide_eq_true_1 ("status" ∈ stages_columns)). reflexivity.
  - unfold _handle_generate_certificate, generate_stage_certificate, get_stage.
    rewrite (get_bound _ _ _ Hsid). cbn [adapt mbind result_bind]. rewrite Hnone.
    reflexivity.
Qed.

Lemma unknown_stage_is_not_found_witness :
  let s := Examples.server_over Examples.manager_with_stage in
  _process_message Examples.at_deletion (VDict (Scenarios.request_for_stage_9 "get_stage")) 7 s
  = (Ok no_such_stage, s)
  /\ _process_message Examples.at_deletion
       (VDict (Scenarios.request_for_stage_9 "delete_stage")) 7 s
     = (Ok stage_not_found, s)
  /\ _process_message Examples.at_deletion
       (VDict (Scenarios.request_for_stage_9 "generate_certificate")) 7 s
     = (Ok stage_not_found, s).
Proof.
  intros s. repeat apply conj.
  - destruct (unknown_stage_is_not_found Examples.at_deletion
                (Scenarios.request_for_stage_9 "get_stage") "stage-9" 7 s)
      as (H & _ & _); [reflexivity|reflexivity|]. apply H. reflexivity.
  - destruct (unknown_stage_is_not_found Examples.at_deletion
                (Scenarios.request_for_stage_9 "delete_stage") "stage-9" 7 s)
      as (_ & H & _); [reflexivity|reflexivity|]. apply H. reflexivity.
  - destruct (unknown_stage_is_not_found Examples.at_deletion
                (Scenarios.request_for_stage_9 "generate_certificate") "stage-9" 7 s)
      as (_ & _ & H); [reflexivity|reflexivity|]. apply H. reflexivity.
Defined.

End UnknownStage.
